(** * GLOVE: the Framebuffer resource of the GLES layer

    A shallow embedding of [GLES/source/resources/framebuffer.cpp]:
    the masked stencil clear done on the host, the shared combined
    depth-stencil surface and its reference count, the completeness
    check, the lazy rebuild of the render pass and of the per-buffer
    framebuffer objects, and the attachment caches.

    Integers of the source are [Z] with their wrap-around written out,
    pointers are [option] of an address, the heap of [Texture] objects is a
    [gmap], and a dereference the C++ leaves undefined is [None]. *)

From Stdlib Require Import ZArith Lia.
From stdpp Require Import base option list gmap.

Local Open Scope Z_scope.

(** ** Machine integers *)

Definition uint8 (x : Z) : Z := x mod 2 ^ 8.
Definition uint32 (x : Z) : Z := x mod 2 ^ 32.

(** [~x] at type [uint32_t]. *)
Definition lnot32 (x : Z) : Z := uint32 (Z.lnot x).

(** ** Stencil clear emulation: the loops of
    [Framebuffer::UpdateClearDepthStencilTexture] *)

Module Stencil.

(** [uint8_t newStencilValue =
      (clearStencil & 0xFF) | ((oldStencilValue & 0xFF) & (~(stencilMaskFront & 0xFF)));]
    The operands are [uint32_t]; the assignment truncates to [uint8_t]. *)
Definition newStencilValue (clearStencil stencilMaskFront oldStencilValue : Z) : Z :=
  uint8 (Z.lor (Z.land clearStencil 0xFF)
               (Z.land (Z.land oldStencilValue 0xFF)
                       (lnot32 (Z.land stencilMaskFront 0xFF)))).

(** What the loop reads from [ImageRect] (a class of [utils/], not of
    [framebuffer.cpp]): [srcRect.width], [srcRect.height],
    [srcRect.GetPixelByteOffset()], [dstRect.GetRectAlignedRowInBytes()] and
    [dstRect.GetStartRowIndex(dataRowStride)]. *)
Record ImageRect := {
  width : Z;
  height : Z;
  pixelByteOffset : Z;
  dataRowStride : Z;
  dataCurrentRowIndex : Z
}.

(** Body of the inner loop: one read-modify-write of [dataPtr[dataIndex]],
    with [uint32_t dataIndex = col * srcRect.GetPixelByteOffset()].
    [dataPtr] is an offset into [dstData]; an access outside the buffer is
    undefined in the source and [None] here. *)
Definition clearPixel (clearStencil stencilMaskFront pbo : Z) (dataPtr : nat)
    (col : Z) (dstData : list Z) : option (list Z) :=
  let dataIndex := uint32 (col * pbo) in
  let i := (dataPtr + Z.to_nat dataIndex)%nat in
  oldStencilValue ← dstData !! i;
  Some (<[i := newStencilValue clearStencil stencilMaskFront oldStencilValue]> dstData).

(** [for(int col = 0; col < srcRect.width; ++col)], over the columns still
    to visit. *)
Fixpoint clearCols (clearStencil stencilMaskFront pbo : Z) (dataPtr : nat)
    (cols : list Z) (dstData : list Z) : option (list Z) :=
  match cols with
  | [] => Some dstData
  | col :: cols' =>
      dstData' ← clearPixel clearStencil stencilMaskFront pbo dataPtr col dstData;
      clearCols clearStencil stencilMaskFront pbo dataPtr cols' dstData'
  end.

(** [for(int row = 0; row < srcRect.height; ++row)], with
    [dataPtr = dataPtr + dataRowStride] after each row. *)
Fixpoint clearRows (clearStencil stencilMaskFront : Z) (r : ImageRect)
    (rows : nat) (dataPtr : nat) (dstData : list Z) : option (list Z) :=
  match rows with
  | O => Some dstData
  | S rows' =>
      dstData' ← clearCols clearStencil stencilMaskFront (pixelByteOffset r) dataPtr
                   (seqZ 0 (width r)) dstData;
      clearRows clearStencil stencilMaskFront r rows'
        (dataPtr + Z.to_nat (dataRowStride r))%nat dstData'
  end.

(** The two loops of [UpdateClearDepthStencilTexture] (lines 375-385,
    "perform the conversion"): [dstData] is the buffer [CopyPixelsToHost]
    filled, the result is the buffer handed to [CopyPixelsFromHost].  The
    function itself, with what it does before the loops, is
    [Fb.UpdateClearDepthStencilTexture] below. *)
Definition conversionLoop (clearStencil stencilMaskFront : Z)
    (r : ImageRect) (dstData : list Z) : option (list Z) :=
  clearRows clearStencil stencilMaskFront r (Z.to_nat (height r))
    (Z.to_nat (dataCurrentRowIndex r)) dstData.

(** Byte offset in [dstData] of the pixel at ([row], [col]). *)
Definition pixelIndex (r : ImageRect) (row col : Z) : nat :=
  Z.to_nat (dataCurrentRowIndex r + row * dataRowStride r + col * pixelByteOffset r).

(** The layout the loop relies on: pixels of a row do not run into the
    next row, and the rectangle lies inside the buffer. *)
Definition layout_ok (r : ImageRect) (dstData : list Z) : Prop :=
  0 < pixelByteOffset r ∧
  width r * pixelByteOffset r <= dataRowStride r ∧
  dataRowStride r < 2 ^ 32 ∧
  0 <= dataCurrentRowIndex r ∧
  dataCurrentRowIndex r + height r * dataRowStride r <= Z.of_nat (length dstData).

(** The masked clear as the specification words it:
    [(c & m) | (s & ~m)] over the low 8 bits. *)
Definition maskedClear_spec (c m s : Z) : Z :=
  Z.land (Z.lor (Z.land c m) (Z.land s (Z.lnot m))) 0xFF.

(** The loop seen as one pass over a list of byte offsets: [modifyAll]
    rewrites the bytes at [idxs] in turn, [rectIndices] lists the offsets the
    two nested loops visit, in the order they visit them. *)
Fixpoint modifyAll (f : Z → Z) (idxs : list nat) (buf : list Z) : option (list Z) :=
  match idxs with
  | [] => Some buf
  | i :: idxs' => old ← buf !! i; modifyAll f idxs' (<[i := f old]> buf)
  end.

Definition rowIndices (pbo : Z) (dataPtr : nat) (cols : list Z) : list nat :=
  (λ col, (dataPtr + Z.to_nat (uint32 (col * pbo)))%nat) <$> cols.

Fixpoint rectIndices (r : ImageRect) (rows : nat) (dataPtr : nat) : list nat :=
  match rows with
  | O => []
  | S rows' =>
      rowIndices (pixelByteOffset r) dataPtr (seqZ 0 (width r))
      ++ rectIndices r rows' (dataPtr + Z.to_nat (dataRowStride r))%nat
  end.

(** An 8 by 8 rectangle of one-byte pixels in rows of 8 bytes, and a single
    pixel; used as concrete inputs. *)
Definition rect8x8 : ImageRect :=
  {| width := 8; height := 8; pixelByteOffset := 1; dataRowStride := 8;
     dataCurrentRowIndex := 0 |}.

Definition rect1x1 : ImageRect :=
  {| width := 1; height := 1; pixelByteOffset := 1; dataRowStride := 1;
     dataCurrentRowIndex := 0 |}.

End Stencil.

(** ** Constants of the GLES 2.0 headers used by the Framebuffer *)

Module GL.
Definition GL_NONE : Z := 0.
Definition GL_TEXTURE : Z := 0x1702.
Definition GL_RENDERBUFFER : Z := 0x8D41.
Definition GL_INVALID_VALUE : Z := 0x0501.
Definition GL_COLOR_ATTACHMENT0 : Z := 0x8CE0.
Definition GL_DEPTH_ATTACHMENT : Z := 0x8D00.
Definition GL_STENCIL_ATTACHMENT : Z := 0x8D20.
Definition GL_FRAMEBUFFER_COMPLETE : Z := 0x8CD5.
Definition GL_FRAMEBUFFER_INCOMPLETE_ATTACHMENT : Z := 0x8CD6.
Definition GL_FRAMEBUFFER_INCOMPLETE_MISSING_ATTACHMENT : Z := 0x8CD7.
Definition GL_FRAMEBUFFER_INCOMPLETE_DIMENSIONS : Z := 0x8CD9.
Definition VK_FORMAT_UNDEFINED : Z := 0.
End GL.
Import GL.

(** ** The objects a Framebuffer points to *)

(** The part of [Texture] the Framebuffer reads and writes. *)
Module Tex.
Record Texture := {
  mWidth : Z;
  mHeight : Z;
  mInternalFormat : Z;
  mVkFormat : Z;
  mDataUpdated : bool;
  mDepthStencilTexture : option nat;
  mDepthStencilTextureRefCount : Z
}.

Definition SetDataUpdated (b : bool) (t : Texture) : Texture :=
  {| mWidth := mWidth t; mHeight := mHeight t; mInternalFormat := mInternalFormat t;
     mVkFormat := mVkFormat t; mDataUpdated := b;
     mDepthStencilTexture := mDepthStencilTexture t;
     mDepthStencilTextureRefCount := mDepthStencilTextureRefCount t |}.

Definition SetDepthStencilTexture (p : option nat) (t : Texture) : Texture :=
  {| mWidth := mWidth t; mHeight := mHeight t; mInternalFormat := mInternalFormat t;
     mVkFormat := mVkFormat t; mDataUpdated := mDataUpdated t;
     mDepthStencilTexture := p;
     mDepthStencilTextureRefCount := mDepthStencilTextureRefCount t |}.

Definition SetRefCount (n : Z) (t : Texture) : Texture :=
  {| mWidth := mWidth t; mHeight := mHeight t; mInternalFormat := mInternalFormat t;
     mVkFormat := mVkFormat t; mDataUpdated := mDataUpdated t;
     mDepthStencilTexture := mDepthStencilTexture t;
     mDepthStencilTextureRefCount := n |}.

(** Modelled from the spec: [Texture] is declared in [texture.h], not in
    [framebuffer.cpp]; its counter is a [uint32_t] that
    [IncreaseDepthStencilTextureRefCount] increments and
    [DecreaseDepthStencilTextureRefCount] decrements. *)
Definition IncreaseDepthStencilTextureRefCount (t : Texture) : Texture :=
  SetRefCount (uint32 (mDepthStencilTextureRefCount t + 1)) t.

Definition DecreaseDepthStencilTextureRefCount (t : Texture) : Texture :=
  SetRefCount (uint32 (mDepthStencilTextureRefCount t - 1)) t.
End Tex.

(** [Renderbuffer::GetTexture()]. *)
Record Renderbuffer := { rbTexture : option nat }.

(** [Attachment]: type, name and, for the colour slots of a window surface,
    the texture given to the constructor. *)
Record Attachment := {
  mType : Z;
  mName : Z;
  mTexture : option nat
}.

(** [new Attachment()] and [new Attachment(texture)]. *)
Definition newAttachment (texture : option nat) : Attachment :=
  {| mType := GL_NONE; mName := 0; mTexture := texture |}.

Record Rect := { x : Z; y : Z; width : Z; height : Z }.

(** [vulkanAPI::RenderPass]: the six flags, the handle and formats of the
    last [Create], and the clear parameters of the next [Begin].  A [float]
    is carried as its bit pattern; no arithmetic is done on it. *)
Module RP.
Record RenderPass := {
  mColorClearEnabled : bool;
  mDepthClearEnabled : bool;
  mStencilClearEnabled : bool;
  mColorWriteEnabled : bool;
  mDepthWriteEnabled : bool;
  mStencilWriteEnabled : bool;
  mVkRenderPass : option nat;
  mColorFormat : Z;
  mDepthStencilFormat : Z;
  mClearArea : Rect;
  mClearColorValue : list Z;
  mClearDepthValue : Z;
  mClearStencilValue : Z
}.

Definition SetEnabled (cc cd cs wc wd ws : bool) (rp : RenderPass) : RenderPass :=
  {| mColorClearEnabled := cc; mDepthClearEnabled := cd; mStencilClearEnabled := cs;
     mColorWriteEnabled := wc; mDepthWriteEnabled := wd; mStencilWriteEnabled := ws;
     mVkRenderPass := mVkRenderPass rp; mColorFormat := mColorFormat rp;
     mDepthStencilFormat := mDepthStencilFormat rp; mClearArea := mClearArea rp;
     mClearColorValue := mClearColorValue rp; mClearDepthValue := mClearDepthValue rp;
     mClearStencilValue := mClearStencilValue rp |}.

Definition SetCreated (h : option nat) (colorFormat dsFormat : Z) (rp : RenderPass) : RenderPass :=
  {| mColorClearEnabled := mColorClearEnabled rp; mDepthClearEnabled := mDepthClearEnabled rp;
     mStencilClearEnabled := mStencilClearEnabled rp;
     mColorWriteEnabled := mColorWriteEnabled rp; mDepthWriteEnabled := mDepthWriteEnabled rp;
     mStencilWriteEnabled := mStencilWriteEnabled rp;
     mVkRenderPass := h; mColorFormat := colorFormat;
     mDepthStencilFormat := dsFormat; mClearArea := mClearArea rp;
     mClearColorValue := mClearColorValue rp; mClearDepthValue := mClearDepthValue rp;
     mClearStencilValue := mClearStencilValue rp |}.

Definition SetClear (area : Rect) (color : list Z) (depth stencil : Z) (rp : RenderPass) : RenderPass :=
  {| mColorClearEnabled := mColorClearEnabled rp; mDepthClearEnabled := mDepthClearEnabled rp;
     mStencilClearEnabled := mStencilClearEnabled rp;
     mColorWriteEnabled := mColorWriteEnabled rp; mDepthWriteEnabled := mDepthWriteEnabled rp;
     mStencilWriteEnabled := mStencilWriteEnabled rp;
     mVkRenderPass := mVkRenderPass rp; mColorFormat := mColorFormat rp;
     mDepthStencilFormat := mDepthStencilFormat rp; mClearArea := area;
     mClearColorValue := color; mClearDepthValue := depth;
     mClearStencilValue := stencil |}.
End RP.

(** ** The store shared by all Framebuffers of a context

    [textures] and [renderbuffers] hold the live objects by address;
    [mTextureArray] and [mRenderbufferArray] are the context's name tables
    ([GetObject(index)]); [nextId] is the identity the next [new] returns;
    [deleted] logs every [delete] of a [Texture], latest first. *)
Record World := {
  textures : gmap nat Tex.Texture;
  renderbuffers : gmap nat Renderbuffer;
  mTextureArray : gmap Z nat;
  mRenderbufferArray : gmap Z nat;
  nextId : nat;
  deleted : list nat
}.

Definition setTextures (ts : gmap nat Tex.Texture) (w : World) : World :=
  {| textures := ts; renderbuffers := renderbuffers w; mTextureArray := mTextureArray w;
     mRenderbufferArray := mRenderbufferArray w; nextId := nextId w; deleted := deleted w |}.

(** [new T]: hands out [nextId w]. *)
Definition bumpId (w : World) : World :=
  {| textures := textures w; renderbuffers := renderbuffers w; mTextureArray := mTextureArray w;
     mRenderbufferArray := mRenderbufferArray w; nextId := S (nextId w); deleted := deleted w |}.

(** [p->...] on a [Texture *]: undefined on null and on a freed object. *)
Definition deref (w : World) (p : option nat) : option Tex.Texture :=
  a ← p; textures w !! a.

(** [delete p] for a non-null [Texture *]; freeing what is not live is
    undefined. *)
Definition deleteTexture (a : nat) (w : World) : option World :=
  _ ← textures w !! a;
  Some {| textures := delete a (textures w); renderbuffers := renderbuffers w;
          mTextureArray := mTextureArray w; mRenderbufferArray := mRenderbufferArray w;
          nextId := nextId w; deleted := a :: deleted w |}.

(** In-place update of the object at [a]. *)
Definition updTexture (a : nat) (f : Tex.Texture → Tex.Texture) (w : World) : option World :=
  t ← textures w !! a;
  Some (setTextures (<[a := f t]> (textures w)) w).

(** [n] objects handed out. *)
Definition bumpIdBy (n : nat) (w : World) : World :=
  {| textures := textures w; renderbuffers := renderbuffers w; mTextureArray := mTextureArray w;
     mRenderbufferArray := mRenderbufferArray w; nextId := n + nextId w; deleted := deleted w |}.

(** Every live texture was handed out by [new]: its address is below
    [nextId]. *)
Definition heap_fresh (w : World) : Prop :=
  ∀ a, is_Some (textures w !! a) → (a < nextId w)%nat.

(** The release of a shared surface as the specification words it:
    decrement the reference count first, delete only if the decrement
    reaches zero. *)
Definition release_spec (a : nat) (w : World) : option World :=
  w1 ← updTexture a Tex.DecreaseDepthStencilTextureRefCount w;
  t ← textures w1 !! a;
  if Tex.mDepthStencilTextureRefCount t =? 0 then deleteTexture a w1 else Some w1.

(** ** Collaborators outside [framebuffer.cpp]

    The format helpers of [utils/] and the Vulkan device.  Whether the device
    builds an object is not decided by this code: the outcome is a function
    of the identity of the object being built, which is new at every
    construction, and of the arguments of the call (the two formats for a
    render pass; the image views, the render pass, width and height for a
    framebuffer).  [FindSupportedDepthStencilFormat] stands for the call on
    [vkGpus[0]] with the depth and stencil bits of its argument.
    [GlFormatToStorageBits_stencil] is the [stencilBits] that
    [GlFormatToStorageBits] reports for a format.  [AttachmentUnref a w] is
    the store after an [Attachment] that is deleted has unreffed the texture
    at [a], [None] when that is undefined: the decrement of the bind count,
    and whether it finalizes the texture, are the [Texture]'s and are not
    decided here (see [Fb.deleteAttachment]). *)
Class Externals := {
  GlFormatIsColorRenderable : Z → bool;
  GlFormatIsDepthRenderable : Z → bool;
  GlFormatIsStencilRenderable : Z → bool;
  GlInternalFormatToVkFormat : Z → Z → Z;
  FindSupportedDepthStencilFormat : Z → Z;
  VkFormatToGlInternalformat : Z → Z;
  GlFormatToStorageBits_stencil : Z → Z;
  vkCreateRenderPass : nat → Z → Z → bool;
  vkCreateFramebuffer : nat → list nat → option nat → Z → Z → bool;
  AttachmentUnref : nat → World → option World
}.

(** ** The Framebuffer object *)

Module Fb.

(** The members of [class Framebuffer] that [framebuffer.cpp] uses.
    [mWidth] and [mHeight] stand for the dimensions behind
    [GetWidth()]/[SetWidth()]; [nextImageIndex] is
    [mEGLSurfaceInterface->nextImageIndex]; [mFramebuffers] holds the
    identities of the [vulkanAPI::Framebuffer] objects. *)
Record Framebuffer := {
  mIsSystem : bool;
  mUpdated : bool;
  mSizeUpdated : bool;
  mWidth : Z;
  mHeight : Z;
  mDepthStencilTexture : option nat;
  mAttachmentColors : list Attachment;
  mAttachmentDepth : Attachment;
  mAttachmentStencil : Attachment;
  mCacheColorTexture : option nat;
  mCacheDepthTexture : option nat;
  mCacheStencilTexture : option nat;
  mCacheColorRenderbuffer : option nat;
  mCacheDepthRenderbuffer : option nat;
  mCacheStencilRenderbuffer : option nat;
  mFramebuffers : list nat;
  mRenderPass : RP.RenderPass;
  nextImageIndex : nat
}.

Definition setFlags (updated sizeUpdated : bool) (fb : Framebuffer) : Framebuffer :=
  {| mIsSystem := mIsSystem fb; mUpdated := updated; mSizeUpdated := sizeUpdated;
     mWidth := mWidth fb; mHeight := mHeight fb;
     mDepthStencilTexture := mDepthStencilTexture fb;
     mAttachmentColors := mAttachmentColors fb; mAttachmentDepth := mAttachmentDepth fb;
     mAttachmentStencil := mAttachmentStencil fb;
     mCacheColorTexture := mCacheColorTexture fb; mCacheDepthTexture := mCacheDepthTexture fb;
     mCacheStencilTexture := mCacheStencilTexture fb;
     mCacheColorRenderbuffer := mCacheColorRenderbuffer fb;
     mCacheDepthRenderbuffer := mCacheDepthRenderbuffer fb;
     mCacheStencilRenderbuffer := mCacheStencilRenderbuffer fb;
     mFramebuffers := mFramebuffers fb; mRenderPass := mRenderPass fb;
     nextImageIndex := nextImageIndex fb |}.

(** [SetWidth(w); SetHeight(h);] *)
Definition setDims (w h : Z) (fb : Framebuffer) : Framebuffer :=
  {| mIsSystem := mIsSystem fb; mUpdated := mUpdated fb; mSizeUpdated := mSizeUpdated fb;
     mWidth := w; mHeight := h;
     mDepthStencilTexture := mDepthStencilTexture fb;
     mAttachmentColors := mAttachmentColors fb; mAttachmentDepth := mAttachmentDepth fb;
     mAttachmentStencil := mAttachmentStencil fb;
     mCacheColorTexture := mCacheColorTexture fb; mCacheDepthTexture := mCacheDepthTexture fb;
     mCacheStencilTexture := mCacheStencilTexture fb;
     mCacheColorRenderbuffer := mCacheColorRenderbuffer fb;
     mCacheDepthRenderbuffer := mCacheDepthRenderbuffer fb;
     mCacheStencilRenderbuffer := mCacheStencilRenderbuffer fb;
     mFramebuffers := mFramebuffers fb; mRenderPass := mRenderPass fb;
     nextImageIndex := nextImageIndex fb |}.

Definition setDepthStencilTexture (p : option nat) (fb : Framebuffer) : Framebuffer :=
  {| mIsSystem := mIsSystem fb; mUpdated := mUpdated fb; mSizeUpdated := mSizeUpdated fb;
     mWidth := mWidth fb; mHeight := mHeight fb;
     mDepthStencilTexture := p;
     mAttachmentColors := mAttachmentColors fb; mAttachmentDepth := mAttachmentDepth fb;
     mAttachmentStencil := mAttachmentStencil fb;
     mCacheColorTexture := mCacheColorTexture fb; mCacheDepthTexture := mCacheDepthTexture fb;
     mCacheStencilTexture := mCacheStencilTexture fb;
     mCacheColorRenderbuffer := mCacheColorRenderbuffer fb;
     mCacheDepthRenderbuffer := mCacheDepthRenderbuffer fb;
     mCacheStencilRenderbuffer := mCacheStencilRenderbuffer fb;
     mFramebuffers := mFramebuffers fb; mRenderPass := mRenderPass fb;
     nextImageIndex := nextImageIndex fb |}.

Definition setAttachmentColors (l : list Attachment) (fb : Framebuffer) : Framebuffer :=
  {| mIsSystem := mIsSystem fb; mUpdated := mUpdated fb; mSizeUpdated := mSizeUpdated fb;
     mWidth := mWidth fb; mHeight := mHeight fb;
     mDepthStencilTexture := mDepthStencilTexture fb;
     mAttachmentColors := l; mAttachmentDepth := mAttachmentDepth fb;
     mAttachmentStencil := mAttachmentStencil fb;
     mCacheColorTexture := mCacheColorTexture fb; mCacheDepthTexture := mCacheDepthTexture fb;
     mCacheStencilTexture := mCacheStencilTexture fb;
     mCacheColorRenderbuffer := mCacheColorRenderbuffer fb;
     mCacheDepthRenderbuffer := mCacheDepthRenderbuffer fb;
     mCacheStencilRenderbuffer := mCacheStencilRenderbuffer fb;
     mFramebuffers := mFramebuffers fb; mRenderPass := mRenderPass fb;
     nextImageIndex := nextImageIndex fb |}.

(** Rebinding of the depth attachment, done by the callers through the
    setters of [Attachment]. *)
Definition setAttachmentDepth (a : Attachment) (fb : Framebuffer) : Framebuffer :=
  {| mIsSystem := mIsSystem fb; mUpdated := mUpdated fb; mSizeUpdated := mSizeUpdated fb;
     mWidth := mWidth fb; mHeight := mHeight fb;
     mDepthStencilTexture := mDepthStencilTexture fb;
     mAttachmentColors := mAttachmentColors fb; mAttachmentDepth := a;
     mAttachmentStencil := mAttachmentStencil fb;
     mCacheColorTexture := mCacheColorTexture fb; mCacheDepthTexture := mCacheDepthTexture fb;
     mCacheStencilTexture := mCacheStencilTexture fb;
     mCacheColorRenderbuffer := mCacheColorRenderbuffer fb;
     mCacheDepthRenderbuffer := mCacheDepthRenderbuffer fb;
     mCacheStencilRenderbuffer := mCacheStencilRenderbuffer fb;
     mFramebuffers := mFramebuffers fb; mRenderPass := mRenderPass fb;
     nextImageIndex := nextImageIndex fb |}.

(** The six cache members at once. *)
Definition setCaches (ct dt st cr dr sr : option nat) (fb : Framebuffer) : Framebuffer :=
  {| mIsSystem := mIsSystem fb; mUpdated := mUpdated fb; mSizeUpdated := mSizeUpdated fb;
     mWidth := mWidth fb; mHeight := mHeight fb;
     mDepthStencilTexture := mDepthStencilTexture fb;
     mAttachmentColors := mAttachmentColors fb; mAttachmentDepth := mAttachmentDepth fb;
     mAttachmentStencil := mAttachmentStencil fb;
     mCacheColorTexture := ct; mCacheDepthTexture := dt; mCacheStencilTexture := st;
     mCacheColorRenderbuffer := cr; mCacheDepthRenderbuffer := dr;
     mCacheStencilRenderbuffer := sr;
     mFramebuffers := mFramebuffers fb; mRenderPass := mRenderPass fb;
     nextImageIndex := nextImageIndex fb |}.

Definition setFramebuffers (l : list nat) (fb : Framebuffer) : Framebuffer :=
  {| mIsSystem := mIsSystem fb; mUpdated := mUpdated fb; mSizeUpdated := mSizeUpdated fb;
     mWidth := mWidth fb; mHeight := mHeight fb;
     mDepthStencilTexture := mDepthStencilTexture fb;
     mAttachmentColors := mAttachmentColors fb; mAttachmentDepth := mAttachmentDepth fb;
     mAttachmentStencil := mAttachmentStencil fb;
     mCacheColorTexture := mCacheColorTexture fb; mCacheDepthTexture := mCacheDepthTexture fb;
     mCacheStencilTexture := mCacheStencilTexture fb;
     mCacheColorRenderbuffer := mCacheColorRenderbuffer fb;
     mCacheDepthRenderbuffer := mCacheDepthRenderbuffer fb;
     mCacheStencilRenderbuffer := mCacheStencilRenderbuffer fb;
     mFramebuffers := l; mRenderPass := mRenderPass fb;
     nextImageIndex := nextImageIndex fb |}.

Definition setRenderPass (rp : RP.RenderPass) (fb : Framebuffer) : Framebuffer :=
  {| mIsSystem := mIsSystem fb; mUpdated := mUpdated fb; mSizeUpdated := mSizeUpdated fb;
     mWidth := mWidth fb; mHeight := mHeight fb;
     mDepthStencilTexture := mDepthStencilTexture fb;
     mAttachmentColors := mAttachmentColors fb; mAttachmentDepth := mAttachmentDepth fb;
     mAttachmentStencil := mAttachmentStencil fb;
     mCacheColorTexture := mCacheColorTexture fb; mCacheDepthTexture := mCacheDepthTexture fb;
     mCacheStencilTexture := mCacheStencilTexture fb;
     mCacheColorRenderbuffer := mCacheColorRenderbuffer fb;
     mCacheDepthRenderbuffer := mCacheDepthRenderbuffer fb;
     mCacheStencilRenderbuffer := mCacheStencilRenderbuffer fb;
     mFramebuffers := mFramebuffers fb; mRenderPass := rp;
     nextImageIndex := nextImageIndex fb |}.

(** The three channels of the attachment enum. *)
Inductive Channel := Color | Depth | Stencil.

(** Modelled from the spec: the inline getters of [framebuffer.h], whose
    bodies [framebuffer.cpp] does not show.  Colour attachments are an
    ordered sequence
    whose order is the slot index; the colour type and name are those of
    slot 0, and [GL_NONE] and [0] while there is no slot. *)
Definition GetColorAttachmentType (fb : Framebuffer) : Z :=
  match mAttachmentColors fb with a :: _ => mType a | [] => GL_NONE end.
Definition GetColorAttachmentName (fb : Framebuffer) : Z :=
  match mAttachmentColors fb with a :: _ => mName a | [] => 0 end.
Definition GetDepthAttachmentType (fb : Framebuffer) : Z := mType (mAttachmentDepth fb).
Definition GetDepthAttachmentName (fb : Framebuffer) : Z := mName (mAttachmentDepth fb).
Definition GetStencilAttachmentType (fb : Framebuffer) : Z := mType (mAttachmentStencil fb).
Definition GetStencilAttachmentName (fb : Framebuffer) : Z := mName (mAttachmentStencil fb).

(** [GetCurrentBufferIndex]. *)
Definition GetCurrentBufferIndex (fb : Framebuffer) : nat :=
  if mIsSystem fb then nextImageIndex fb else 0%nat.

(** The off-screen branch shared, text for text, by
    [GetColorAttachmentTexture], [GetDepthAttachmentTexture] and
    [GetStencilAttachmentTexture]: name, then type, then the cache of that
    type, then the name table.  The outer [option] is definedness, the inner
    one the pointer.  [GetObject(index)] is the entry of the name table,
    null when there is none; [->GetTexture()] on a null or freed
    renderbuffer is undefined. *)
Definition resolve (w : World) (index type : Z) (cacheTexture cacheRenderbuffer : option nat)
    : option (option nat) :=
  if index =? 0 then Some None
  else if type =? GL_TEXTURE then
    match cacheTexture with
    | Some t => Some (Some t)
    | None => Some (mTextureArray w !! index)
    end
  else if type =? GL_RENDERBUFFER then
    match cacheRenderbuffer with
    | Some r => rb ← renderbuffers w !! r; Some (rbTexture rb)
    | None => r ← mRenderbufferArray w !! index; rb ← renderbuffers w !! r; Some (rbTexture rb)
    end
  else Some None.

Definition GetColorAttachmentTexture (w : World) (fb : Framebuffer) : option (option nat) :=
  if mIsSystem fb then
    a ← mAttachmentColors fb !! GetCurrentBufferIndex fb; Some (mTexture a)
  else resolve w (GetColorAttachmentName fb) (GetColorAttachmentType fb)
         (mCacheColorTexture fb) (mCacheColorRenderbuffer fb).

Definition GetDepthAttachmentTexture (w : World) (fb : Framebuffer) : option (option nat) :=
  if mIsSystem fb then Some (mDepthStencilTexture fb)
  else resolve w (GetDepthAttachmentName fb) (GetDepthAttachmentType fb)
         (mCacheDepthTexture fb) (mCacheDepthRenderbuffer fb).

Definition GetStencilAttachmentTexture (w : World) (fb : Framebuffer) : option (option nat) :=
  if mIsSystem fb then Some (mDepthStencilTexture fb)
  else resolve w (GetStencilAttachmentName fb) (GetStencilAttachmentType fb)
         (mCacheStencilTexture fb) (mCacheStencilRenderbuffer fb).

(** Modelled from the spec: the overload [GetColorAttachmentTexture(i)] of
    [framebuffer.h]; a window surface has one colour slot per swap image,
    any other Framebuffer resolves its one colour attachment. *)
Definition GetColorAttachmentTextureAt (w : World) (fb : Framebuffer) (i : nat)
    : option (option nat) :=
  if mIsSystem fb then a ← mAttachmentColors fb !! i; Some (mTexture a)
  else GetColorAttachmentTexture w fb.

(** The getters by channel. *)
Definition attachmentType (fb : Framebuffer) (ch : Channel) : Z :=
  match ch with
  | Color => GetColorAttachmentType fb
  | Depth => GetDepthAttachmentType fb
  | Stencil => GetStencilAttachmentType fb
  end.

Definition attachmentName (fb : Framebuffer) (ch : Channel) : Z :=
  match ch with
  | Color => GetColorAttachmentName fb
  | Depth => GetDepthAttachmentName fb
  | Stencil => GetStencilAttachmentName fb
  end.

Definition attachmentTexture (w : World) (fb : Framebuffer) (ch : Channel) : option (option nat) :=
  match ch with
  | Color => GetColorAttachmentTexture w fb
  | Depth => GetDepthAttachmentTexture w fb
  | Stencil => GetStencilAttachmentTexture w fb
  end.

Definition cacheTexture (fb : Framebuffer) (ch : Channel) : option nat :=
  match ch with
  | Color => mCacheColorTexture fb
  | Depth => mCacheDepthTexture fb
  | Stencil => mCacheStencilTexture fb
  end.

Definition cacheRenderbuffer (fb : Framebuffer) (ch : Channel) : option nat :=
  match ch with
  | Color => mCacheColorRenderbuffer fb
  | Depth => mCacheDepthRenderbuffer fb
  | Stencil => mCacheStencilRenderbuffer fb
  end.

Definition attachmentEnum (ch : Channel) : Z :=
  match ch with
  | Color => GL_COLOR_ATTACHMENT0
  | Depth => GL_DEPTH_ATTACHMENT
  | Stencil => GL_STENCIL_ATTACHMENT
  end.

(** [Get...AttachmentTexture()->...]: the resolved pointer dereferenced. *)
Definition attachmentDeref (w : World) (fb : Framebuffer) (ch : Channel) : option Tex.Texture :=
  p ← attachmentTexture w fb ch; deref w p.

(** *** [AddColorAttachment] and [SetColorAttachment] *)

Definition AddColorAttachment (w : World) (texture : option nat) (fb : Framebuffer)
    : option Framebuffer :=
  t ← deref w texture;
  let fb1 := setAttachmentColors (mAttachmentColors fb ++ [newAttachment texture]) fb in
  let fb2 := setDims (Tex.mWidth t) (Tex.mHeight t) fb1 in
  Some (setFlags true (mSizeUpdated fb2) fb2).

Definition SetColorAttachment (w : World) (width height : Z) (fb : Framebuffer)
    : option Framebuffer :=
  let fb1 :=
    if (length (mAttachmentColors fb) =? 0)%nat
    then setAttachmentColors (mAttachmentColors fb ++ [newAttachment None]) fb
    else fb in
  let fb2 := setDims width height fb1 in
  sizeUpdated ←
    match mDepthStencilTexture fb2 with
    | None => Some true
    | Some a =>
        t ← textures w !! a;
        Some (negb (Tex.mWidth t =? mWidth fb2) || negb (Tex.mHeight t =? mHeight fb2))
    end;
  Some (setFlags true sizeUpdated fb2).

(** [SetColorAttachment] called once per element of [sizes], in order. *)
Fixpoint SetColorAttachmentMany (w : World) (sizes : list (Z * Z)) (fb : Framebuffer)
    : option Framebuffer :=
  match sizes with
  | [] => Some fb
  | (width, height) :: sizes' =>
      fb' ← SetColorAttachment w width height fb;
      SetColorAttachmentMany w sizes' fb'
  end.

(** The combined surface the Framebuffer points to, if any, is a live
    object. *)
Definition surfaceLive (w : World) (fb : Framebuffer) : Prop :=
  match mDepthStencilTexture fb with
  | Some a => is_Some (textures w !! a)
  | None => True
  end.

(** No attachment of the Framebuffer was given a texture at its
    construction: the depth and stencil attachments come from
    [new Attachment()] (lines 46-47), and so do the colour attachments
    [SetColorAttachment] adds (line 213); only [AddColorAttachment] builds
    one on a texture (line 198). *)
Definition holdsNoTexture (fb : Framebuffer) : Prop :=
  mTexture (mAttachmentDepth fb) = None ∧ mTexture (mAttachmentStencil fb) = None ∧
  ∀ a, a ∈ mAttachmentColors fb → mTexture a = None.

Section WithExternals.
Context `{Externals}.

(** *** [CheckStatus] *)

(** The renderability predicate [CheckStatus] applies to each channel. *)
Definition renderable (ch : Channel) : Z → bool :=
  match ch with
  | Color => GlFormatIsColorRenderable
  | Depth => GlFormatIsDepthRenderable
  | Stencil => GlFormatIsStencilRenderable
  end.

(** One disjunct of the second rule, with the predicate of the channel:
    [type != GL_NONE && (!renderable(tex->GetInternalFormat()) ||
                         tex->GetWidth() <= 0 || tex->GetHeight() <= 0)].
    The texture is dereferenced only when the type is not [GL_NONE]. *)
Definition attachmentBad (w : World) (fb : Framebuffer) (ch : Channel) : option bool :=
  if attachmentType fb ch =? GL_NONE then Some false
  else
    t ← attachmentDeref w fb ch;
    Some (negb (renderable ch (Tex.mInternalFormat t))
          || (Tex.mWidth t <=? 0) || (Tex.mHeight t <=? 0)).

(** One of the three pairwise rules: both types not [GL_NONE] and widths or
    heights different. *)
Definition dimensionsDiffer (w : World) (fb : Framebuffer) (a b : Channel) : option bool :=
  if negb (attachmentType fb a =? GL_NONE) && negb (attachmentType fb b =? GL_NONE) then
    ta ← attachmentDeref w fb a;
    tb ← attachmentDeref w fb b;
    Some (negb (Tex.mWidth ta =? Tex.mWidth tb) || negb (Tex.mHeight ta =? Tex.mHeight tb))
  else Some false.

(** [a || b] where [b] is evaluated only when [a] is false. *)
Definition orElse (a b : option bool) : option bool :=
  x ← a; if (x : bool) then Some true else b.

Definition CheckStatus (w : World) (fb : Framebuffer) : option Z :=
  if (GetColorAttachmentType fb =? GL_NONE) && (GetDepthAttachmentType fb =? GL_NONE)
     && (GetStencilAttachmentType fb =? GL_NONE)
  then Some GL_FRAMEBUFFER_INCOMPLETE_MISSING_ATTACHMENT
  else
    bad ← orElse (attachmentBad w fb Color)
             (orElse (attachmentBad w fb Depth) (attachmentBad w fb Stencil));
    if (bad : bool) then Some GL_FRAMEBUFFER_INCOMPLETE_ATTACHMENT
    else
      cd ← dimensionsDiffer w fb Color Depth;
      if (cd : bool) then Some GL_FRAMEBUFFER_INCOMPLETE_DIMENSIONS
      else
        cs ← dimensionsDiffer w fb Color Stencil;
        if (cs : bool) then Some GL_FRAMEBUFFER_INCOMPLETE_DIMENSIONS
        else
          ds ← dimensionsDiffer w fb Depth Stencil;
          if (ds : bool) then Some GL_FRAMEBUFFER_INCOMPLETE_DIMENSIONS
          else Some GL_FRAMEBUFFER_COMPLETE.

(** *** [CreateVkRenderPass] *)

(** [p ? p->GetVkFormat() : VK_FORMAT_UNDEFINED]. *)
Definition vkFormatOr (w : World) (p : option nat) : option Z :=
  match p with
  | Some a => t ← textures w !! a; Some (Tex.mVkFormat t)
  | None => Some VK_FORMAT_UNDEFINED
  end.

(** The six setters, then [mRenderPass->Create(colorFormat, dsFormat)]:
    a render pass object of a new identity, kept when the device built it. *)
Definition CreateVkRenderPass (cc cd cs wc wd ws : bool) (w : World) (fb : Framebuffer)
    : option (World * Framebuffer * bool) :=
  let rp := RP.SetEnabled cc cd cs wc wd ws (mRenderPass fb) in
  c ← GetColorAttachmentTexture w fb;
  colorFormat ← vkFormatOr w c;
  dsFormat ← vkFormatOr w (mDepthStencilTexture fb);
  let id := nextId w in
  let ok := vkCreateRenderPass id colorFormat dsFormat in
  let rp' := RP.SetCreated (if ok then Some id else None) colorFormat dsFormat rp in
  Some (bumpId w, setRenderPass rp' fb, ok).

(** *** [CreateDepthStencilTexture] *)

(** Modelled from the spec: [new Texture(mVkContext)], whose constructor is
    in [texture.cpp]: a texture that carries no combined surface
    and whose reference count is zero, the first increment being the one
    [CreateDepthStencilTexture] does for the creating Framebuffer. *)
Definition newTexture : Tex.Texture :=
  {| Tex.mWidth := 0; Tex.mHeight := 0; Tex.mInternalFormat := GL_INVALID_VALUE;
     Tex.mVkFormat := VK_FORMAT_UNDEFINED; Tex.mDataUpdated := false;
     Tex.mDepthStencilTexture := None; Tex.mDepthStencilTextureRefCount := 0 |}.

(** [p ? p->GetInternalFormat() : GL_INVALID_VALUE]. *)
Definition internalFormatOr (w : World) (p : option nat) : option Z :=
  match p with
  | Some a => t ← textures w !! a; Some (Tex.mInternalFormat t)
  | None => Some GL_INVALID_VALUE
  end.

(** [SetVkFormat], [InitState], [SetState(GetWidth(), GetHeight(), ...)] and
    [Allocate] on the new surface. *)
Definition initSurface (vkformat width height : Z) (t : Tex.Texture) : Tex.Texture :=
  {| Tex.mWidth := width; Tex.mHeight := height;
     Tex.mInternalFormat := VkFormatToGlInternalformat vkformat;
     Tex.mVkFormat := vkformat; Tex.mDataUpdated := Tex.mDataUpdated t;
     Tex.mDepthStencilTexture := Tex.mDepthStencilTexture t;
     Tex.mDepthStencilTextureRefCount := Tex.mDepthStencilTextureRefCount t |}.

(** Lines 305-309: the surface the depth attachment's texture already
    carries, if this is not a window surface. *)
Definition reusableSurface (w : World) (fb : Framebuffer) (d : option nat)
    : option (option nat) :=
  if mIsSystem fb then Some None
  else match d with
       | Some da => td ← textures w !! da; Some (Tex.mDepthStencilTexture td)
       | None => Some None
       end.

(** Lines 311-338: drop the surface held so far, build a new one at the
    Framebuffer's dimensions, and record it on the depth attachment's
    texture. *)
Definition allocateSurface (w : World) (fb : Framebuffer) : option (World * Framebuffer) :=
  w1 ← match mDepthStencilTexture fb with
       | Some old => deleteTexture old w
       | None => Some w
       end;
  let a := nextId w1 in
  let w2 := bumpId (setTextures (<[a := newTexture]> (textures w1)) w1) in
  let fb2 := setDepthStencilTexture (Some a) fb in
  d ← GetDepthAttachmentTexture w2 fb2;
  dfmt ← internalFormatOr w2 d;
  s ← GetStencilAttachmentTexture w2 fb2;
  sfmt ← internalFormatOr w2 s;
  let vkformat := FindSupportedDepthStencilFormat (GlInternalFormatToVkFormat dfmt sfmt) in
  w3 ← updTexture a (initSurface vkformat (mWidth fb2) (mHeight fb2)) w2;
  d' ← GetDepthAttachmentTexture w3 fb2;
  match (if mIsSystem fb2 then None else d') with
  | Some da =>
      w4 ← updTexture da (Tex.SetDepthStencilTexture (Some a)) w3;
      w5 ← updTexture a Tex.IncreaseDepthStencilTextureRefCount w4;
      Some (w5, fb2)
  | None => Some (w3, fb2)
  end.

Definition CreateDepthStencilTexture (w : World) (fb : Framebuffer)
    : option (World * Framebuffer) :=
  d ← GetDepthAttachmentTexture w fb;
  any ← match d with
        | Some _ => Some true
        | None => s ← GetStencilAttachmentTexture w fb; Some (bool_decide (is_Some s))
        end;
  if (any : bool) then
    reuse ← reusableSurface w fb d;
    match reuse with
    | Some ds =>
        w' ← updTexture ds Tex.IncreaseDepthStencilTextureRefCount w;
        Some (w', setDepthStencilTexture (Some ds) fb)
    | None => allocateSurface w fb
    end
  else Some (w, fb).

(** *** [~Framebuffer] and [Release] *)

(** Modelled from the spec: [Attachment::~Attachment] is code of
    [attachment.h], not of [framebuffer.cpp].  An Attachment is "destroyed
    with the owning Framebuffer, unreffing whatever it holds": [delete] of
    an [Attachment] object unrefs the texture given to its constructor, if
    any.  The type and name of an attachment are numbers; the object they
    name is bound and unbound by [RefAttachment] and [UnrefAttachment], not
    here. *)
Definition deleteAttachment (a : Attachment) (w : World) : option World :=
  match mTexture a with
  | Some t => AttachmentUnref t w
  | None => Some w
  end.

(** [for(auto color : mAttachmentColors) { if(color) { delete color; ... } }]
    (lines 67-72). *)
Fixpoint deleteAttachments (l : list Attachment) (w : World) : option World :=
  match l with
  | [] => Some w
  | color :: l' => w' ← deleteAttachment color w; deleteAttachments l' w'
  end.

(** The release of the combined surface (lines 58-65). *)
Definition releaseDepthStencilTexture (w : World) (fb : Framebuffer) : option World :=
  if mIsSystem fb then Some w
  else match mDepthStencilTexture fb with
       | Some a =>
           t ← textures w !! a;
           if Tex.mDepthStencilTextureRefCount t =? 1 then deleteTexture a w
           else updTexture a Tex.DecreaseDepthStencilTextureRefCount w
       | None => Some w
       end.

(** [~Framebuffer], in the order of the source: the depth and the stencil
    attachment are deleted (lines 55-56), the combined surface is released
    (58-65), the colour attachments are deleted (67-72).  The render pass
    (line 54) and the per-buffer objects ([Release], line 75) are
    [vulkanAPI] objects owned by this Framebuffer alone; they are no part of
    the store. *)
Definition destructor (w : World) (fb : Framebuffer) : option World :=
  w1 ← deleteAttachment (mAttachmentDepth fb) w;
  w2 ← deleteAttachment (mAttachmentStencil fb) w1;
  w3 ← releaseDepthStencilTexture w2 fb;
  deleteAttachments (mAttachmentColors fb) w3.

Definition Release (fb : Framebuffer) : Framebuffer := setFramebuffers [] fb.

(** *** [Create]: the per-buffer framebuffer objects *)

(** [if(p) imageViews.push_back(p->GetVkImageView());], a view being named
    by the texture it views. *)
Definition imageViewOf (w : World) (p : option nat) : option (list nat) :=
  match p with
  | Some a => _ ← textures w !! a; Some [a]
  | None => Some []
  end.

(** The [imageViews] vector of slot [i]: the colour view, then the view of
    the combined surface. *)
Definition slotImageViews (w : World) (fb : Framebuffer) (i : nat) : option (list nat) :=
  c ← GetColorAttachmentTextureAt w fb i;
  vc ← imageViewOf w c;
  vd ← imageViewOf w (mDepthStencilTexture fb);
  Some (vc ++ vd).

(** The loop of [Create] over the slots still to build. *)
Fixpoint createLoop (w : World) (fb : Framebuffer) (slots : list nat)
    : option (World * Framebuffer * bool) :=
  match slots with
  | [] => Some (w, fb, true)
  | i :: slots' =>
      let frameBuffer := nextId w in
      let w1 := bumpId w in
      imageViews ← slotImageViews w1 fb i;
      if vkCreateFramebuffer frameBuffer imageViews (RP.mVkRenderPass (mRenderPass fb))
           (mWidth fb) (mHeight fb)
      then createLoop w1 (setFramebuffers (mFramebuffers fb ++ [frameBuffer]) fb) slots'
      else Some (w1, fb, false)
  end.

Definition Create (w : World) (fb : Framebuffer) : option (World * Framebuffer * bool) :=
  createLoop w (Release fb) (seq 0 (length (mAttachmentColors fb))).

(** *** [CreateRenderPass] *)

(** The condition of line 625: dirty, size dirty, or one of the six flags
    differs from the one recorded in [mRenderPass]. *)
Definition needsRebuild (cc cd cs wc wd ws : bool) (fb : Framebuffer) : bool :=
  mUpdated fb || mSizeUpdated fb
  || negb (eqb (RP.mColorClearEnabled (mRenderPass fb)) cc)
  || negb (eqb (RP.mDepthClearEnabled (mRenderPass fb)) cd)
  || negb (eqb (RP.mStencilClearEnabled (mRenderPass fb)) cs)
  || negb (eqb (RP.mColorWriteEnabled (mRenderPass fb)) wc)
  || negb (eqb (RP.mDepthWriteEnabled (mRenderPass fb)) wd)
  || negb (eqb (RP.mStencilWriteEnabled (mRenderPass fb)) ws).

(** Lines 633-641, the body of the rebuild.  The results of
    [CreateVkRenderPass] and [Create] are dropped, as in the source. *)
Definition rebuild (cc cd cs wc wd ws : bool) (w : World) (fb : Framebuffer)
    : option (World * Framebuffer) :=
  '(w1, fb1) ←
    (if negb (mIsSystem fb) && mSizeUpdated fb then
       '(w1, fb1) ← CreateDepthStencilTexture w fb;
       Some (w1, setFlags (mUpdated fb1) false fb1)
     else Some (w, fb));
  '(w2, fb2, _) ← CreateVkRenderPass cc cd cs wc wd ws w1 fb1;
  '(w3, fb3, _) ← Create w2 fb2;
  Some (w3, setFlags false (mSizeUpdated fb3) fb3).

Definition CreateRenderPass (cc cd cs wc wd ws : bool)
    (colorValue : list Z) (depthValue stencilValue : Z) (clearRect : Rect)
    (w : World) (fb : Framebuffer) : option (World * Framebuffer) :=
  '(w', fb') ←
    (if needsRebuild cc cd cs wc wd ws fb then rebuild cc cd cs wc wd ws w fb
     else Some (w, fb));
  let clearRect2D :=
    {| x := x clearRect; y := y clearRect;
       width := uint32 (width clearRect); height := uint32 (height clearRect) |} in
  Some (w', setRenderPass
              (RP.SetClear clearRect2D colorValue depthValue stencilValue (mRenderPass fb'))
              fb').

(** *** [CheckForUpdatedResources] *)

Definition CheckForUpdatedResources (w : World) (fb : Framebuffer)
    : option (World * Framebuffer) :=
  c ← GetColorAttachmentTexture w fb;
  match c with
  | None => Some (w, fb)
  | Some a =>
      t ← textures w !! a;
      let fb1 := setFlags (mUpdated fb || Tex.mDataUpdated t) (mSizeUpdated fb) fb in
      let fb2 :=
        if negb (Tex.mWidth t =? mWidth fb1) || negb (Tex.mHeight t =? mHeight fb1)
        then setFlags (mUpdated fb1) true (setDims (Tex.mWidth t) (Tex.mHeight t) fb1)
        else fb1 in
      w' ← updTexture a (Tex.SetDataUpdated false) w;
      Some (w', fb2)
  end.

(** *** The attachment caches *)

Definition isNull (p : option nat) : bool :=
  match p with None => true | Some _ => false end.

(** [CacheAttachement(Texture *bTexture, GLuint index)]. *)
Definition CacheAttachementTexture (bTexture : option nat) (index : Z) (fb : Framebuffer)
    : Framebuffer :=
  let fill (ch : Channel) :=
    if (index =? attachmentName fb ch) && (GL_TEXTURE =? attachmentType fb ch)
       && isNull (cacheTexture fb ch)
    then bTexture else cacheTexture fb ch in
  setCaches (fill Color) (fill Depth) (fill Stencil)
    (mCacheColorRenderbuffer fb) (mCacheDepthRenderbuffer fb) (mCacheStencilRenderbuffer fb) fb.

(** [CacheAttachement(Renderbuffer *bRenderbuffer, GLuint index)]. *)
Definition CacheAttachementRenderbuffer (bRenderbuffer : option nat) (index : Z)
    (fb : Framebuffer) : Framebuffer :=
  let fill (ch : Channel) :=
    if (index =? attachmentName fb ch) && (GL_RENDERBUFFER =? attachmentType fb ch)
       && isNull (cacheRenderbuffer fb ch)
    then bRenderbuffer else cacheRenderbuffer fb ch in
  setCaches (mCacheColorTexture fb) (mCacheDepthTexture fb) (mCacheStencilTexture fb)
    (fill Color) (fill Depth) (fill Stencil) fb.

(** One [case] of [CleanCachedAttachment]: with a non-zero name, the cache
    of the attachment's current type is set to null; the result is the pair
    (texture cache, renderbuffer cache). *)
Definition cleanCase (index type : Z) (ct cr : option nat) : option nat * option nat :=
  if index =? 0 then (ct, cr)
  else if type =? GL_TEXTURE then (None, cr)
  else if type =? GL_RENDERBUFFER then (ct, None)
  else (ct, cr).

Definition CleanCachedAttachment (attachment : Z) (fb : Framebuffer) : Framebuffer :=
  if attachment =? GL_COLOR_ATTACHMENT0 then
    let '(ct, cr) := cleanCase (GetColorAttachmentName fb) (GetColorAttachmentType fb)
                       (mCacheColorTexture fb) (mCacheColorRenderbuffer fb) in
    setCaches ct (mCacheDepthTexture fb) (mCacheStencilTexture fb)
      cr (mCacheDepthRenderbuffer fb) (mCacheStencilRenderbuffer fb) fb
  else if attachment =? GL_DEPTH_ATTACHMENT then
    let '(dt, dr) := cleanCase (GetDepthAttachmentName fb) (GetDepthAttachmentType fb)
                       (mCacheDepthTexture fb) (mCacheDepthRenderbuffer fb) in
    setCaches (mCacheColorTexture fb) dt (mCacheStencilTexture fb)
      (mCacheColorRenderbuffer fb) dr (mCacheStencilRenderbuffer fb) fb
  else if attachment =? GL_STENCIL_ATTACHMENT then
    let '(st, sr) := cleanCase (GetStencilAttachmentName fb) (GetStencilAttachmentType fb)
                       (mCacheStencilTexture fb) (mCacheStencilRenderbuffer fb) in
    setCaches (mCacheColorTexture fb) (mCacheDepthTexture fb) st
      (mCacheColorRenderbuffer fb) (mCacheDepthRenderbuffer fb) sr fb
  else fb.

(** *** [UpdateClearDepthStencilTexture]

    Before the loops the function dereferences [mDepthStencilTexture] for
    the format of the surface (line 345; undefined on a null or freed
    pointer) and, at line 372, [assert(stencilBits > 0)] stops the program
    when that format has no stencil bits.  [r] stands for what the loops
    read from the [ImageRect] objects of lines 347-366 and [dstData] for the
    buffer [CopyPixelsToHost] filled at line 358, both code of [utils/] and
    of [Texture]; the result is the buffer handed to [CopyPixelsFromHost]
    at line 388. *)
Definition UpdateClearDepthStencilTexture (w : World) (fb : Framebuffer)
    (clearStencil stencilMaskFront : Z) (r : Stencil.ImageRect) (dstData : list Z)
    : option (list Z) :=
  t ← deref w (mDepthStencilTexture fb);
  let glFormat := VkFormatToGlInternalformat (Tex.mVkFormat t) in
  let stencilBits := GlFormatToStorageBits_stencil glFormat in
  if 0 <? stencilBits
  then Stencil.conversionLoop clearStencil stencilMaskFront r dstData
  else None.

(** *** Vocabulary of the statements below *)

(** The Framebuffer points to a live combined surface whose format has
    stencil bits: what lines 345 and 372 need. *)
Definition stencilSurface (w : World) (fb : Framebuffer) : Prop :=
  ∃ t, deref w (mDepthStencilTexture fb) = Some t ∧
       0 < GlFormatToStorageBits_stencil (VkFormatToGlInternalformat (Tex.mVkFormat t)).

(** A texture fails the second rule of [CheckStatus] for channel [ch]. *)
Definition badTexture (ch : Channel) (t : Tex.Texture) : Prop :=
  renderable ch (Tex.mInternalFormat t) = false ∨ Tex.mWidth t <= 0 ∨ Tex.mHeight t <= 0.

(** Whether the device builds the object of identity [id] for slot [i]. *)
Definition slotOutcome (w : World) (fb : Framebuffer) (id i : nat) : bool :=
  match slotImageViews w fb i with
  | Some imageViews =>
      vkCreateFramebuffer id imageViews (RP.mVkRenderPass (mRenderPass fb))
        (mWidth fb) (mHeight fb)
  | None => false
  end.

(** The surface [allocateSurface] leaves at the new address, once counted
    for the creating Framebuffer. *)
Definition surfaceOf (fb : Framebuffer) (dfmt sfmt : Z) : Tex.Texture :=
  Tex.IncreaseDepthStencilTextureRefCount
    (initSurface (FindSupportedDepthStencilFormat (GlInternalFormatToVkFormat dfmt sfmt))
       (mWidth fb) (mHeight fb) newTexture).

End WithExternals.
End Fb.

(** ** Concrete devices, stores and Framebuffers

    Small states on which the definitions above are run. *)

Module Examples.
Import Fb.

(** A device that builds every object, and one that refuses the
    framebuffer of identity [bad]; formats pass through unchanged, every
    format has 8 stencil bits, and an unref leaves a live texture in the
    store. *)
Definition okDevice : Externals :=
  {| GlFormatIsColorRenderable := λ _, true;
     GlFormatIsDepthRenderable := λ _, true;
     GlFormatIsStencilRenderable := λ _, true;
     GlInternalFormatToVkFormat := λ d _, d;
     FindSupportedDepthStencilFormat := λ f, f;
     VkFormatToGlInternalformat := λ f, f;
     GlFormatToStorageBits_stencil := λ _, 8;
     vkCreateRenderPass := λ _ _ _, true;
     vkCreateFramebuffer := λ _ _ _ _ _, true;
     AttachmentUnref := λ a w, _ ← textures w !! a; Some w |}.

Definition deviceFailingAt (bad : nat) : Externals :=
  {| GlFormatIsColorRenderable := λ _, true;
     GlFormatIsDepthRenderable := λ _, true;
     GlFormatIsStencilRenderable := λ _, true;
     GlInternalFormatToVkFormat := λ d _, d;
     FindSupportedDepthStencilFormat := λ f, f;
     VkFormatToGlInternalformat := λ f, f;
     GlFormatToStorageBits_stencil := λ _, 8;
     vkCreateRenderPass := λ _ _ _, true;
     vkCreateFramebuffer := λ id _ _ _ _, negb (id =? bad)%nat;
     AttachmentUnref := λ a w, _ ← textures w !! a; Some w |}.

(** A texture of the given size that carries no combined surface. *)
Definition texture (width height : Z) : Tex.Texture :=
  {| Tex.mWidth := width; Tex.mHeight := height; Tex.mInternalFormat := 0x81A5;
     Tex.mVkFormat := 124; Tex.mDataUpdated := false;
     Tex.mDepthStencilTexture := None; Tex.mDepthStencilTextureRefCount := 0 |}.

(** An attachment bound to the texture named [name]. *)
Definition boundTexture (name : Z) : Attachment :=
  {| mType := GL_TEXTURE; mName := name; mTexture := None |}.

Definition renderPass0 : RP.RenderPass :=
  {| RP.mColorClearEnabled := false; RP.mDepthClearEnabled := false;
     RP.mStencilClearEnabled := false; RP.mColorWriteEnabled := false;
     RP.mDepthWriteEnabled := false; RP.mStencilWriteEnabled := false;
     RP.mVkRenderPass := None; RP.mColorFormat := 0; RP.mDepthStencilFormat := 0;
     RP.mClearArea := {| x := 0; y := 0; width := 0; height := 0 |};
     RP.mClearColorValue := []; RP.mClearDepthValue := 0; RP.mClearStencilValue := 0 |}.

Definition framebuffer (isSystem updated sizeUpdated : bool) (width height : Z)
    (colors : list Attachment) (depth stencil : Attachment) : Framebuffer :=
  {| mIsSystem := isSystem; mUpdated := updated; mSizeUpdated := sizeUpdated;
     mWidth := width; mHeight := height; mDepthStencilTexture := None;
     mAttachmentColors := colors; mAttachmentDepth := depth; mAttachmentStencil := stencil;
     mCacheColorTexture := None; mCacheDepthTexture := None; mCacheStencilTexture := None;
     mCacheColorRenderbuffer := None; mCacheDepthRenderbuffer := None;
     mCacheStencilRenderbuffer := None;
     mFramebuffers := []; mRenderPass := renderPass0; nextImageIndex := 0 |}.

Definition emptyWorld : World :=
  {| textures := ∅; renderbuffers := ∅; mTextureArray := ∅; mRenderbufferArray := ∅;
     nextId := 0; deleted := [] |}.

(** A Framebuffer as its constructor leaves it, off-screen. *)
Definition fresh : Framebuffer :=
  framebuffer false true false 0 0 [] (newAttachment None) (newAttachment None).

(** *** Two Framebuffers on one depth texture

    Textures 0 and 1 are depth textures named 5 and 6.  [fbA] and [fbB] both
    have texture 5 as depth attachment. *)
Definition depthWorld : World :=
  {| textures := {[ 0%nat := texture 256 256; 1%nat := texture 256 256 ]};
     renderbuffers := ∅;
     mTextureArray := {[ 5 := 0%nat; 6 := 1%nat ]};
     mRenderbufferArray := ∅; nextId := 2; deleted := [] |}.

Definition fbA : Framebuffer :=
  framebuffer false true true 256 256 [] (boundTexture 5) (newAttachment None).
Definition fbB : Framebuffer :=
  framebuffer false false true 256 256 [] (boundTexture 5) (newAttachment None).

(** Both have run [CreateDepthStencilTexture]: they share surface 2. *)
Definition sharedState : World * Framebuffer * Framebuffer :=
  Eval vm_compute in
    default (depthWorld, fbA, fbB)
      ('(w1, a) ← CreateDepthStencilTexture (H := okDevice) depthWorld fbA;
       '(w2, b) ← CreateDepthStencilTexture (H := okDevice) w1 fbB;
       Some (w2, a, b)).
Definition sharedWorld : World := sharedState.1.1.
Definition sharedA : Framebuffer := sharedState.1.2.
Definition sharedB : Framebuffer := sharedState.2.

(** [sharedA] with its depth attachment rebound to texture 6, which carries
    no surface. *)
Definition reboundA : Framebuffer := setAttachmentDepth (boundTexture 6) sharedA.

(** *** A window surface with two swap images, textures 0 and 1 *)
Definition swapWorld : World :=
  {| textures := {[ 0%nat := texture 640 480; 1%nat := texture 640 480 ]};
     renderbuffers := ∅; mTextureArray := ∅; mRenderbufferArray := ∅;
     nextId := 2; deleted := [] |}.

Definition windowFb (sizeUpdated : bool) : Framebuffer :=
  framebuffer true true sizeUpdated 640 480
    [newAttachment (Some 0%nat); newAttachment (Some 1%nat)]
    (newAttachment None) (newAttachment None).

(** *** An off-screen target: colour textures 0 (256 by 256, name 1) and
    1 (512 by 512, name 2), depth texture 2 (256 by 256, name 3) *)
Definition resizeWorld : World :=
  {| textures := {[ 0%nat := texture 256 256; 1%nat := texture 512 512;
                    2%nat := texture 256 256 ]};
     renderbuffers := ∅;
     mTextureArray := {[ 1 := 0%nat; 2 := 1%nat; 3 := 2%nat ]};
     mRenderbufferArray := ∅; nextId := 3; deleted := [] |}.

(** Colour attachment 1 and depth attachment 3, as [SetColorAttachment]
    leaves the flags. *)
Definition targetFb : Framebuffer :=
  framebuffer false true true 256 256 [boundTexture 1] (boundTexture 3) (newAttachment None).

Definition noColor : list Z := [0; 0; 0; 0].
Definition fullRect (width height : Z) : Rect :=
  {| x := 0; y := 0; width := width; height := height |}.

(** [targetFb] prepared for rendering once: surface 3 exists at 256 by
    256. *)
Definition prepared : World * Framebuffer :=
  Eval vm_compute in
    default (resizeWorld, targetFb)
      (CreateRenderPass (H := okDevice) true true true true true true
         noColor 0 0 (fullRect 256 256) resizeWorld targetFb).

(** The colour attachment replaced by texture 2 (the cache of the channel
    cleaned), then [CheckForUpdatedResources]. *)
Definition replaced : World * Framebuffer :=
  Eval vm_compute in
    default prepared
      (CheckForUpdatedResources prepared.1
         (setAttachmentColors [boundTexture 2]
            (CleanCachedAttachment GL_COLOR_ATTACHMENT0 prepared.2))).

(** *** Attachments that fail the completeness rules: a colour texture of
    256 by 256 and a depth texture of 0 by 128 *)
Definition badWorld : World :=
  {| textures := {[ 0%nat := texture 256 256; 1%nat := texture 0 128 ]};
     renderbuffers := ∅;
     mTextureArray := {[ 1 := 0%nat; 2 := 1%nat ]};
     mRenderbufferArray := ∅; nextId := 2; deleted := [] |}.

Definition badFb : Framebuffer :=
  framebuffer false true true 256 256 [boundTexture 1] (boundTexture 2) (newAttachment None).

(** *** The colour cache of [targetFb]

    [targetFb] with its colour attachment, texture 0 under name 1, resolved
    and cached. *)
Definition cachedFb : Framebuffer := CacheAttachementTexture (Some 0%nat) 1 targetFb.

(** An attachment bound to the renderbuffer named [name]. *)
Definition boundRenderbuffer (name : Z) : Attachment :=
  {| mType := GL_RENDERBUFFER; mName := name; mTexture := None |}.

(** The colour attachment of [cachedFb] rebound to renderbuffer 4 before
    the cache of the channel is cleaned. *)
Definition reboundColor : Framebuffer := setAttachmentColors [boundRenderbuffer 4] cachedFb.

(** *** The surface of [sharedWorld] *)
Definition sharedSurface : Tex.Texture :=
  Eval vm_compute in default (texture 0 0) (textures sharedWorld !! 2%nat).

(** [CreateDepthStencilTexture] run once more on [sharedA], which holds
    surface 2 already. *)
Definition recounted : World * Framebuffer :=
  Eval vm_compute in
    default (sharedWorld, sharedA) (CreateDepthStencilTexture (H := okDevice) sharedWorld sharedA).

(** *** A target replaced as a whole: colour textures 0 (256 by 256, name 1)
    and 1 (512 by 512, name 2), depth textures 2 (256 by 256, name 3) and
    3 (512 by 512, name 4) *)
Definition growWorld : World :=
  {| textures := {[ 0%nat := texture 256 256; 1%nat := texture 512 512;
                    2%nat := texture 256 256; 3%nat := texture 512 512 ]};
     renderbuffers := ∅;
     mTextureArray := {[ 1 := 0%nat; 2 := 1%nat; 3 := 2%nat; 4 := 3%nat ]};
     mRenderbufferArray := ∅; nextId := 4; deleted := [] |}.

(** [targetFb] prepared for rendering once in [growWorld]: surface 4 exists
    at 256 by 256. *)
Definition grown : World * Framebuffer :=
  Eval vm_compute in
    default (growWorld, targetFb)
      (CreateRenderPass (H := okDevice) true true true true true true
         noColor 0 0 (fullRect 256 256) growWorld targetFb).

(** Colour and depth attachment replaced by the two textures of 512 by
    512, the caches of both channels cleaned first. *)
Definition regrown : Framebuffer :=
  setAttachmentDepth (boundTexture 4)
    (setAttachmentColors [boundTexture 2]
       (CleanCachedAttachment GL_DEPTH_ATTACHMENT
          (CleanCachedAttachment GL_COLOR_ATTACHMENT0 grown.2))).

End Examples.

(** ** More of [framebuffer.cpp] *)

Module FbOps.
Import Fb.

(** The constructor (lines 34-48).  The render pass it allocates, the
    dimensions and the surface interface are set by members of other
    classes and are taken as given. *)
Definition constructor (renderPass : RP.RenderPass) (width height : Z) (imageIndex : nat)
    : Framebuffer :=
  {| mIsSystem := false; mUpdated := true; mSizeUpdated := false;
     mWidth := width; mHeight := height; mDepthStencilTexture := None;
     mAttachmentColors := [];
     mAttachmentDepth := newAttachment None; mAttachmentStencil := newAttachment None;
     mCacheColorTexture := None; mCacheDepthTexture := None; mCacheStencilTexture := None;
     mCacheColorRenderbuffer := None; mCacheDepthRenderbuffer := None;
     mCacheStencilRenderbuffer := None;
     mFramebuffers := []; mRenderPass := renderPass; nextImageIndex := imageIndex |}.

(** [AddColorAttachment] called once per texture of [ts], in order. *)
Fixpoint AddColorAttachmentMany (w : World) (ts : list nat) (fb : Framebuffer)
    : option Framebuffer :=
  match ts with
  | [] => Some fb
  | t :: ts' => fb' ← AddColorAttachment w (Some t) fb; AddColorAttachmentMany w ts' fb'
  end.

(** [GetActiveVkFramebuffer]: [mFramebuffers[bufferIndex]->GetFramebuffer()],
    undefined when the index is past the end of the vector. *)
Definition GetActiveVkFramebuffer (fb : Framebuffer) : option nat :=
  mFramebuffers fb !! (if mIsSystem fb then nextImageIndex fb else 0%nat).

(** The calls [RefAttachment] and [UnrefAttachment] make on the objects
    behind an attachment. *)
Inductive BindCall :=
  | TextureBind (a : nat)
  | TextureUnbind (a : nat)
  | RenderbufferBind (r : nat)
  | RenderbufferUnbind (r : nat).

(** [p->Unbind()] and the like: the object must be live. *)
Definition onTexture (w : World) (call : nat → BindCall) (p : option nat)
    : option (list BindCall) :=
  a ← p; _ ← textures w !! a; Some [call a].
Definition onRenderbuffer (w : World) (call : nat → BindCall) (p : option nat)
    : option (list BindCall) :=
  r ← p; _ ← renderbuffers w !! r; Some [call r].

(** One [case] of [UnrefAttachment]: the cache of the current type if it is
    set, the name table otherwise. *)
Definition unrefCase (w : World) (index type : Z) (cacheTexture cacheRenderbuffer : option nat)
    : option (list BindCall) :=
  if index =? 0 then Some []
  else if type =? GL_TEXTURE then
    match cacheTexture with
    | Some t => onTexture w TextureUnbind (Some t)
    | None => onTexture w TextureUnbind (mTextureArray w !! index)
    end
  else if type =? GL_RENDERBUFFER then
    match cacheRenderbuffer with
    | Some r => onRenderbuffer w RenderbufferUnbind (Some r)
    | None => onRenderbuffer w RenderbufferUnbind (mRenderbufferArray w !! index)
    end
  else Some [].

(** One [case] of [RefAttachment]: always the name table. *)
Definition refCase (w : World) (index type : Z) : option (list BindCall) :=
  if index =? 0 then Some []
  else if type =? GL_TEXTURE then onTexture w TextureBind (mTextureArray w !! index)
  else if type =? GL_RENDERBUFFER then
    onRenderbuffer w RenderbufferBind (mRenderbufferArray w !! index)
  else Some [].

(** The channel an attachment enum selects in the three [switch]es. *)
Definition channelOf (attachment : Z) : option Channel :=
  if attachment =? GL_COLOR_ATTACHMENT0 then Some Color
  else if attachment =? GL_DEPTH_ATTACHMENT then Some Depth
  else if attachment =? GL_STENCIL_ATTACHMENT then Some Stencil
  else None.

Definition UnrefAttachment (w : World) (attachment : Z) (fb : Framebuffer)
    : option (list BindCall) :=
  match channelOf attachment with
  | Some ch => unrefCase w (attachmentName fb ch) (attachmentType fb ch)
                 (cacheTexture fb ch) (cacheRenderbuffer fb ch)
  | None => Some []
  end.

Definition RefAttachment (w : World) (attachment : Z) (fb : Framebuffer)
    : option (list BindCall) :=
  match channelOf attachment with
  | Some ch => refCase w (attachmentName fb ch) (attachmentType fb ch)
  | None => Some []
  end.

(** The call that undoes a [Bind], on the same object. *)
Definition undo (c : BindCall) : BindCall :=
  match c with
  | TextureBind a => TextureUnbind a
  | RenderbufferBind r => RenderbufferUnbind r
  | other => other
  end.
Definition undoAll (l : list BindCall) : list BindCall := undo <$> l.

End FbOps.

(** ** [EGL/source/api/eglContext.cpp]: [EGLContext_t] *)

Module Egl.

(** Values of the EGL headers. *)
Definition EGL_FALSE : Z := 0.
Definition EGL_TRUE : Z := 1.
Definition EGL_BAD_SURFACE : Z := 0x300D.
Definition EGL_CONTEXT_CLIENT_VERSION : Z := 0x3098.
Definition EGL_WINDOW_BIT : Z := 0x0004.

(** [rendering_api_return_e]: the two enumerators the source names, and any
    other one. *)
Inductive rendering_api_return_e :=
  | RENDERING_API_INIT_SUCCESS
  | RENDERING_API_ALREADY_INIT
  | RENDERING_API_other (code : nat).

(** The calls made through the callback table [mAPIInterface]. *)
Inductive ApiCall :=
  | release_system_fbo_cb (ctx : option nat)
  | create_context_cb
  | delete_context_cb (ctx : option nat)
  | set_write_surface_cb (ctx : option nat) (surfaceInterface : nat)
  | set_read_surface_cb (ctx : option nat) (surfaceInterface : nat)
  | set_next_image_index_cb (ctx : option nat) (index : Z)
  | finish_cb (ctx : option nat).

(** What lies outside the file: the value [EGL_GL_VERSION_1] of
    [utils/egl_defs.h]; [RENDERING_API_init_api], which returns a code and
    leaves a value in [mAPIInterface]; the context [create_context_cb]
    returns, as a function of the calls made so far. *)
Class Externals := {
  EGL_GL_VERSION_1 : Z;
  RENDERING_API_init_api : Z → Z → option nat → rendering_api_return_e * option nat;
  create_context_result : list ApiCall → option nat
}.

(** The part of [EGLSurface_t] read here: [GetType()] and
    [GetEGLSurfaceInterface()]. *)
Record EGLSurface_t := { sType : Z; sInterface : nat }.

Record EGLContext_t := {
  mAPIContext : option nat;
  mRenderingAPI : Z;
  mClientVersion : Z;
  mAPIInterface : option nat;
  mDisplay : option nat;
  mReadSurface : option nat;
  mDrawSurface : option nat
}.

(** The live surfaces by address, and the calls made so far, latest
    last. *)
Record State := {
  surfaces : gmap nat EGLSurface_t;
  calls : list ApiCall
}.

Definition emit (c : ApiCall) (st : State) : State :=
  {| surfaces := surfaces st; calls := calls st ++ [c] |}.

Section WithExternals.
Context `{Externals}.

(** [attribList] is a pointer to an array of [EGLint]; reading past the
    array is undefined.  The result type is [EGLenum], an [unsigned int]:
    the [EGLint] read at [attribList[1]] is converted, so that a negative
    value comes back with 2^32 added. *)
Definition GetClientVersionFromConfig (attribList : option (list Z)) : option Z :=
  match attribList with
  | None => Some (uint32 EGL_GL_VERSION_1)
  | Some l =>
      a0 ← l !! 0%nat;
      if negb (a0 =? EGL_CONTEXT_CLIENT_VERSION) then Some (uint32 EGL_GL_VERSION_1)
      else a1 ← l !! 1%nat; Some (uint32 a1)
  end.

(** The constructor. *)
Definition constructor (rendering_api : Z) (attribList : option (list Z))
    : option EGLContext_t :=
  v ← GetClientVersionFromConfig attribList;
  Some {| mAPIContext := None; mRenderingAPI := rendering_api; mClientVersion := v;
          mAPIInterface := None; mDisplay := None; mReadSurface := None;
          mDrawSurface := None |}.

(** A call through [mAPIInterface->]: undefined on a null table. *)
Definition viaInterface (c : EGLContext_t) (call : ApiCall) (st : State) : option State :=
  _ ← mAPIInterface c; Some (emit call st).

Definition Release (c : EGLContext_t) (st : State) : option State :=
  viaInterface c (release_system_fbo_cb (mAPIContext c)) st.

Definition Create (c : EGLContext_t) (st : State) : option (EGLContext_t * State * Z) :=
  let '(ret, interface) :=
    RENDERING_API_init_api (mRenderingAPI c) (mClientVersion c) (mAPIInterface c) in
  let c1 := {| mAPIContext := mAPIContext c; mRenderingAPI := mRenderingAPI c;
               mClientVersion := mClientVersion c; mAPIInterface := interface;
               mDisplay := mDisplay c; mReadSurface := mReadSurface c;
               mDrawSurface := mDrawSurface c |} in
  match ret with
  | RENDERING_API_other _ => Some (c1, st, EGL_FALSE)
  | _ =>
      st1 ← viaInterface c1 create_context_cb st;
      let ctx := create_context_result (calls st) in
      let c2 := {| mAPIContext := ctx; mRenderingAPI := mRenderingAPI c1;
                   mClientVersion := mClientVersion c1; mAPIInterface := mAPIInterface c1;
                   mDisplay := mDisplay c1; mReadSurface := mReadSurface c1;
                   mDrawSurface := mDrawSurface c1 |} in
      Some (c2, st1, match ctx with Some _ => EGL_TRUE | None => EGL_FALSE end)
  end.

Definition Destroy (c : EGLContext_t) (st : State) : State * Z :=
  match mAPIInterface c with
  | None => (st, EGL_FALSE)
  | Some _ => (emit (delete_context_cb (mAPIContext c)) st, EGL_TRUE)
  end.

Definition setDisplay (dpy : option nat) (c : EGLContext_t) : EGLContext_t :=
  {| mAPIContext := mAPIContext c; mRenderingAPI := mRenderingAPI c;
     mClientVersion := mClientVersion c; mAPIInterface := mAPIInterface c;
     mDisplay := dpy; mReadSurface := mReadSurface c; mDrawSurface := mDrawSurface c |}.

Definition setDrawSurface (s : option nat) (c : EGLContext_t) : EGLContext_t :=
  {| mAPIContext := mAPIContext c; mRenderingAPI := mRenderingAPI c;
     mClientVersion := mClientVersion c; mAPIInterface := mAPIInterface c;
     mDisplay := mDisplay c; mReadSurface := mReadSurface c; mDrawSurface := s |}.

Definition setReadSurface (s : option nat) (c : EGLContext_t) : EGLContext_t :=
  {| mAPIContext := mAPIContext c; mRenderingAPI := mRenderingAPI c;
     mClientVersion := mClientVersion c; mAPIInterface := mAPIInterface c;
     mDisplay := mDisplay c; mReadSurface := s; mDrawSurface := mDrawSurface c |}.

(** [MakeCurrent(dpy, draw, read)]; the result is an [EGLBoolean]. *)
Definition MakeCurrent (dpy draw read : option nat) (c : EGLContext_t) (st : State)
    : option (EGLContext_t * State * Z) :=
  let c1 := setDisplay dpy c in
  match draw with
  | None => Some (c1, st, EGL_BAD_SURFACE)
  | Some d =>
      drawSurface ← surfaces st !! d;
      if negb (sType drawSurface =? EGL_WINDOW_BIT) then Some (c1, st, EGL_TRUE)
      else
        let c2 := setDrawSurface draw c1 in
        st2 ← viaInterface c2 (set_write_surface_cb (mAPIContext c2) (sInterface drawSurface)) st;
        match read with
        | None => Some (c2, st2, EGL_TRUE)
        | Some r =>
            readSurface ← surfaces st2 !! r;
            let c3 := setReadSurface read c2 in
            st3 ← viaInterface c3
                    (set_read_surface_cb (mAPIContext c3) (sInterface readSurface)) st2;
            Some (c3, st3, EGL_TRUE)
        end
  end.

Definition SetNextImageIndex (index : Z) (c : EGLContext_t) (st : State) : option State :=
  viaInterface c (set_next_image_index_cb (mAPIContext c) (uint32 index)) st.

Definition Finish (c : EGLContext_t) (st : State) : option State :=
  viaInterface c (finish_cb (mAPIContext c)) st.

End WithExternals.
End Egl.

(** ** [EGL/source/platform/platformFactory.cpp]: [PlatformFactory] *)

Module Platform.

(** The platform macros the file is compiled under. *)
Record Build := {
  VK_USE_PLATFORM_XCB_KHR : bool;
  VK_USE_PLATFORM_WAYLAND_KHR : bool;
  VK_USE_PLATFORM_ANDROID_KHR : bool;
  VK_USE_PLATFORM_WIN32_KHR : bool;
  VK_USE_PLATFORM_MACOS_MVK : bool
}.

Inductive PlatformType :=
  | UNKNOWN_PLATFORM
  | WSI_XCB
  | WSI_WAYLAND
  | WSI_PLANE_DISPLAY
  | WSI_ANDROID
  | WSI_WINDOWS
  | WSI_MACOS.

(** The window-system object given to [SetWSI]. *)
Inductive WSI := WSIXcb | WSIWayland | WSIPlaneDisplay | WSIAndroid | WSIMacOS | WSIWindows.

(** What a getter hands back: a new object, or the null pointer returned
    after [NOT_REACHED()]. *)
Inductive Result (A : Type) :=
  | Returned (a : A)
  | NotReached.
Arguments Returned {A} a.
Arguments NotReached {A}.

(** [mInstance]: null, or the one factory with its [mPlatformType]. *)
Definition Instance := option PlatformType.

(** [GetInstance]: builds the factory, of unknown platform, on first use. *)
Definition GetInstance (mInstance : Instance) : Instance * PlatformType :=
  match mInstance with
  | Some t => (Some t, t)
  | None => (Some UNKNOWN_PLATFORM, UNKNOWN_PLATFORM)
  end.

Definition DestroyInstance (mInstance : Instance) : Instance := None.

(** [ChoosePlatform]: the first [#ifdef] block that is compiled in returns;
    the last line is reached only when none is. *)
Definition chosen (b : Build) : PlatformType :=
  if VK_USE_PLATFORM_XCB_KHR b then WSI_XCB
  else if VK_USE_PLATFORM_WAYLAND_KHR b then WSI_WAYLAND
  else if VK_USE_PLATFORM_ANDROID_KHR b then WSI_ANDROID
  else if VK_USE_PLATFORM_WIN32_KHR b then WSI_WINDOWS
  else if VK_USE_PLATFORM_MACOS_MVK b then WSI_MACOS
  else WSI_PLANE_DISPLAY.

Definition ChoosePlatform (b : Build) (mInstance : Instance) : Instance :=
  let '(_, _) := GetInstance mInstance in Some (chosen b).

(** The [switch] of [GetWindowInterface]: a [case] under [#ifdef] exists
    only in a build that defines the macro. *)
Definition windowInterfaceFor (b : Build) (t : PlatformType) : Result WSI :=
  match t with
  | WSI_XCB => if VK_USE_PLATFORM_XCB_KHR b then Returned WSIXcb else NotReached
  | WSI_WAYLAND => if VK_USE_PLATFORM_WAYLAND_KHR b then Returned WSIWayland else NotReached
  | WSI_PLANE_DISPLAY => Returned WSIPlaneDisplay
  | WSI_ANDROID => if VK_USE_PLATFORM_ANDROID_KHR b then Returned WSIAndroid else NotReached
  | WSI_MACOS => if VK_USE_PLATFORM_MACOS_MVK b then Returned WSIMacOS else NotReached
  | WSI_WINDOWS => if VK_USE_PLATFORM_WIN32_KHR b then Returned WSIWindows else NotReached
  | UNKNOWN_PLATFORM => NotReached
  end.

Definition GetWindowInterface (b : Build) (mInstance : Instance) : Instance * Result WSI :=
  let '(mInstance', platformType) := GetInstance mInstance in
  (mInstance', windowInterfaceFor b platformType).

(** The [switch] of [GetResources]; the result is a [VulkanResources]. *)
Definition resourcesFor (b : Build) (t : PlatformType) : Result unit :=
  match t with
  | WSI_XCB | WSI_WAYLAND | WSI_PLANE_DISPLAY => Returned ()
  | WSI_ANDROID => if VK_USE_PLATFORM_ANDROID_KHR b then Returned () else NotReached
  | WSI_WINDOWS => if VK_USE_PLATFORM_WIN32_KHR b then Returned () else NotReached
  | WSI_MACOS => if VK_USE_PLATFORM_MACOS_MVK b then Returned () else NotReached
  | UNKNOWN_PLATFORM => NotReached
  end.

Definition GetResources (b : Build) (mInstance : Instance) : Instance * Result unit :=
  let '(mInstance', platformType) := GetInstance mInstance in
  (mInstance', resourcesFor b platformType).

End Platform.

(** ** Vocabulary of the further statements *)

Module View.
Import Fb.
Section WithExternals.
Context `{Externals}.

(** What [CheckStatus] sees of a channel: nothing when its type is
    [GL_NONE], the texture it resolves to otherwise. *)
Definition sees (w : World) (fb : Framebuffer) (ch : Channel) (o : option Tex.Texture) : Prop :=
  match o with
  | None => attachmentType fb ch = GL_NONE
  | Some t => attachmentType fb ch ≠ GL_NONE ∧ attachmentDeref w fb ch = Some t
  end.

Definition bad (ch : Channel) (o : option Tex.Texture) : bool :=
  match o with
  | Some t => negb (renderable ch (Tex.mInternalFormat t))
              || (Tex.mWidth t <=? 0) || (Tex.mHeight t <=? 0)
  | None => false
  end.

Definition differ (oa ob : option Tex.Texture) : bool :=
  match oa, ob with
  | Some ta, Some tb =>
      negb (Tex.mWidth ta =? Tex.mWidth tb) || negb (Tex.mHeight ta =? Tex.mHeight tb)
  | _, _ => false
  end.

(** The decision table of [CheckStatus] over the three channels. *)
Definition status (oc od os : option Tex.Texture) : Z :=
  match oc, od, os with
  | None, None, None => GL_FRAMEBUFFER_INCOMPLETE_MISSING_ATTACHMENT
  | _, _, _ =>
      if bad Color oc || bad Depth od || bad Stencil os
      then GL_FRAMEBUFFER_INCOMPLETE_ATTACHMENT
      else if differ oc od || differ oc os || differ od os
      then GL_FRAMEBUFFER_INCOMPLETE_DIMENSIONS
      else GL_FRAMEBUFFER_COMPLETE
  end.

End WithExternals.
End View.

(** ** Further concrete states *)

Module Examples2.
Import Fb Examples.

(** The 8 by 8 buffer of [0x0F]. *)
Definition buffer8x8 : list Z := replicate 64 0x0F.

(** A Framebuffer fresh from the constructor. *)
Definition constructed : Framebuffer := FbOps.constructor renderPass0 0 0 0.

(** A window surface before its swap images are added. *)
Definition emptyWindowFb : Framebuffer :=
  framebuffer true true false 0 0 [] (newAttachment None) (newAttachment None).

(** [windowFb true] prepared for rendering once. *)
Definition windowPrepared : World * Framebuffer :=
  Eval vm_compute in
    default (swapWorld, windowFb true)
      (CreateRenderPass (H := okDevice) true true true true true true
         noColor 0 0 (fullRect 640 480) swapWorld (windowFb true)).

(** An off-screen Framebuffer with a stencil attachment only, texture 5 of
    [depthWorld]. *)
Definition stencilOnlyFb : Framebuffer :=
  framebuffer false true true 256 256 [] (newAttachment None) (boundTexture 5).

(** The colour attachment of [prepared] replaced, before
    [CheckForUpdatedResources]. *)
Definition swapped : Framebuffer :=
  setAttachmentColors [boundTexture 2]
    (CleanCachedAttachment GL_COLOR_ATTACHMENT0 prepared.2).

(** *** An EGL context *)

(** An API that initialises and hands back context 7 through callback
    table 1. *)
Definition api : Egl.Externals :=
  {| Egl.EGL_GL_VERSION_1 := 1;
     Egl.RENDERING_API_init_api := λ _ _ _, (Egl.RENDERING_API_INIT_SUCCESS, Some 1%nat);
     Egl.create_context_result := λ _, Some 7%nat |}.

(** Surface 1 is a window surface, surface 2 a pbuffer ([EGL_PBUFFER_BIT]). *)
Definition eglState : Egl.State :=
  {| Egl.surfaces := {[ 1%nat := {| Egl.sType := Egl.EGL_WINDOW_BIT; Egl.sInterface := 11 |};
                        2%nat := {| Egl.sType := 0x0001; Egl.sInterface := 12 |} ]};
     Egl.calls := [] |}.

Definition newContext : Egl.EGLContext_t :=
  {| Egl.mAPIContext := None; Egl.mRenderingAPI := 0x30A0; Egl.mClientVersion := 2;
     Egl.mAPIInterface := None; Egl.mDisplay := None; Egl.mReadSurface := None;
     Egl.mDrawSurface := None |}.

(** [newContext] after [Create]. *)
Definition createdContext : Egl.EGLContext_t :=
  {| Egl.mAPIContext := Some 7%nat; Egl.mRenderingAPI := 0x30A0; Egl.mClientVersion := 2;
     Egl.mAPIInterface := Some 1%nat; Egl.mDisplay := None; Egl.mReadSurface := None;
     Egl.mDrawSurface := None |}.

End Examples2.

(** * Properties *)

(** ** The masked stencil clear *)

Section StencilFacts.
Import Stencil.

Lemma uint8_land x : uint8 x = Z.land x 0xFF.
Proof. unfold uint8. change 255 with (Z.ones 8). by rewrite Z.land_ones. Qed.

Lemma lnot32_testbit x i : 0 <= i → Z.testbit (lnot32 x) i = (i <? 32) && negb (Z.testbit x i).
Proof.
  intros Hi. unfold lnot32, uint32.
  rewrite Z.testbit_mod_pow2 by lia.
  rewrite Z.lnot_spec by lia. done.
Qed.

Lemma testbit_255 i : 0 <= i → Z.testbit 255 i = (i <? 8).
Proof.
  intros Hi. change 255 with (Z.ones 8).
  destruct (Z.ltb_spec i 8).
  - apply Z.ones_spec_low; lia.
  - apply Z.ones_spec_high; lia.
Qed.

Lemma newStencilValue_bits c m s :
  newStencilValue c m s = Z.land (Z.lor c (Z.land s (Z.lnot m))) 0xFF.
Proof.
  unfold newStencilValue. rewrite uint8_land.
  apply Z.bits_inj'. intros i Hi.
  rewrite !Z.land_spec, !Z.lor_spec, !Z.land_spec, lnot32_testbit by done.
  rewrite Z.land_spec, Z.lnot_spec, testbit_255 by done.
  destruct (Z.ltb_spec i 8), (Z.ltb_spec i 32); try lia;
    destruct (Z.testbit c i), (Z.testbit s i), (Z.testbit m i); reflexivity.
Qed.

Lemma newStencilValue_masked c m s :
  Z.land (Z.land c 0xFF) (Z.lnot m) = 0 →
  newStencilValue c m s = maskedClear_spec c m s.
Proof.
  intros Hc. rewrite newStencilValue_bits. unfold maskedClear_spec.
  apply Z.bits_inj'. intros i Hi.
  apply (f_equal (λ z, Z.testbit z i)) in Hc.
  rewrite Z.bits_0, !Z.land_spec, Z.lnot_spec, testbit_255 in Hc by done.
  rewrite !Z.land_spec, !Z.lor_spec, !Z.land_spec, Z.lnot_spec, testbit_255 by done.
  destruct (Z.ltb_spec i 8);
    destruct (Z.testbit c i), (Z.testbit s i), (Z.testbit m i); simpl in *; congruence.
Qed.

Lemma modifyAll_app f a b buf :
  modifyAll f (a ++ b) buf = modifyAll f a buf ≫= modifyAll f b.
Proof.
  revert buf. induction a as [|i a IH]; intros buf; simpl; [done|].
  destruct (buf !! i) as [old|]; simpl; [apply IH | done].
Qed.

Lemma clearCols_modifyAll c m pbo ptr cols buf :
  clearCols c m pbo ptr cols buf = modifyAll (newStencilValue c m) (rowIndices pbo ptr cols) buf.
Proof.
  revert buf. induction cols as [|col cols IH]; intros buf; simpl; [done|].
  unfold clearPixel. simpl.
  destruct (buf !! _) as [old|]; simpl; [apply IH | done].
Qed.

Lemma clearRows_modifyAll c m r rows ptr buf :
  clearRows c m r rows ptr buf = modifyAll (newStencilValue c m) (rectIndices r rows ptr) buf.
Proof.
  revert ptr buf. induction rows as [|rows IH]; intros ptr buf; simpl; [done|].
  rewrite modifyAll_app, clearCols_modifyAll.
  destruct (modifyAll _ (rowIndices _ _ _) buf); simpl; [apply IH | done].
Qed.

Lemma modifyAll_spec f idxs : ∀ buf : list Z,
  NoDup idxs → (∀ i, i ∈ idxs → (i < length buf)%nat) →
  ∃ buf', modifyAll f idxs buf = Some buf' ∧ length buf' = length buf ∧
    ∀ j, buf' !! j = if decide (j ∈ idxs) then f <$> buf !! j else buf !! j.
Proof.
  induction idxs as [|i idxs IH]; intros buf Hnd Hlt.
  - exists buf. split_and!; [done..|]. intros j.
    destruct (decide (j ∈ [])) as [Hj|Hj]; [by apply elem_of_nil in Hj | done].
  - apply NoDup_cons in Hnd as [Hni Hnd].
    destruct (lookup_lt_is_Some_2 buf i) as [old Hold]; [apply Hlt; left|].
    cbn [modifyAll]. rewrite Hold. cbn [mbind option_bind].
    destruct (IH (<[i := f old]> buf) Hnd) as (buf' & Hrun & Hlen & Hget).
    { intros k Hk. rewrite length_insert. apply Hlt. by right. }
    exists buf'. split_and!; [done| by rewrite Hlen, length_insert |].
    intros j. rewrite Hget. destruct (decide (j = i)) as [->|Hne].
    + rewrite list_lookup_insert_eq by (apply Hlt; left). rewrite Hold.
      destruct (decide (i ∈ idxs)); [done|].
      destruct (decide (i ∈ i :: idxs)) as [|Hn]; [done|]. exfalso. apply Hn. left.
    + rewrite list_lookup_insert_ne by done.
      destruct (decide (j ∈ idxs)) as [Hin|Hnin];
        destruct (decide (j ∈ i :: idxs)) as [Hin'|Hnin']; try done.
      * exfalso. apply Hnin'. by right.
      * exfalso. apply elem_of_cons in Hin' as [?|?]; done.
Qed.

Section Layout.
Variable r : ImageRect.
Hypothesis Hpbo : 0 < pixelByteOffset r.
Hypothesis Hrow : width r * pixelByteOffset r <= dataRowStride r.
Hypothesis Hstride : dataRowStride r < 2 ^ 32.

Lemma col_offset col : 0 <= col < width r →
  uint32 (col * pixelByteOffset r) = col * pixelByteOffset r ∧
  0 <= col * pixelByteOffset r < dataRowStride r.
Proof.
  intros Hc. assert (0 <= col * pixelByteOffset r < dataRowStride r) by nia.
  split; [|done]. unfold uint32. apply Z.mod_small. lia.
Qed.

Lemma elem_of_rowIndices ptr j :
  j ∈ rowIndices (pixelByteOffset r) ptr (seqZ 0 (width r)) ↔
  ∃ col, 0 <= col < width r ∧ j = (ptr + Z.to_nat (col * pixelByteOffset r))%nat.
Proof.
  unfold rowIndices. rewrite list_elem_of_fmap. split.
  - intros (col & -> & Hin). apply elem_of_seqZ in Hin. exists col. split; [lia|].
    destruct (col_offset col) as [-> _]; [lia|done].
  - intros (col & Hc & ->). exists col. split; [|apply elem_of_seqZ; lia].
    destruct (col_offset col) as [-> _]; done.
Qed.

Lemma NoDup_rowIndices ptr :
  NoDup (rowIndices (pixelByteOffset r) ptr (seqZ 0 (width r))).
Proof.
  unfold rowIndices. apply NoDup_fmap_2_strong; [|apply NoDup_seqZ].
  intros c1 c2 H1%elem_of_seqZ H2%elem_of_seqZ Heq.
  destruct (col_offset c1) as [E1 ?]; [lia|]. destruct (col_offset c2) as [E2 ?]; [lia|].
  rewrite E1, E2 in Heq. nia.
Qed.

Lemma elem_of_rectIndices rows ptr j :
  j ∈ rectIndices r rows ptr ↔
  ∃ row col, 0 <= row < Z.of_nat rows ∧ 0 <= col < width r ∧
    j = (ptr + Z.to_nat (row * dataRowStride r + col * pixelByteOffset r))%nat.
Proof.
  revert ptr. induction rows as [|rows IH]; intros ptr; simpl.
  - split; [by intros ?%elem_of_nil | intros (?&?&?&_); lia].
  - rewrite elem_of_app, elem_of_rowIndices, IH. split.
    + intros [(col & Hc & ->)|(row & col & Hr & Hc & ->)].
      * exists 0, col. split_and!; [lia..|]. f_equal.
      * exists (row + 1), col. split_and!; [lia..|].
        destruct (col_offset col) as [_ ?]; [done|]. nia.
    + intros (row & col & Hr & Hc & ->).
      destruct (col_offset col) as [_ ?]; [done|].
      destruct (decide (row = 0)) as [->|Hne].
      * left. exists col. split; [done|]. f_equal.
      * right. exists (row - 1), col. split_and!; [lia..|]. nia.
Qed.

Lemma NoDup_rectIndices rows ptr : NoDup (rectIndices r rows ptr).
Proof.
  revert ptr. induction rows as [|rows IH]; intros ptr; simpl; [constructor|].
  apply NoDup_app. split_and!; [apply NoDup_rowIndices| |apply IH].
  intros j (col & Hc & ->)%elem_of_rowIndices (row & col' & Hr & Hc' & Heq)%elem_of_rectIndices.
  destruct (col_offset col) as [_ ?]; [done|].
  destruct (col_offset col') as [_ ?]; [done|]. nia.
Qed.

End Layout.

Lemma pixelIndex_split r row col :
  0 <= dataCurrentRowIndex r → 0 <= row * dataRowStride r + col * pixelByteOffset r →
  pixelIndex r row col =
    (Z.to_nat (dataCurrentRowIndex r)
     + Z.to_nat (row * dataRowStride r + col * pixelByteOffset r))%nat.
Proof. intros. unfold pixelIndex. lia. Qed.

(** The loop as a whole: it runs to completion inside the buffer, every
    pixel of the rectangle gets [newStencilValue] of its old byte, every
    other byte is left alone. *)
Lemma conversionLoop_pixels c m r buf :
  layout_ok r buf →
  ∃ buf', conversionLoop c m r buf = Some buf' ∧
    length buf' = length buf ∧
    (∀ row col, 0 <= row < height r → 0 <= col < width r →
       buf' !! pixelIndex r row col = newStencilValue c m <$> buf !! pixelIndex r row col) ∧
    (∀ j, j ∉ rectIndices r (Z.to_nat (height r)) (Z.to_nat (dataCurrentRowIndex r)) →
       buf' !! j = buf !! j).
Proof.
  intros (Hpbo & Hrow & Hstride & Hstart & Hfit).
  pose proof (elem_of_rectIndices r Hpbo Hrow Hstride) as Hel.
  pose proof (col_offset r Hpbo Hrow Hstride) as Hcol.
  unfold conversionLoop. rewrite clearRows_modifyAll.
  destruct (modifyAll_spec (newStencilValue c m)
              (rectIndices r (Z.to_nat (height r)) (Z.to_nat (dataCurrentRowIndex r))) buf)
    as (buf' & Hrun & Hlen & Hget).
  { by apply NoDup_rectIndices. }
  { intros j (row & col & Hr & Hc & ->)%Hel.
    destruct (Hcol col) as [_ ?]; [done|].
    assert (0 <= row * dataRowStride r) by nia.
    assert ((row + 1) * dataRowStride r <= height r * dataRowStride r) by nia.
    lia. }
  exists buf'. split_and!; [done..| |].
  - intros row col Hr Hc. rewrite Hget.
    destruct (Hcol col) as [_ ?]; [done|].
    rewrite decide_True; [done|].
    apply Hel. exists row, col. split; [lia|]. split; [done|].
    apply pixelIndex_split; [done|nia].
  - intros j Hj. rewrite Hget. by rewrite decide_False.
Qed.

Section Whole.
Import Fb.
Context `{Externals}.

(** With a live surface whose format has stencil bits the function is its
    two loops; without one it gives no result. *)
Lemma UpdateClear_run w fb c m r buf :
  stencilSurface w fb →
  UpdateClearDepthStencilTexture w fb c m r buf = conversionLoop c m r buf.
Proof.
  intros (t & Ht & Hbits). unfold UpdateClearDepthStencilTexture. rewrite Ht.
  cbn [mbind option_bind]. by rewrite (proj2 (Z.ltb_lt _ _) Hbits).
Qed.

Lemma UpdateClear_defined w fb c m r buf :
  is_Some (UpdateClearDepthStencilTexture w fb c m r buf) → stencilSurface w fb.
Proof.
  unfold UpdateClearDepthStencilTexture, stencilSurface. intros [res Hres].
  destruct (deref w (mDepthStencilTexture fb)) as [t|]; cbn [mbind option_bind] in Hres; [|done].
  exists t. split; [done|].
  destruct (Z.ltb_spec 0 (GlFormatToStorageBits_stencil
                            (VkFormatToGlInternalformat (Tex.mVkFormat t)))); done.
Qed.

(** C1, as the code has it.  The Framebuffer points to a live surface whose
    format has stencil bits.  For every clear value [c], write mask [m] and
    rectangle laid out inside the buffer, the function completes and the
    byte stored back for every pixel is [(c | (s & ~m)) & 0xFF], [s] being
    the byte read: a bit the mask selects takes the clear value's bit, a bit
    the mask does not select is the clear value's bit or-ed with the old
    bit.  The byte is [(c & m) | (s & ~m)] over the low 8 bits whenever the
    low byte of the clear value has no bit outside the mask. *)
Theorem C1_stored_byte (w : World) (fb : Framebuffer) (c m : Z) (r : ImageRect)
    (dstData : list Z) :
  stencilSurface w fb → layout_ok r dstData →
  ∃ written, UpdateClearDepthStencilTexture w fb c m r dstData = Some written ∧
    ∀ row col s, 0 <= row < height r → 0 <= col < width r →
      dstData !! pixelIndex r row col = Some s →
      written !! pixelIndex r row col = Some (Z.land (Z.lor c (Z.land s (Z.lnot m))) 0xFF) ∧
      (∀ i, 0 <= i < 8 → Z.testbit m i = true →
         Z.testbit (Z.land (Z.lor c (Z.land s (Z.lnot m))) 0xFF) i = Z.testbit c i) ∧
      (∀ i, 0 <= i < 8 → Z.testbit m i = false →
         Z.testbit (Z.land (Z.lor c (Z.land s (Z.lnot m))) 0xFF) i
         = Z.testbit c i || Z.testbit s i) ∧
      (Z.land (Z.land c 0xFF) (Z.lnot m) = 0 →
         written !! pixelIndex r row col = Some (maskedClear_spec c m s)).
Proof.
  intros Hsurf Hok. rewrite (UpdateClear_run w fb c m r dstData Hsurf).
  destruct (conversionLoop_pixels c m r dstData Hok) as (written & Hrun & _ & Hpix & _).
  exists written. split; [done|]. intros row col s Hr Hc Hs.
  pose proof (Hpix row col Hr Hc) as Hw. rewrite Hs in Hw. simpl in Hw.
  split_and!.
  - by rewrite Hw, newStencilValue_bits.
  - intros i Hi Hm.
    rewrite Z.land_spec, Z.lor_spec, Z.land_spec, Z.lnot_spec, testbit_255, Hm by lia.
    destruct (Z.ltb_spec i 8); [|lia].
    destruct (Z.testbit c i), (Z.testbit s i); reflexivity.
  - intros i Hi Hm.
    rewrite Z.land_spec, Z.lor_spec, Z.land_spec, Z.lnot_spec, testbit_255, Hm by lia.
    destruct (Z.ltb_spec i 8); [|lia].
    destruct (Z.testbit c i), (Z.testbit s i); reflexivity.
  - intros Hc0. by rewrite Hw, newStencilValue_masked.
Qed.

(** C8.  An 8 by 8 clear rectangle whose every pixel holds [0x0F], cleared
    with value [0xA5] under front write mask [0xF0] on a Framebuffer that
    points to a live surface with stencil bits: in whatever layout the
    rectangle has inside the buffer, the function completes and every pixel
    of the rectangle holds [0xAF] in the buffer written back. *)
Theorem C8_masked_clear_8x8 (w : World) (fb : Framebuffer) (r : ImageRect)
    (dstData : list Z) :
  stencilSurface w fb →
  layout_ok r dstData → width r = 8 → height r = 8 →
  (∀ row col, 0 <= row < 8 → 0 <= col < 8 → dstData !! pixelIndex r row col = Some 0x0F) →
  ∃ written, UpdateClearDepthStencilTexture w fb 0xA5 0xF0 r dstData = Some written ∧
    ∀ row col, 0 <= row < 8 → 0 <= col < 8 → written !! pixelIndex r row col = Some 0xAF.
Proof.
  intros Hsurf Hok Hw Hh Hold. rewrite (UpdateClear_run w fb _ _ r dstData Hsurf).
  destruct (conversionLoop_pixels 0xA5 0xF0 r dstData Hok) as (written & Hrun & _ & Hpix & _).
  exists written. split; [done|]. intros row col Hr Hc.
  rewrite Hpix, Hold by lia. reflexivity.
Qed.
End Whole.

Import Fb Examples.

Lemma layout_ok_rect1x1 : layout_ok rect1x1 [0].
Proof. unfold layout_ok. simpl. lia. Qed.

(** [sharedA] points to surface 2 of [sharedWorld], which is live; the
    device reports 8 stencil bits. *)
Lemma stencilSurface_sharedA : stencilSurface (H := okDevice) sharedWorld sharedA.
Proof. eexists. split; [reflexivity|]. simpl. lia. Defined.

Lemma C1_stored_byte_witness :
  ∃ written,
    UpdateClearDepthStencilTexture (H := okDevice) sharedWorld sharedA 0xA5 0xF0 rect1x1 [0]
      = Some written ∧
    ∀ row col s, 0 <= row < height rect1x1 → 0 <= col < width rect1x1 →
      [0] !! pixelIndex rect1x1 row col = Some s →
      written !! pixelIndex rect1x1 row col
        = Some (Z.land (Z.lor 0xA5 (Z.land s (Z.lnot 0xF0))) 0xFF) ∧
      (∀ i, 0 <= i < 8 → Z.testbit 0xF0 i = true →
         Z.testbit (Z.land (Z.lor 0xA5 (Z.land s (Z.lnot 0xF0))) 0xFF) i = Z.testbit 0xA5 i) ∧
      (∀ i, 0 <= i < 8 → Z.testbit 0xF0 i = false →
         Z.testbit (Z.land (Z.lor 0xA5 (Z.land s (Z.lnot 0xF0))) 0xFF) i
         = Z.testbit 0xA5 i || Z.testbit s i) ∧
      (Z.land (Z.land 0xA5 0xFF) (Z.lnot 0xF0) = 0 →
         written !! pixelIndex rect1x1 row col = Some (maskedClear_spec 0xA5 0xF0 s)).
Proof.
  apply (C1_stored_byte (H := okDevice) sharedWorld sharedA 0xA5 0xF0 rect1x1 [0]).
  - exact stencilSurface_sharedA.
  - unfold layout_ok. simpl. lia.
Defined.

(** C1 as stated fails: with clear value [0xFF] and write mask [0] on a
    pixel holding [0], the byte stored back is [0xFF], where
    [(c & m) | (s & ~m)] is [0]: the bits outside the mask did not keep
    their old value. *)
Lemma C1_counterexample :
  layout_ok rect1x1 [0] ∧
  [0] !! pixelIndex rect1x1 0 0 = Some 0 ∧
  UpdateClearDepthStencilTexture (H := okDevice) sharedWorld sharedA 0xFF 0 rect1x1 [0]
    = Some [0xFF] ∧
  [0xFF] !! pixelIndex rect1x1 0 0 = Some 0xFF ∧
  maskedClear_spec 0xFF 0 0 = 0.
Proof. split; [exact layout_ok_rect1x1|]. repeat split. Qed.

Lemma C8_masked_clear_8x8_witness :
  ∃ written,
    UpdateClearDepthStencilTexture (H := okDevice) sharedWorld sharedA 0xA5 0xF0 rect8x8
      (replicate 64 0x0F) = Some written ∧
    ∀ row col, 0 <= row < 8 → 0 <= col < 8 →
      written !! pixelIndex rect8x8 row col = Some 0xAF.
Proof.
  apply (C8_masked_clear_8x8 (H := okDevice) sharedWorld sharedA rect8x8 (replicate 64 0x0F)).
  - exact stencilSurface_sharedA.
  - unfold layout_ok. simpl. lia.
  - reflexivity.
  - reflexivity.
  - intros row col Hr Hc. apply lookup_replicate_2. unfold pixelIndex. simpl. lia.
Defined.

End StencilFacts.

(** ** Attachments: [SetColorAttachment] *)

Section AttachFacts.
Import Fb.

Lemma SetColorAttachment_defined w width height fb :
  surfaceLive w fb → ∃ fb', SetColorAttachment w width height fb = Some fb' ∧
  mAttachmentColors fb' =
    (if (length (mAttachmentColors fb) =? 0)%nat then [newAttachment None]
     else mAttachmentColors fb) ∧
  mDepthStencilTexture fb' = mDepthStencilTexture fb ∧
  mWidth fb' = width ∧ mHeight fb' = height ∧ mUpdated fb' = true ∧
  mIsSystem fb' = mIsSystem fb ∧
  mAttachmentDepth fb' = mAttachmentDepth fb ∧
  mAttachmentStencil fb' = mAttachmentStencil fb ∧
  (∀ ch, cacheTexture fb' ch = cacheTexture fb ch ∧
         cacheRenderbuffer fb' ch = cacheRenderbuffer fb ch) ∧
  mFramebuffers fb' = mFramebuffers fb ∧ mRenderPass fb' = mRenderPass fb ∧
  nextImageIndex fb' = nextImageIndex fb.
Proof.
  intros Hlive. unfold SetColorAttachment, surfaceLive in *.
  destruct fb as [sys upd szu wd ht dst colors ad ast c1 c2 c3 c4 c5 c6 fbs rp nii]; simpl in *.
  destruct colors as [|a colors]; simpl.
  - destruct dst as [a|]; simpl.
    + destruct Hlive as [t ->]. simpl. eexists. split; [done|]. simpl.
      split_and!; first [done | by intros []].
    + eexists. split; [done|]. simpl. split_and!; first [done | by intros []].
  - destruct dst as [a'|]; simpl.
    + destruct Hlive as [t ->]. simpl. eexists. split; [done|]. simpl.
      split_and!; first [done | by intros []].
    + eexists. split; [done|]. simpl. split_and!; first [done | by intros []].
Qed.

Lemma SetColorAttachmentMany_length w sizes : ∀ fb,
  surfaceLive w fb →
  ∃ fb', SetColorAttachmentMany w sizes fb = Some fb' ∧
    length (mAttachmentColors fb') =
      (if decide (sizes = []) then length (mAttachmentColors fb)
       else Nat.max 1 (length (mAttachmentColors fb))).
Proof.
  induction sizes as [|[wd ht] sizes IH]; intros fb Hlive; simpl.
  - by exists fb.
  - destruct (SetColorAttachment_defined w wd ht fb Hlive) as (fb1 & -> & Hc & Hd & _).
    simpl. destruct (IH fb1) as (fb' & Hrun & Hlen).
    { unfold surfaceLive in *. by rewrite Hd. }
    exists fb'. split; [done|]. rewrite Hlen, Hc.
    destruct (mAttachmentColors fb) as [|a l]; simpl; destruct (decide (sizes = [])); simpl; lia.
Qed.

(** C10.  [SetColorAttachment(width, height)] on a Framebuffer whose
    combined surface, if it has one, is live: the call completes; the list
    of colour attachments is not empty afterwards; an empty list becomes the
    one-element list holding a new, unbound attachment; a list that was not
    empty is unchanged.  The width, height and the two dirty flags apart,
    every other member is unchanged.  Any further sequence of calls leaves
    the length as it is, so a list of at most one entry stays at exactly
    one. *)
Theorem C10_SetColorAttachment w width height fb :
  surfaceLive w fb →
  ∃ fb', SetColorAttachment w width height fb = Some fb' ∧
    mAttachmentColors fb' ≠ [] ∧
    (mAttachmentColors fb = [] → mAttachmentColors fb' = [newAttachment None]) ∧
    (mAttachmentColors fb ≠ [] → mAttachmentColors fb' = mAttachmentColors fb) ∧
    mWidth fb' = width ∧ mHeight fb' = height ∧ mUpdated fb' = true ∧
    mIsSystem fb' = mIsSystem fb ∧
    mDepthStencilTexture fb' = mDepthStencilTexture fb ∧
    mAttachmentDepth fb' = mAttachmentDepth fb ∧
    mAttachmentStencil fb' = mAttachmentStencil fb ∧
    (∀ ch, cacheTexture fb' ch = cacheTexture fb ch ∧
           cacheRenderbuffer fb' ch = cacheRenderbuffer fb ch) ∧
    mFramebuffers fb' = mFramebuffers fb ∧ mRenderPass fb' = mRenderPass fb ∧
    nextImageIndex fb' = nextImageIndex fb ∧
    ∀ sizes, ∃ fb'', SetColorAttachmentMany w sizes fb' = Some fb'' ∧
      length (mAttachmentColors fb'') = length (mAttachmentColors fb') ∧
      ((length (mAttachmentColors fb) <= 1)%nat → length (mAttachmentColors fb'') = 1%nat).
Proof.
  intros Hlive.
  destruct (SetColorAttachment_defined w width height fb Hlive)
    as (fb' & Hrun & Hc & Hd & Hw & Hh & Hu & Hs & Had & Has & Hca & Hf & Hrp & Hn).
  exists fb'. split; [done|].
  assert (mAttachmentColors fb' ≠ []) as Hne.
  { rewrite Hc. destruct (mAttachmentColors fb); simpl; done. }
  split_and!; try done.
  - intros E. by rewrite Hc, E.
  - intros E. rewrite Hc. destruct (mAttachmentColors fb); simpl; done.
  - intros sizes. destruct (SetColorAttachmentMany_length w sizes fb') as (fb'' & Hmany & Hlen).
    { unfold surfaceLive in *. by rewrite Hd. }
    exists fb''. split; [done|].
    assert (length (mAttachmentColors fb'') = length (mAttachmentColors fb')) as E.
    { rewrite Hlen. destruct (decide (sizes = [])); [done|].
      destruct (mAttachmentColors fb'); [done|]. simpl. lia. }
    split; [done|]. intros Hle. rewrite E, Hc.
    destruct (mAttachmentColors fb) as [|a [|b l]]; simpl in *; try done. lia.
Qed.
End AttachFacts.

(** ** The attachment caches *)

Section CacheFacts.
Import Fb.

Lemma cleanCase_resolve w index type ct cr :
  resolve w index type (cleanCase index type ct cr).1 (cleanCase index type ct cr).2
  = resolve w index type None None.
Proof.
  unfold resolve, cleanCase.
  destruct (index =? 0); [done|].
  destruct (type =? GL_TEXTURE); [done|].
  destruct (type =? GL_RENDERBUFFER); done.
Qed.

Lemma CleanCachedAttachment_caches fb ch :
  let fb' := CleanCachedAttachment (attachmentEnum ch) fb in
  (cacheTexture fb' ch, cacheRenderbuffer fb' ch)
  = cleanCase (attachmentName fb ch) (attachmentType fb ch)
      (cacheTexture fb ch) (cacheRenderbuffer fb ch) ∧
  attachmentName fb' ch = attachmentName fb ch ∧
  attachmentType fb' ch = attachmentType fb ch ∧
  mIsSystem fb' = mIsSystem fb.
Proof.
  destruct ch; simpl; unfold CleanCachedAttachment; simpl.
  - destruct (cleanCase _ _ _ _); done.
  - destruct (cleanCase _ _ _ _); done.
  - destruct (cleanCase _ _ _ _); done.
Qed.

Lemma CleanCachedAttachment_setCaches attachment fb :
  ∃ ct dt st cr dr sr, CleanCachedAttachment attachment fb = setCaches ct dt st cr dr sr fb.
Proof.
  unfold CleanCachedAttachment.
  destruct (attachment =? GL_COLOR_ATTACHMENT0).
  { destruct (cleanCase _ _ _ _). by eexists _, _, _, _, _, _. }
  destruct (attachment =? GL_DEPTH_ATTACHMENT).
  { destruct (cleanCase _ _ _ _). by eexists _, _, _, _, _, _. }
  destruct (attachment =? GL_STENCIL_ATTACHMENT).
  { destruct (cleanCase _ _ _ _). by eexists _, _, _, _, _, _. }
  exists (mCacheColorTexture fb), (mCacheDepthTexture fb), (mCacheStencilTexture fb),
    (mCacheColorRenderbuffer fb), (mCacheDepthRenderbuffer fb), (mCacheStencilRenderbuffer fb).
  by destruct fb.
Qed.

End CacheFacts.

(** ** Completeness: [CheckStatus] *)

Section StatusFacts.
Import Fb.
Context `{Externals}.

Lemma attachmentBad_true w fb ch t :
  attachmentType fb ch ≠ GL_NONE → attachmentDeref w fb ch = Some t → badTexture ch t →
  attachmentBad w fb ch = Some true.
Proof.
  intros Hty Ht Hbad. unfold attachmentBad.
  apply Z.eqb_neq in Hty. rewrite Hty, Ht. simpl. f_equal.
  destruct Hbad as [->|[Hw|Hh]]; [done| |].
  - apply Z.leb_le in Hw. rewrite Hw. by rewrite orb_true_r.
  - apply Z.leb_le in Hh. rewrite Hh. by rewrite orb_true_r.
Qed.

Lemma attachmentBad_defined w fb ch :
  (attachmentType fb ch ≠ GL_NONE → is_Some (attachmentDeref w fb ch)) →
  is_Some (attachmentBad w fb ch).
Proof.
  intros Hres. unfold attachmentBad.
  destruct (Z.eqb_spec (attachmentType fb ch) GL_NONE) as [|Hne]; [done|].
  destruct (Hres Hne) as [t ->]. done.
Qed.

(** C7.  Every bound attachment (type not [GL_NONE]) resolves to a live
    texture, and one of them has a format its channel cannot render, or a
    width or height of zero or less: [CheckStatus] returns
    [GL_FRAMEBUFFER_INCOMPLETE_ATTACHMENT], hence not
    [GL_FRAMEBUFFER_INCOMPLETE_DIMENSIONS], whatever the dimensions of the
    other attachments are. *)
Theorem C7_bad_attachment_first (w : World) (fb : Framebuffer) (ch : Channel) (t : Tex.Texture) :
  (∀ c, attachmentType fb c ≠ GL_NONE → is_Some (attachmentDeref w fb c)) →
  attachmentType fb ch ≠ GL_NONE →
  attachmentDeref w fb ch = Some t →
  badTexture ch t →
  CheckStatus w fb = Some GL_FRAMEBUFFER_INCOMPLETE_ATTACHMENT ∧
  CheckStatus w fb ≠ Some GL_FRAMEBUFFER_INCOMPLETE_DIMENSIONS.
Proof.
  intros Hall Hty Ht Hbad.
  assert (CheckStatus w fb = Some GL_FRAMEBUFFER_INCOMPLETE_ATTACHMENT) as E; [|by rewrite E].
  unfold CheckStatus.
  assert ((GetColorAttachmentType fb =? GL_NONE) && (GetDepthAttachmentType fb =? GL_NONE)
          && (GetStencilAttachmentType fb =? GL_NONE) = false) as ->.
  { apply Z.eqb_neq in Hty. destruct ch; simpl in Hty; rewrite Hty;
      rewrite ?andb_false_r; done. }
  pose proof (attachmentBad_true w fb ch t Hty Ht Hbad) as Hb.
  destruct (attachmentBad_defined w fb Color (Hall Color)) as [bc Hc].
  destruct (attachmentBad_defined w fb Depth (Hall Depth)) as [bd Hd].
  destruct (attachmentBad_defined w fb Stencil (Hall Stencil)) as [bs Hs].
  rewrite Hc, Hd, Hs. unfold orElse. simpl.
  destruct ch; rewrite Hb in *; simplify_eq; simpl;
    repeat match goal with b : bool |- _ => destruct b end; done.
Qed.
End StatusFacts.

(** ** The rebuild: [Create] and [CreateRenderPass] *)

Section RebuildFacts.
Import Fb.
Context `{Externals}.

Lemma slotImageViews_frame w fb l i :
  slotImageViews (bumpId w) (setFramebuffers l fb) i = slotImageViews w fb i.
Proof. reflexivity. Qed.

Lemma bumpIdBy_0 w : bumpIdBy 0 w = w.
Proof. by destruct w. Qed.

Lemma bumpIdBy_1 w : bumpIdBy 1 w = bumpId w.
Proof. reflexivity. Qed.

Lemma bumpIdBy_S n w : bumpIdBy n (bumpId w) = bumpIdBy (S n) w.
Proof. unfold bumpIdBy, bumpId. simpl. f_equal. lia. Qed.

Lemma createLoop_spec m : ∀ i w fb,
  (∀ j, (i <= j < i + m)%nat → is_Some (slotImageViews w fb j)) →
  ∃ (k : nat) (b : bool),
    createLoop w fb (seq i m)
      = Some (bumpIdBy (k + if b then 0 else 1) w,
              setFramebuffers (mFramebuffers fb ++ seq (nextId w) k) fb, b) ∧
    (k <= m)%nat ∧
    (∀ j, (j < k)%nat → slotOutcome w fb (nextId w + j) (i + j) = true) ∧
    (if b then k = m else (k < m)%nat ∧ slotOutcome w fb (nextId w + k) (i + k) = false).
Proof.
  induction m as [|m IH]; intros i w fb Hviews.
  - exists 0%nat, true. simpl. rewrite app_nil_r, bumpIdBy_0.
    split_and!; [by destruct fb|lia| |done]. intros j Hj. lia.
  - cbn [seq createLoop].
    destruct (Hviews i) as [views Hv]; [lia|].
    change (slotImageViews (bumpId w) fb i) with (slotImageViews w fb i).
    rewrite Hv. cbn [mbind option_bind].
    destruct (vkCreateFramebuffer (nextId w) views _ _ _) eqn:Hok.
    + destruct (IH (S i) (bumpId w) (setFramebuffers (mFramebuffers fb ++ [nextId w]) fb))
        as (k & b & Hrun & Hk & Hbuilt & Hend).
      { intros j Hj. rewrite slotImageViews_frame. apply Hviews. lia. }
      exists (S k), b. rewrite Hrun. split_and!.
      * f_equal. f_equal. f_equal.
        -- rewrite bumpIdBy_S. done.
        -- simpl. rewrite <- app_assoc. done.
      * lia.
      * intros j Hj. destruct j as [|j].
        -- unfold slotOutcome. rewrite !Nat.add_0_r, Hv. done.
        -- specialize (Hbuilt j ltac:(lia)). simpl in Hbuilt.
           replace (nextId w + S j)%nat with (S (nextId w + j)) by lia.
           replace (i + S j)%nat with (S (i + j)) by lia. exact Hbuilt.
      * destruct b.
        -- lia.
        -- destruct Hend as [Hlt Hfail]. split; [lia|]. simpl in Hfail.
           replace (nextId w + S k)%nat with (S (nextId w + k)) by lia.
           replace (i + S k)%nat with (S (i + k)) by lia. exact Hfail.
    + exists 0%nat, false. simpl. rewrite app_nil_r. split_and!.
      * by destruct fb.
      * lia.
      * intros j Hj. lia.
      * lia.
      * unfold slotOutcome. rewrite !Nat.add_0_r, Hv. done.
Qed.

(** C4, as the code has it.  [Create] first drops every object held so
    far.  If the device refuses the object of some slot, [Create] stops at
    the first such slot [k] and returns [false]; the Framebuffer then holds
    exactly the objects this rebuild built for the slots before [k], all of
    them new and built by the device.  It holds none when slot 0 is the one
    refused, in particular whenever there is one slot only, as for an
    off-screen Framebuffer. *)
Theorem C4_Create_failure (w : World) (fb : Framebuffer) :
  (∀ i, (i < length (mAttachmentColors fb))%nat → is_Some (slotImageViews w fb i)) →
  ∃ (w' : World) (fb' : Framebuffer) (ok : bool) (k : nat),
    Create w fb = Some (w', fb', ok) ∧
    fb' = setFramebuffers (seq (nextId w) k) fb ∧
    w' = bumpIdBy (k + if ok then 0 else 1) w ∧
    (∀ j, (j < k)%nat → slotOutcome w fb (nextId w + j) j = true) ∧
    (if ok then k = length (mAttachmentColors fb)
     else (k < length (mAttachmentColors fb))%nat ∧
          slotOutcome w fb (nextId w + k) k = false) ∧
    ((∃ j, (j < length (mAttachmentColors fb))%nat ∧
           slotOutcome w fb (nextId w + j) j = false) → ok = false) ∧
    (ok = false →
     (length (mAttachmentColors fb) <= 1)%nat ∨ slotOutcome w fb (nextId w) 0 = false →
     mFramebuffers fb' = []) ∧
    (∀ id, id ∈ mFramebuffers fb' → (nextId w <= id)%nat).
Proof.
  intros Hviews. unfold Create.
  destruct (createLoop_spec (length (mAttachmentColors fb)) 0 w (Release fb))
    as (k & ok & Hrun & Hk & Hbuilt & Hend).
  { intros j Hj. apply (Hviews j). lia. }
  exists (bumpIdBy (k + if ok then 0 else 1) w), (setFramebuffers (seq (nextId w) k) fb), ok, k.
  split_and!.
  - exact Hrun.
  - reflexivity.
  - reflexivity.
  - intros j Hj. apply (Hbuilt j Hj).
  - destruct ok; [done|]. exact Hend.
  - intros (j & Hj & Hfail). destruct ok; [|done]. subst k.
    specialize (Hbuilt j Hj). simpl in Hbuilt.
    change (slotOutcome w (Release fb) (nextId w + j) j) with (slotOutcome w fb (nextId w + j) j)
      in Hbuilt. congruence.
  - intros -> Hcase. destruct Hend as [Hlt Hfail]. simpl.
    destruct k as [|k]; [done|]. exfalso. destruct Hcase as [Hn|H0]; [lia|].
    specialize (Hbuilt 0%nat ltac:(lia)). simpl in Hbuilt. rewrite Nat.add_0_r in Hbuilt.
    change (slotOutcome w (Release fb) (nextId w) 0) with (slotOutcome w fb (nextId w) 0)
      in Hbuilt. congruence.
  - simpl. intros id Hid%elem_of_seq. lia.
Qed.

(** What each step of the rebuild leaves of the Framebuffer. *)
Lemma allocateSurface_fields w fb w' fb' :
  allocateSurface w fb = Some (w', fb') →
  fb' = setDepthStencilTexture (mDepthStencilTexture fb') fb.
Proof.
  unfold allocateSurface. intros Hrun.
  repeat match type of Hrun with
         | (mbind _ ?m) = Some _ =>
             let E := fresh "E" in destruct m eqn:E; cbn [mbind option_bind] in Hrun; [|done]
         | (match ?m with _ => _ end) = Some _ =>
             let E := fresh "E" in destruct m eqn:E; cbn [mbind option_bind] in Hrun
         end; by simplify_eq.
Qed.

Lemma CreateDepthStencilTexture_fields w fb w' fb' :
  CreateDepthStencilTexture w fb = Some (w', fb') →
  fb' = setDepthStencilTexture (mDepthStencilTexture fb') fb.
Proof.
  unfold CreateDepthStencilTexture. intros Hrun.
  destruct (GetDepthAttachmentTexture w fb) as [d|]; cbn [mbind option_bind] in Hrun; [|done].
  destruct (match d with Some _ => _ | None => _ end) as [[]|];
    cbn [mbind option_bind] in Hrun; [| |done].
  - destruct (reusableSurface w fb d) as [[ds|]|]; cbn [mbind option_bind] in Hrun; [| |done].
    + destruct (updTexture ds _ w); cbn [mbind option_bind] in Hrun; by simplify_eq.
    + by apply allocateSurface_fields in Hrun.
  - simplify_eq. by destruct fb'.
Qed.

Lemma CreateVkRenderPass_fields cc cd cs wc wd ws w fb w' fb' ok :
  CreateVkRenderPass cc cd cs wc wd ws w fb = Some (w', fb', ok) →
  ∃ h cf df, fb' = setRenderPass (RP.SetCreated h cf df
                       (RP.SetEnabled cc cd cs wc wd ws (mRenderPass fb))) fb.
Proof.
  unfold CreateVkRenderPass. intros Hrun.
  destruct (GetColorAttachmentTexture w fb) as [c|]; cbn [mbind option_bind] in Hrun; [|done].
  destruct (vkFormatOr w c) as [cf|]; cbn [mbind option_bind] in Hrun; [|done].
  destruct (vkFormatOr w (mDepthStencilTexture fb)) as [df|];
    cbn [mbind option_bind] in Hrun; [|done].
  simplify_eq. by eexists _, _, _.
Qed.

Lemma createLoop_fields slots : ∀ w fb w' fb' ok,
  createLoop w fb slots = Some (w', fb', ok) →
  fb' = setFramebuffers (mFramebuffers fb') fb.
Proof.
  induction slots as [|i slots IH]; intros w fb w' fb' ok Hrun; cbn [createLoop] in Hrun.
  - simplify_eq. by destruct fb'.
  - destruct (slotImageViews (bumpId w) fb i) as [v|]; cbn [mbind option_bind] in Hrun; [|done].
    destruct (vkCreateFramebuffer _ _ _ _ _).
    + apply IH in Hrun. rewrite Hrun. done.
    + simplify_eq. by destruct fb'.
Qed.

Lemma rebuild_fields cc cd cs wc wd ws w fb w' fb' :
  rebuild cc cd cs wc wd ws w fb = Some (w', fb') →
  mUpdated fb' = false ∧
  mSizeUpdated fb' = (if negb (mIsSystem fb) then false else mSizeUpdated fb) ∧
  mIsSystem fb' = mIsSystem fb ∧
  ∃ h cf df, mRenderPass fb' = RP.SetCreated h cf df
                                 (RP.SetEnabled cc cd cs wc wd ws (mRenderPass fb)).
Proof.
  unfold rebuild. intros Hrun.
  destruct (if negb (mIsSystem fb) && mSizeUpdated fb then _ else _) as [[w1 fb1]|] eqn:E1;
    cbn [mbind option_bind] in Hrun; [|done].
  destruct (CreateVkRenderPass cc cd cs wc wd ws w1 fb1) as [[[w2 fb2] ok2]|] eqn:E2;
    cbn [mbind option_bind] in Hrun; [|done].
  destruct (Create w2 fb2) as [[[w3 fb3] ok3]|] eqn:E3;
    cbn [mbind option_bind] in Hrun; [|done].
  simplify_eq.
  apply createLoop_fields in E3. apply CreateVkRenderPass_fields in E2 as (h & cf & df & E2).
  assert (mSizeUpdated fb1 = (if negb (mIsSystem fb) then false else mSizeUpdated fb) ∧
          mIsSystem fb1 = mIsSystem fb ∧ mRenderPass fb1 = mRenderPass fb) as (Hs & Hi & Hr).
  { destruct (mIsSystem fb) eqn:Hsys; simpl in E1; [by simplify_eq|].
    destruct (mSizeUpdated fb) eqn:Hszu; simpl in E1; [|by simplify_eq].
    destruct (CreateDepthStencilTexture w fb) as [[w0 fb0]|] eqn:E0;
      cbn [mbind option_bind] in E1; [|done].
    simplify_eq. apply CreateDepthStencilTexture_fields in E0. rewrite E0. done. }
  rewrite E3, E2. simpl. rewrite Hs, Hi, Hr. split_and!; [done..|]. by eexists _, _, _.
Qed.

Lemma needsRebuild_after_rebuild cc cd cs wc wd ws w fb w' fb' :
  mIsSystem fb = false ∨ mSizeUpdated fb = false →
  rebuild cc cd cs wc wd ws w fb = Some (w', fb') →
  needsRebuild cc cd cs wc wd ws fb' = false.
Proof.
  intros Hcond (Hu & Hs & _ & h & cf & df & Hrp)%rebuild_fields.
  unfold needsRebuild. rewrite Hu, Hs, Hrp. simpl.
  assert ((if negb (mIsSystem fb) then false else mSizeUpdated fb) = false) as ->.
  { destruct Hcond as [->| ->]; [done|]. by destruct (mIsSystem fb). }
  by destruct cc, cd, cs, wc, wd, ws.
Qed.

(** C5, as the code has it.  For a Framebuffer that is not a window
    surface, or whose [mSizeUpdated] is clear: after one [CreateRenderPass],
    the rebuild condition is false for the same six flags; a second call
    with the same arguments returns the very same store and Framebuffer; a
    second call with the same flags and any clear values allocates nothing
    and leaves the per-buffer framebuffer objects, the render pass handle
    and the combined surface as they were. *)
Theorem C5_second_call_no_rebuild (cc cd cs wc wd ws : bool)
    (colorValue : list Z) (depthValue stencilValue : Z) (clearRect : Rect)
    (w w1 : World) (fb fb1 : Framebuffer) :
  mIsSystem fb = false ∨ mSizeUpdated fb = false →
  CreateRenderPass cc cd cs wc wd ws colorValue depthValue stencilValue clearRect w fb
    = Some (w1, fb1) →
  needsRebuild cc cd cs wc wd ws fb1 = false ∧
  CreateRenderPass cc cd cs wc wd ws colorValue depthValue stencilValue clearRect w1 fb1
    = Some (w1, fb1) ∧
  ∀ colorValue' depthValue' stencilValue' clearRect',
    ∃ fb2,
      CreateRenderPass cc cd cs wc wd ws colorValue' depthValue' stencilValue' clearRect' w1 fb1
        = Some (w1, fb2) ∧
      mFramebuffers fb2 = mFramebuffers fb1 ∧
      RP.mVkRenderPass (mRenderPass fb2) = RP.mVkRenderPass (mRenderPass fb1) ∧
      mDepthStencilTexture fb2 = mDepthStencilTexture fb1.
Proof.
  intros Hcond Hrun.
  assert (needsRebuild cc cd cs wc wd ws fb1 = false) as Hclean.
  { unfold CreateRenderPass in Hrun.
    destruct (needsRebuild cc cd cs wc wd ws fb) eqn:Hneed.
    - destruct (rebuild cc cd cs wc wd ws w fb) as [[w' fb']|] eqn:Hre;
        cbn [mbind option_bind] in Hrun; [|done].
      pose proof (needsRebuild_after_rebuild _ _ _ _ _ _ _ _ _ _ Hcond Hre) as Hn.
      simplify_eq. exact Hn.
    - cbn [mbind option_bind] in Hrun. simplify_eq. exact Hneed. }
  split; [done|]. split.
  - unfold CreateRenderPass in *. rewrite Hclean. cbn [mbind option_bind].
    destruct (if needsRebuild cc cd cs wc wd ws fb then _ else _) as [[w' fb']|];
      cbn [mbind option_bind] in Hrun; [|done].
    simplify_eq. done.
  - intros colorValue' depthValue' stencilValue' clearRect'.
    unfold CreateRenderPass at 1. rewrite Hclean. cbn [mbind option_bind].
    eexists. split; [done|]. done.
Qed.
End RebuildFacts.

(** ** The shared combined surface *)

Section SharingFacts.
Import Fb.
Context `{Externals}.

Lemma updTexture_Some a f w t :
  textures w !! a = Some t →
  updTexture a f w = Some (setTextures (<[a := f t]> (textures w)) w).
Proof. intros Ht. unfold updTexture. by rewrite Ht. Qed.

Lemma GetDepthAttachmentTexture_frame w w' fb p :
  mIsSystem fb = false →
  renderbuffers w' = renderbuffers w → mTextureArray w' = mTextureArray w →
  mRenderbufferArray w' = mRenderbufferArray w →
  GetDepthAttachmentTexture w' (setDepthStencilTexture p fb) = GetDepthAttachmentTexture w fb.
Proof.
  intros Hsys Hr Ht Hra. unfold GetDepthAttachmentTexture, resolve. simpl.
  by rewrite Hsys, Hr, Ht, Hra.
Qed.

Lemma GetStencilAttachmentTexture_frame w w' fb p :
  mIsSystem fb = false →
  renderbuffers w' = renderbuffers w → mTextureArray w' = mTextureArray w →
  mRenderbufferArray w' = mRenderbufferArray w →
  GetStencilAttachmentTexture w' (setDepthStencilTexture p fb) = GetStencilAttachmentTexture w fb.
Proof.
  intros Hsys Hr Ht Hra. unfold GetStencilAttachmentTexture, resolve. simpl.
  by rewrite Hsys, Hr, Ht, Hra.
Qed.

Lemma internalFormatOr_frame w ts p :
  (∀ a, p = Some a → ts !! a = textures w !! a) →
  internalFormatOr (bumpId (setTextures ts w)) p = internalFormatOr w p.
Proof.
  intros Hsame. destruct p as [a|]; [|done]. unfold internalFormatOr. simpl.
  by rewrite Hsame.
Qed.

(** The reuse path (lines 305-309). *)
Lemma CreateDepthStencilTexture_reuse w fb T tT S tS :
  mIsSystem fb = false →
  GetDepthAttachmentTexture w fb = Some (Some T) →
  textures w !! T = Some tT → Tex.mDepthStencilTexture tT = Some S →
  textures w !! S = Some tS →
  CreateDepthStencilTexture w fb
    = Some (setTextures (<[S := Tex.IncreaseDepthStencilTextureRefCount tS]> (textures w)) w,
            setDepthStencilTexture (Some S) fb).
Proof.
  intros Hsys Hd HT Hds HS. unfold CreateDepthStencilTexture.
  rewrite Hd. cbn [mbind option_bind]. unfold reusableSurface. rewrite Hsys, HT.
  cbn [mbind option_bind]. rewrite Hds. by rewrite (updTexture_Some _ _ _ _ HS).
Qed.

(** The allocation path (lines 311-338) for an off-screen Framebuffer whose
    depth attachment resolves to [T]. *)
Lemma CreateDepthStencilTexture_allocate w fb T tT s sfmt :
  heap_fresh w → mIsSystem fb = false →
  GetDepthAttachmentTexture w fb = Some (Some T) →
  textures w !! T = Some tT → Tex.mDepthStencilTexture tT = None →
  GetStencilAttachmentTexture w fb = Some s → internalFormatOr w s = Some sfmt →
  ∀ w1, match mDepthStencilTexture fb with
        | Some old => deleteTexture old w = Some w1 ∧ old ≠ T ∧ Some old ≠ s
        | None => w1 = w
        end →
  CreateDepthStencilTexture w fb
    = Some (bumpId (setTextures
                      (<[nextId w := surfaceOf fb (Tex.mInternalFormat tT) sfmt]>
                         (<[T := Tex.SetDepthStencilTexture (Some (nextId w)) tT]>
                            (textures w1))) w1),
            setDepthStencilTexture (Some (nextId w)) fb).
Proof.
  intros Hfresh Hsys Hd HT Hnone Hs Hsfmt w1 Hold.
  unfold CreateDepthStencilTexture.
  rewrite Hd. cbn [mbind option_bind]. unfold reusableSurface. rewrite Hsys, HT.
  cbn [mbind option_bind]. rewrite Hnone. unfold allocateSurface.
  assert (nextId w1 = nextId w ∧ renderbuffers w1 = renderbuffers w ∧
          mTextureArray w1 = mTextureArray w ∧ mRenderbufferArray w1 = mRenderbufferArray w ∧
          textures w1 !! T = Some tT ∧ internalFormatOr w1 s = Some sfmt ∧
          textures w1 !! nextId w = None ∧
          match mDepthStencilTexture fb with
          | Some old => deleteTexture old w
          | None => Some w
          end = Some w1) as (Hn1 & Hr1 & Hta1 & Hra1 & HT1 & Hs1 & HS1 & ->).
  { assert (textures w !! nextId w = None) as Hnew.
    { destruct (textures w !! nextId w) eqn:E; [|done].
      assert (nextId w < nextId w)%nat; [|lia]. apply Hfresh. by rewrite E. }
    destruct (mDepthStencilTexture fb) as [old|].
    - destruct Hold as (Hdel & HneT & Hnes). unfold deleteTexture in Hdel.
      destruct (textures w !! old) eqn:Eold; cbn [mbind option_bind] in Hdel; [|done].
      simplify_eq. simpl. split_and!; try done.
      + by rewrite lookup_delete_ne.
      + destruct s as [a|]; [|done]. unfold internalFormatOr in *. simpl.
        rewrite lookup_delete_ne by congruence. done.
      + rewrite lookup_delete_ne; [done|]. intros ->. by rewrite Hnew in Eold.
      + unfold deleteTexture. by rewrite Eold.
    - subst w1. done. }
  cbn [mbind option_bind]. rewrite Hn1.
  assert (T ≠ nextId w) as HneT. { intros ->. by rewrite HS1 in HT1. }
  rewrite (GetDepthAttachmentTexture_frame w) by done. rewrite Hd. cbn [mbind option_bind].
  rewrite internalFormatOr_frame by (intros a [= <-]; by rewrite lookup_insert_ne).
  assert (internalFormatOr w1 (Some T) = Some (Tex.mInternalFormat tT)) as ->.
  { unfold internalFormatOr. by rewrite HT1. }
  cbn [mbind option_bind].
  rewrite (GetStencilAttachmentTexture_frame w) by done. rewrite Hs. cbn [mbind option_bind].
  rewrite internalFormatOr_frame.
  2:{ intros a ->. rewrite lookup_insert_ne; [done|]. intros <-.
      unfold internalFormatOr in Hs1. by rewrite HS1 in Hs1. }
  rewrite Hs1. cbn [mbind option_bind].
  rewrite (updTexture_Some _ _ _ newTexture) by (simpl; by rewrite lookup_insert_eq).
  cbn [mbind option_bind].
  rewrite (GetDepthAttachmentTexture_frame w) by done. rewrite Hd.
  replace (mIsSystem (setDepthStencilTexture (Some (nextId w)) fb)) with false by done.
  cbv beta iota. cbn [mbind option_bind].
  rewrite (updTexture_Some _ _ _ tT).
  2:{ simpl. by rewrite !lookup_insert_ne. }
  cbn [mbind option_bind].
  rewrite (updTexture_Some _ _ _ (initSurface
     (FindSupportedDepthStencilFormat (GlInternalFormatToVkFormat (Tex.mInternalFormat tT) sfmt))
     (mWidth fb) (mHeight fb) newTexture)).
  2:{ simpl. rewrite lookup_insert_ne by done. by rewrite lookup_insert_eq. }
  cbn [mbind option_bind]. f_equal. f_equal.
  unfold bumpId, setTextures. simpl. f_equal.
  apply map_eq. intros i. unfold surfaceOf.
  destruct (decide (i = nextId w)) as [->|Hi].
  - by rewrite !lookup_insert_eq.
  - rewrite !(lookup_insert_ne _ (nextId w)) by done.
    destruct (decide (i = T)) as [->|Hi'].
    + by rewrite !lookup_insert_eq.
    + rewrite !(lookup_insert_ne _ T) by done. by rewrite !lookup_insert_ne.
Qed.
Lemma GetDepthAttachmentTexture_world w w' fb :
  renderbuffers w' = renderbuffers w → mTextureArray w' = mTextureArray w →
  mRenderbufferArray w' = mRenderbufferArray w →
  GetDepthAttachmentTexture w' fb = GetDepthAttachmentTexture w fb.
Proof.
  intros Hr Ht Hra. unfold GetDepthAttachmentTexture, resolve. by rewrite Hr, Ht, Hra.
Qed.

(** Attachments that hold no texture are deleted without a trace. *)
Lemma deleteAttachments_none l w :
  (∀ a, a ∈ l → mTexture a = None) → deleteAttachments l w = Some w.
Proof.
  induction l as [|a l IH]; intros Hnone; [done|].
  cbn [deleteAttachments]. unfold deleteAttachment.
  rewrite (Hnone a) by (by left). cbn [mbind option_bind].
  apply IH. intros b Hb. apply Hnone. by right.
Qed.

Lemma destructor_holdsNoTexture w fb :
  holdsNoTexture fb → destructor w fb = releaseDepthStencilTexture w fb.
Proof.
  intros (Hd & Hs & Hc). unfold destructor, deleteAttachment. rewrite Hd, Hs.
  cbn [mbind option_bind].
  destruct (releaseDepthStencilTexture w fb) as [w3|]; cbn [mbind option_bind]; [|done].
  by apply deleteAttachments_none.
Qed.

(** The destructor of an off-screen Framebuffer that holds surface [S]. *)
Lemma destructor_holding w fb S t :
  holdsNoTexture fb →
  mIsSystem fb = false → mDepthStencilTexture fb = Some S → textures w !! S = Some t →
  destructor w fb =
    if Tex.mDepthStencilTextureRefCount t =? 1 then deleteTexture S w
    else updTexture S Tex.DecreaseDepthStencilTextureRefCount w.
Proof.
  intros Hno Hsys Hd Ht. rewrite destructor_holdsNoTexture by done.
  unfold releaseDepthStencilTexture. by rewrite Hsys, Hd, Ht.
Qed.

Lemma destructor_release_spec w fb S t :
  holdsNoTexture fb →
  mIsSystem fb = false → mDepthStencilTexture fb = Some S → textures w !! S = Some t →
  0 <= Tex.mDepthStencilTextureRefCount t < 2 ^ 32 →
  destructor w fb = release_spec S w.
Proof.
  intros Hno Hsys Hd Ht Hrange. rewrite (destructor_holding w fb S t) by done.
  unfold release_spec. rewrite (updTexture_Some _ _ _ t) by done.
  cbn [mbind option_bind]. simpl. rewrite lookup_insert_eq. cbn [mbind option_bind]. simpl.
  unfold uint32.
  destruct (Z.eqb_spec (Tex.mDepthStencilTextureRefCount t) 1) as [E|E].
  - rewrite E. simpl. unfold deleteTexture. simpl. rewrite Ht, lookup_insert_eq.
    cbn [mbind option_bind]. by rewrite delete_insert_eq.
  - destruct (Z.eqb_spec ((Tex.mDepthStencilTextureRefCount t - 1) mod 2 ^ 32) 0) as [E0|E0];
      [|done].
    exfalso. apply E.
    destruct (decide (Tex.mDepthStencilTextureRefCount t = 0)) as [Z0|NZ].
    + rewrite Z0 in E0. done.
    + rewrite Z.mod_small in E0 by lia. lia.
Qed.

End SharingFacts.

(** ** A change of size: [CheckForUpdatedResources], then [CreateRenderPass] *)

Section ResizeFacts.
Import Fb.
Context `{Externals}.

Lemma createLoop_world slots : ∀ w fb w' fb' ok,
  createLoop w fb slots = Some (w', fb', ok) →
  textures w' = textures w ∧ deleted w' = deleted w ∧ (nextId w <= nextId w')%nat.
Proof.
  induction slots as [|i slots IH]; intros w fb w' fb' ok Hrun; cbn [createLoop] in Hrun.
  - by simplify_eq.
  - destruct (slotImageViews (bumpId w) fb i) as [v|]; cbn [mbind option_bind] in Hrun; [|done].
    destruct (vkCreateFramebuffer _ _ _ _ _).
    + apply IH in Hrun as (-> & -> & Hle). simpl in *. split_and!; [done..|lia].
    + simplify_eq. simpl. split_and!; [done..|lia].
Qed.

(** Every identity [createLoop] adds is one it was handed by [new]. *)
Lemma createLoop_ids slots : ∀ w fb w' fb' ok,
  createLoop w fb slots = Some (w', fb', ok) →
  ∀ f, f ∈ mFramebuffers fb' → f ∈ mFramebuffers fb ∨ (nextId w <= f)%nat.
Proof.
  induction slots as [|i slots IH]; intros w fb w' fb' ok Hrun f Hf; cbn [createLoop] in Hrun.
  - simplify_eq. by left.
  - destruct (slotImageViews (bumpId w) fb i) as [v|]; cbn [mbind option_bind] in Hrun; [|done].
    destruct (vkCreateFramebuffer _ _ _ _ _).
    + destruct (IH _ _ _ _ _ Hrun f Hf) as [Hin|Hge].
      * simpl in Hin. apply elem_of_app in Hin as [Hin|Hin]; [by left|].
        apply list_elem_of_singleton in Hin as ->. right. lia.
      * right. simpl in Hge. lia.
    + simplify_eq. by left.
Qed.

Lemma CreateVkRenderPass_world cc cd cs wc wd ws w fb w' fb' ok :
  CreateVkRenderPass cc cd cs wc wd ws w fb = Some (w', fb', ok) →
  w' = bumpId w ∧ mDepthStencilTexture fb' = mDepthStencilTexture fb ∧
  mSizeUpdated fb' = mSizeUpdated fb ∧
  ∀ h, RP.mVkRenderPass (mRenderPass fb') = Some h → h = nextId w.
Proof.
  unfold CreateVkRenderPass. intros Hrun.
  destruct (GetColorAttachmentTexture w fb) as [c|]; cbn [mbind option_bind] in Hrun; [|done].
  destruct (vkFormatOr w c) as [cf|]; cbn [mbind option_bind] in Hrun; [|done].
  destruct (vkFormatOr w (mDepthStencilTexture fb)) as [df|];
    cbn [mbind option_bind] in Hrun; [|done].
  simplify_eq. split_and!; [done..|]. simpl. intros h.
  destruct (vkCreateRenderPass _ _ _); by intros [= <-].
Qed.

(** An update that keeps width and height keeps the size of every live
    texture. *)
Lemma updTexture_size b f w w' a surf :
  updTexture b f w = Some w' → textures w !! a = Some surf →
  (∀ t, Tex.mWidth (f t) = Tex.mWidth t ∧ Tex.mHeight (f t) = Tex.mHeight t) →
  ∃ surf', textures w' !! a = Some surf' ∧
    Tex.mWidth surf' = Tex.mWidth surf ∧ Tex.mHeight surf' = Tex.mHeight surf.
Proof.
  intros Hupd Ha Hf. unfold updTexture in Hupd.
  destruct (textures w !! b) as [tb|] eqn:Hb; cbn [mbind option_bind] in Hupd; [|done].
  simplify_eq. simpl. destruct (decide (a = b)) as [->|Hne].
  - rewrite lookup_insert_eq. eexists. split; [done|]. rewrite Hb in Ha. simplify_eq. apply Hf.
  - rewrite lookup_insert_ne by done. by eexists.
Qed.

Lemma updTexture_world b f w w' :
  updTexture b f w = Some w' → nextId w' = nextId w ∧ deleted w' = deleted w.
Proof.
  unfold updTexture. intros Hupd.
  destruct (textures w !! b); cbn [mbind option_bind] in Hupd; by simplify_eq.
Qed.

(** What the allocation path (lines 311-338) leaves whenever it is
    defined: the Framebuffer points to the object [new] returned, which has
    the Framebuffer's width and height. *)
Lemma allocateSurface_result w fb w' fb' :
  allocateSurface w fb = Some (w', fb') →
  fb' = setDepthStencilTexture (Some (nextId w)) fb ∧ nextId w' = S (nextId w) ∧
  ∃ surf, textures w' !! nextId w = Some surf ∧
    Tex.mWidth surf = mWidth fb ∧ Tex.mHeight surf = mHeight fb.
Proof.
  unfold allocateSurface. intros Hrun.
  destruct (match mDepthStencilTexture fb with
            | Some old => deleteTexture old w
            | None => Some w
            end) as [w1|] eqn:E1; cbn [mbind option_bind] in Hrun; [|done].
  assert (nextId w1 = nextId w) as Hn1.
  { destruct (mDepthStencilTexture fb) as [old|]; [|by simplify_eq].
    unfold deleteTexture in E1.
    destruct (textures w !! old); cbn [mbind option_bind] in E1; by simplify_eq. }
  rewrite Hn1 in Hrun.
  destruct (GetDepthAttachmentTexture _ _) as [d|]; cbn [mbind option_bind] in Hrun; [|done].
  destruct (internalFormatOr _ d) as [dfmt|]; cbn [mbind option_bind] in Hrun; [|done].
  destruct (GetStencilAttachmentTexture _ _) as [s|]; cbn [mbind option_bind] in Hrun; [|done].
  destruct (internalFormatOr _ s) as [sfmt|]; cbn [mbind option_bind] in Hrun; [|done].
  destruct (updTexture (nextId w) _ _) as [w3|] eqn:E3;
    cbn [mbind option_bind] in Hrun; [|done].
  assert (nextId w3 = S (nextId w) ∧
          ∃ surf, textures w3 !! nextId w = Some surf ∧
            Tex.mWidth surf = mWidth fb ∧ Tex.mHeight surf = mHeight fb)
    as (Hn3 & surf3 & Hs3 & Hw3 & Hh3).
  { pose proof (updTexture_world _ _ _ _ E3) as [Hn _]. split; [rewrite Hn; simpl; lia|].
    unfold updTexture in E3. simpl in E3. rewrite lookup_insert_eq in E3.
    cbn [mbind option_bind] in E3. injection E3 as <-. simpl. rewrite lookup_insert_eq.
    eexists. split; [done|]. done. }
  destruct (GetDepthAttachmentTexture w3 _) as [d'|]; cbn [mbind option_bind] in Hrun; [|done].
  destruct (if mIsSystem _ then None else d') as [da|].
  - destruct (updTexture da (Tex.SetDepthStencilTexture (Some (nextId w))) w3) as [w4|] eqn:E4;
      cbn [mbind option_bind] in Hrun; [|done].
    destruct (updTexture (nextId w) Tex.IncreaseDepthStencilTextureRefCount w4) as [w5|] eqn:E5;
      cbn [mbind option_bind] in Hrun; [|done].
    injection Hrun as <- <-.
    destruct (updTexture_size _ _ _ _ _ _ E4 Hs3 (λ _, conj eq_refl eq_refl))
      as (surf4 & Hs4 & Hw4 & Hh4).
    destruct (updTexture_size _ _ _ _ _ _ E5 Hs4 (λ _, conj eq_refl eq_refl))
      as (surf5 & Hs5 & Hw5 & Hh5).
    pose proof (updTexture_world _ _ _ _ E4) as [Hn4 _].
    pose proof (updTexture_world _ _ _ _ E5) as [Hn5 _].
    split_and!; [done|congruence|]. exists surf5. split_and!; [done|congruence..].
  - injection Hrun as <- <-. split_and!; [done..|]. by exists surf3.
Qed.

(** The rebuild of a size-dirty off-screen Framebuffer whose depth
    attachment resolves to texture [T]. *)
Lemma resize_rebuild cc cd cs wc wd ws colorValue depthValue stencilValue clearRect
    w1 fb1 w2 fb2 T tT :
  mIsSystem fb1 = false → mSizeUpdated fb1 = true →
  GetDepthAttachmentTexture w1 fb1 = Some (Some T) → textures w1 !! T = Some tT →
  CreateRenderPass cc cd cs wc wd ws colorValue depthValue stencilValue clearRect w1 fb1
    = Some (w2, fb2) →
  mSizeUpdated fb2 = false ∧ mUpdated fb2 = false ∧
  (∀ h, RP.mVkRenderPass (mRenderPass fb2) = Some h → (nextId w1 <= h)%nat) ∧
  (∀ f, f ∈ mFramebuffers fb2 → (nextId w1 < f)%nat) ∧
  (Tex.mDepthStencilTexture tT = None →
     ∃ surf, mDepthStencilTexture fb2 = Some (nextId w1) ∧
       textures w2 !! nextId w1 = Some surf ∧
       Tex.mWidth surf = mWidth fb1 ∧ Tex.mHeight surf = mHeight fb1 ∧
       ∀ h, RP.mVkRenderPass (mRenderPass fb2) = Some h → (nextId w1 < h)%nat) ∧
  (∀ ds tds, Tex.mDepthStencilTexture tT = Some ds → textures w1 !! ds = Some tds →
     ∃ surf, mDepthStencilTexture fb2 = Some ds ∧ textures w2 !! ds = Some surf ∧
       Tex.mWidth surf = Tex.mWidth tds ∧ Tex.mHeight surf = Tex.mHeight tds).
Proof.
  intros Hsys Hsz Hd HT Hrun. unfold CreateRenderPass in Hrun.
  assert (needsRebuild cc cd cs wc wd ws fb1 = true) as Hneed.
  { unfold needsRebuild. rewrite Hsz. by destruct (mUpdated fb1). }
  rewrite Hneed in Hrun.
  destruct (rebuild cc cd cs wc wd ws w1 fb1) as [[w' fb']|] eqn:Hre;
    cbn [mbind option_bind] in Hrun; [|done].
  injection Hrun as <- <-.
  unfold rebuild in Hre. rewrite Hsys, Hsz in Hre. simpl in Hre.
  destruct (CreateDepthStencilTexture w1 fb1) as [[wa fba]|] eqn:Ea;
    cbn [mbind option_bind] in Hre; [|done].
  destruct (CreateVkRenderPass cc cd cs wc wd ws wa (setFlags (mUpdated fba) false fba))
    as [[[wb fbb] okb]|] eqn:Eb; cbn [mbind option_bind] in Hre; [|done].
  destruct (Create wb fbb) as [[[wc' fbc] okc]|] eqn:Ec; cbn [mbind option_bind] in Hre; [|done].
  injection Hre as <- <-.
  apply CreateVkRenderPass_world in Eb as (-> & Hdsb & Hszb & Hh).
  pose proof (createLoop_fields _ _ _ _ _ _ Ec) as Hshape.
  pose proof (createLoop_world _ _ _ _ _ _ Ec) as (Htex & _ & _).
  pose proof (createLoop_ids _ _ _ _ _ _ Ec) as Hids.
  assert (mDepthStencilTexture fbc = mDepthStencilTexture fba ∧ mSizeUpdated fbc = false ∧
          mRenderPass fbc = mRenderPass fbb) as (Hdsc & Hszc & Hrpc).
  { rewrite Hshape. simpl. rewrite Hdsb, Hszb. done. }
  (* what the surface step did *)
  assert ((nextId w1 <= nextId wa)%nat ∧
          (Tex.mDepthStencilTexture tT = None →
             (nextId w1 < nextId wa)%nat ∧
             ∃ surf, mDepthStencilTexture fba = Some (nextId w1) ∧
               textures wa !! nextId w1 = Some surf ∧
               Tex.mWidth surf = mWidth fb1 ∧ Tex.mHeight surf = mHeight fb1) ∧
          (∀ ds tds, Tex.mDepthStencilTexture tT = Some ds → textures w1 !! ds = Some tds →
             ∃ surf, mDepthStencilTexture fba = Some ds ∧ textures wa !! ds = Some surf ∧
               Tex.mWidth surf = Tex.mWidth tds ∧ Tex.mHeight surf = Tex.mHeight tds))
    as (Hle & Hnew & Hold).
  { unfold CreateDepthStencilTexture in Ea. rewrite Hd in Ea. cbn [mbind option_bind] in Ea.
    unfold reusableSurface in Ea. rewrite Hsys, HT in Ea. cbn [mbind option_bind] in Ea.
    destruct (Tex.mDepthStencilTexture tT) as [ds|] eqn:Hcarried.
    - destruct (updTexture ds Tex.IncreaseDepthStencilTextureRefCount w1) as [wu|] eqn:Eu;
        cbn [mbind option_bind] in Ea; [|done].
      injection Ea as <- <-.
      pose proof (updTexture_world _ _ _ _ Eu) as [Hn _].
      split_and!; [lia|done|]. intros ds' tds [= <-] Hds.
      destruct (updTexture_size _ _ _ _ _ _ Eu Hds (λ _, conj eq_refl eq_refl))
        as (surf & Hsurf & Hw & Hh').
      by exists surf.
    - apply allocateSurface_result in Ea as (-> & Hn & surf & Hsurf & Hw & Hh').
      split_and!; [lia| |done]. intros _. split; [lia|]. by exists surf. }
  split_and!.
  - simpl. done.
  - done.
  - simpl. rewrite Hrpc. intros h Hh'. apply Hh in Hh'. lia.
  - simpl. intros f Hf. destruct (Hids f Hf) as [Hin|Hge].
    + simpl in Hin. by apply elem_of_nil in Hin.
    + simpl in Hge. lia.
  - intros Hnone. destruct (Hnew Hnone) as (Hlt & surf & Hds & Hsurf & Hw & Hh').
    exists surf. simpl. rewrite Hdsc, Htex. simpl. split_and!; [done..|].
    rewrite Hrpc. intros h Hh''. apply Hh in Hh''. lia.
  - intros ds tds Hcarried Hds. destruct (Hold ds tds Hcarried Hds) as (surf & Hp & Hsurf & Hw & Hh').
    exists surf. simpl. rewrite Hdsc, Htex. simpl. done.
Qed.

End ResizeFacts.

(** ** The theorems on concrete states *)

Section ConcreteRuns.
Import Fb Examples.

Lemma holdsNoTexture_sharedA : holdsNoTexture sharedA.
Proof.
  split_and!; [reflexivity..|]. intros a Ha. exfalso. revert Ha. apply not_elem_of_nil.
Defined.

Lemma holdsNoTexture_sharedB : holdsNoTexture sharedB.
Proof.
  split_and!; [reflexivity..|]. intros a Ha. exfalso. revert Ha. apply not_elem_of_nil.
Defined.



(** C3, on the code.  [sharedA] and [sharedB] share surface 2, whose count
    is 2.  The depth attachment of [sharedA] is rebound to a texture that
    carries no surface, and [CreateDepthStencilTexture] runs: surface 2 is
    deleted without a look at its count, while [sharedB] still points to it;
    the destructor of [sharedB] then reads a freed object. *)
Lemma C3_rebuild_deletes_shared_surface :
  mDepthStencilTexture reboundA = Some 2%nat ∧
  mDepthStencilTexture sharedB = Some 2%nat ∧
  Tex.mDepthStencilTextureRefCount <$> textures sharedWorld !! 2%nat = Some 2 ∧
  ∃ w',
    CreateDepthStencilTexture (H := okDevice) sharedWorld reboundA
      = Some (w', setDepthStencilTexture (Some 3%nat) reboundA) ∧
    textures w' !! 2%nat = None ∧
    deleted w' = [2%nat] ∧
    destructor (H := okDevice) w' sharedB = None.
Proof.
  split_and!; [reflexivity..|].
  eexists. split_and!; [vm_compute; reflexivity|reflexivity..].
Qed.

Lemma C4_Create_failure_witness :
  ∃ (w' : World) (fb' : Framebuffer) (ok : bool) (k : nat),
    Create (H := deviceFailingAt 3) swapWorld (windowFb false) = Some (w', fb', ok) ∧
    fb' = setFramebuffers (seq (nextId swapWorld) k) (windowFb false) ∧
    w' = bumpIdBy (k + if ok then 0 else 1) swapWorld ∧
    (∀ j, (j < k)%nat →
       slotOutcome (H := deviceFailingAt 3) swapWorld (windowFb false)
         (nextId swapWorld + j) j = true) ∧
    (if ok then k = length (mAttachmentColors (windowFb false))
     else (k < length (mAttachmentColors (windowFb false)))%nat ∧
          slotOutcome (H := deviceFailingAt 3) swapWorld (windowFb false)
            (nextId swapWorld + k) k = false) ∧
    ((∃ j, (j < length (mAttachmentColors (windowFb false)))%nat ∧
           slotOutcome (H := deviceFailingAt 3) swapWorld (windowFb false)
             (nextId swapWorld + j) j = false) → ok = false) ∧
    (ok = false →
     (length (mAttachmentColors (windowFb false)) <= 1)%nat ∨
     slotOutcome (H := deviceFailingAt 3) swapWorld (windowFb false) (nextId swapWorld) 0
       = false →
     mFramebuffers fb' = []) ∧
    (∀ id, id ∈ mFramebuffers fb' → (nextId swapWorld <= id)%nat).
Proof.
  apply (C4_Create_failure (H := deviceFailingAt 3) swapWorld (windowFb false)).
  intros i Hi. simpl in Hi. destruct i as [|[|i]]; [by eexists | by eexists | lia].
Defined.

(** C4 as stated fails: a window surface with two swap images on a device
    that refuses the second framebuffer object.  [Create] returns [false]
    and the object built for the first slot is still held. *)
Lemma C4_counterexample :
  (λ r : World * Framebuffer * bool, (mFramebuffers r.1.2, r.2))
    <$> Create (H := deviceFailingAt 3) swapWorld (windowFb false)
  = Some ([2%nat], false).
Proof. vm_compute. reflexivity. Qed.

Lemma C5_second_call_no_rebuild_witness :
  needsRebuild true true true true true true prepared.2 = false ∧
  CreateRenderPass (H := okDevice) true true true true true true
    noColor 0 0 (fullRect 256 256) prepared.1 prepared.2 = Some (prepared.1, prepared.2) ∧
  ∀ colorValue' depthValue' stencilValue' clearRect',
    ∃ fb2,
      CreateRenderPass (H := okDevice) true true true true true true
        colorValue' depthValue' stencilValue' clearRect' prepared.1 prepared.2
        = Some (prepared.1, fb2) ∧
      mFramebuffers fb2 = mFramebuffers prepared.2 ∧
      RP.mVkRenderPass (mRenderPass fb2) = RP.mVkRenderPass (mRenderPass prepared.2) ∧
      mDepthStencilTexture fb2 = mDepthStencilTexture prepared.2.
Proof.
  apply (C5_second_call_no_rebuild (H := okDevice) true true true true true true
           noColor 0 0 (fullRect 256 256) resizeWorld prepared.1 targetFb prepared.2).
  - left. reflexivity.
  - vm_compute. reflexivity.
Defined.

(** C5 as stated fails: a window surface whose [mSizeUpdated] is set.  The
    first call rebuilds and leaves [mSizeUpdated] set, so the second call
    with the same flags rebuilds again: the render pass and the per-buffer
    framebuffer objects are new ones. *)
Lemma C5_counterexample :
  ∃ w1 fb1 w2 fb2,
    CreateRenderPass (H := okDevice) true true true true true true
      noColor 0 0 (fullRect 640 480) swapWorld (windowFb true) = Some (w1, fb1) ∧
    CreateRenderPass (H := okDevice) true true true true true true
      noColor 0 0 (fullRect 640 480) w1 fb1 = Some (w2, fb2) ∧
    mFramebuffers fb1 = [3%nat; 4%nat] ∧ mFramebuffers fb2 = [6%nat; 7%nat] ∧
    RP.mVkRenderPass (mRenderPass fb1) = Some 2%nat ∧
    RP.mVkRenderPass (mRenderPass fb2) = Some 5%nat.
Proof.
  eexists _, _, _, _. split; [vm_compute; reflexivity|].
  split; [vm_compute; reflexivity|]. split_and!; reflexivity.
Qed.



Lemma C7_bad_attachment_first_witness :
  CheckStatus (H := okDevice) badWorld badFb = Some GL_FRAMEBUFFER_INCOMPLETE_ATTACHMENT ∧
  CheckStatus (H := okDevice) badWorld badFb ≠ Some GL_FRAMEBUFFER_INCOMPLETE_DIMENSIONS.
Proof.
  apply (C7_bad_attachment_first (H := okDevice) badWorld badFb Depth (texture 0 128)).
  - intros [] Hty; [by eexists | by eexists |]. exfalso. apply Hty. reflexivity.
  - discriminate.
  - reflexivity.
  - right. left. simpl. lia.
Defined.



Lemma C10_SetColorAttachment_witness :
  ∃ fb', SetColorAttachment emptyWorld 256 256 fresh = Some fb' ∧
    mAttachmentColors fb' ≠ [] ∧
    (mAttachmentColors fresh = [] → mAttachmentColors fb' = [newAttachment None]) ∧
    (mAttachmentColors fresh ≠ [] → mAttachmentColors fb' = mAttachmentColors fresh) ∧
    mWidth fb' = 256 ∧ mHeight fb' = 256 ∧ mUpdated fb' = true ∧
    mIsSystem fb' = mIsSystem fresh ∧
    mDepthStencilTexture fb' = mDepthStencilTexture fresh ∧
    mAttachmentDepth fb' = mAttachmentDepth fresh ∧
    mAttachmentStencil fb' = mAttachmentStencil fresh ∧
    (∀ ch, cacheTexture fb' ch = cacheTexture fresh ch ∧
           cacheRenderbuffer fb' ch = cacheRenderbuffer fresh ch) ∧
    mFramebuffers fb' = mFramebuffers fresh ∧ mRenderPass fb' = mRenderPass fresh ∧
    nextImageIndex fb' = nextImageIndex fresh ∧
    ∀ sizes, ∃ fb'', SetColorAttachmentMany emptyWorld sizes fb' = Some fb'' ∧
      length (mAttachmentColors fb'') = length (mAttachmentColors fb') ∧
      ((length (mAttachmentColors fresh) <= 1)%nat → length (mAttachmentColors fb'') = 1%nat).
Proof. apply (C10_SetColorAttachment emptyWorld 256 256 fresh). exact I. Defined.

End ConcreteRuns.

(** * Further properties *)

(** ** The masked stencil clear, continued *)

Section StencilMore.
Import Stencil Fb.
Context `{Externals}.

Lemma pixel_in_rect r row col :
  0 < pixelByteOffset r → width r * pixelByteOffset r <= dataRowStride r →
  dataRowStride r < 2 ^ 32 → 0 <= dataCurrentRowIndex r →
  0 <= row < height r → 0 <= col < width r →
  pixelIndex r row col ∈ rectIndices r (Z.to_nat (height r)) (Z.to_nat (dataCurrentRowIndex r)).
Proof.
  intros Hpbo Hrow Hstride Hstart Hr Hc.
  destruct (col_offset r Hpbo Hrow Hstride col Hc) as [_ ?].
  apply (elem_of_rectIndices r Hpbo Hrow Hstride). exists row, col.
  split; [lia|]. split; [done|]. apply pixelIndex_split; [done|nia].
Qed.

Lemma rect_is_pixel r j :
  0 < pixelByteOffset r → width r * pixelByteOffset r <= dataRowStride r →
  dataRowStride r < 2 ^ 32 → 0 <= dataCurrentRowIndex r →
  j ∈ rectIndices r (Z.to_nat (height r)) (Z.to_nat (dataCurrentRowIndex r)) →
  ∃ row col, 0 <= row < height r ∧ 0 <= col < width r ∧ j = pixelIndex r row col.
Proof.
  intros Hpbo Hrow Hstride Hstart (row & col & Hr & Hc & ->)%(elem_of_rectIndices r Hpbo Hrow Hstride).
  destruct (col_offset r Hpbo Hrow Hstride col Hc) as [_ ?].
  exists row, col. split; [lia|]. split; [done|]. symmetry. apply pixelIndex_split; [done|nia].
Qed.

(** On a Framebuffer that points to a live surface with stencil bits, the
    clear writes the stencil byte of each pixel and nothing else. *)
Theorem stencil_clear_writes_pixels_only (w : World) (fb : Framebuffer) (c m : Z)
    (r : ImageRect) (dstData : list Z) :
  stencilSurface w fb → layout_ok r dstData →
  ∃ written, UpdateClearDepthStencilTexture w fb c m r dstData = Some written ∧
    length written = length dstData ∧
    ∀ j : nat,
      (∀ row col, 0 <= row < height r → 0 <= col < width r → j ≠ pixelIndex r row col) →
      written !! j = dstData !! j.
Proof.
  intros Hsurf Hok. rewrite (UpdateClear_run w fb c m r dstData Hsurf).
  destruct (conversionLoop_pixels c m r dstData Hok) as (written & Hrun & Hlen & _ & Hrest).
  destruct Hok as (Hpbo & Hrow & Hstride & Hstart & _).
  exists written. split_and!; [done..|]. intros j Hj. apply Hrest.
  intros (row & col & Hr & Hc & ->)%rect_is_pixel; [|done..]. by apply (Hj row col).
Qed.

Lemma newStencilValue_idemp c m s :
  newStencilValue c m (newStencilValue c m s) = newStencilValue c m s.
Proof.
  rewrite !newStencilValue_bits. apply Z.bits_inj'. intros i Hi.
  rewrite !Z.land_spec, !Z.lor_spec, !Z.land_spec, !Z.lor_spec, !Z.land_spec,
    !Z.lnot_spec, testbit_255 by done.
  destruct (i <? 8), (Z.testbit c i), (Z.testbit s i), (Z.testbit m i); reflexivity.
Qed.

(** Clearing twice with the same value and mask is clearing once. *)
Theorem stencil_clear_idempotent (w : World) (fb : Framebuffer) (c m : Z) (r : ImageRect)
    (dstData written : list Z) :
  layout_ok r dstData →
  UpdateClearDepthStencilTexture w fb c m r dstData = Some written →
  UpdateClearDepthStencilTexture w fb c m r written = Some written.
Proof.
  intros Hok Hrun.
  assert (stencilSurface w fb) as Hsurf.
  { apply (UpdateClear_defined w fb c m r dstData). by eexists. }
  rewrite (UpdateClear_run w fb c m r dstData Hsurf) in Hrun.
  rewrite (UpdateClear_run w fb c m r written Hsurf).
  destruct (conversionLoop_pixels c m r dstData Hok) as (w1 & Hrun1 & Hlen1 & Hpix1 & Hrest1).
  rewrite Hrun in Hrun1. injection Hrun1 as <-.
  assert (layout_ok r written) as Hok2.
  { destruct Hok as (?&?&?&?&?). unfold layout_ok. rewrite Hlen1. done. }
  destruct (conversionLoop_pixels c m r written Hok2) as (w2 & Hrun2 & Hlen2 & Hpix2 & Hrest2).
  rewrite Hrun2. f_equal. apply list_eq. intros j.
  destruct Hok as (Hpbo & Hrow & Hstride & Hstart & _).
  destruct (decide (j ∈ rectIndices r (Z.to_nat (height r))
                         (Z.to_nat (dataCurrentRowIndex r)))) as [Hin|Hout].
  - apply rect_is_pixel in Hin as (row & col & Hr & Hc & ->); [|done..].
    rewrite Hpix2, Hpix1 by done.
    destruct (dstData !! pixelIndex r row col); simpl; [|done].
    by rewrite newStencilValue_idemp.
  - by apply Hrest2.
Qed.

(** With all eight mask bits set the old content does not matter. *)
Theorem stencil_clear_full_mask (w : World) (fb : Framebuffer) (c m : Z) (r : ImageRect)
    (dstData : list Z) :
  stencilSurface w fb → layout_ok r dstData → Z.land m 0xFF = 0xFF →
  ∃ written, UpdateClearDepthStencilTexture w fb c m r dstData = Some written ∧
    ∀ row col, 0 <= row < height r → 0 <= col < width r →
      written !! pixelIndex r row col = Some (Z.land c 0xFF).
Proof.
  intros Hsurf Hok Hm. rewrite (UpdateClear_run w fb c m r dstData Hsurf).
  destruct (conversionLoop_pixels c m r dstData Hok) as (written & Hrun & Hlen & Hpix & _).
  exists written. split; [done|]. intros row col Hr Hc.
  assert (is_Some (written !! pixelIndex r row col)) as [b Hb].
  { apply lookup_lt_is_Some. rewrite Hlen.
    destruct Hok as (Hpbo & Hrow & Hstride & Hstart & Hfit).
    destruct (col_offset r Hpbo Hrow Hstride col Hc) as [_ ?].
    unfold pixelIndex.
    assert (0 <= row * dataRowStride r) by nia.
    assert ((row + 1) * dataRowStride r <= height r * dataRowStride r) by nia. lia. }
  rewrite Hpix in Hb by done. rewrite Hpix by done.
  destruct (dstData !! pixelIndex r row col) as [s|]; [|done]. simpl. f_equal.
  rewrite newStencilValue_bits. apply Z.bits_inj'. intros i Hi.
  apply (f_equal (λ z, Z.testbit z i)) in Hm.
  rewrite Z.land_spec, testbit_255 in Hm by done.
  rewrite !Z.land_spec, Z.lor_spec, Z.land_spec, Z.lnot_spec, testbit_255 by done.
  destruct (i <? 8), (Z.testbit c i), (Z.testbit s i), (Z.testbit m i);
    simpl in *; congruence.
Qed.

Lemma modifyAll_defined f idxs : ∀ buf : list Z,
  is_Some (modifyAll f idxs buf) ↔ ∀ i, i ∈ idxs → (i < length buf)%nat.
Proof.
  induction idxs as [|i idxs IH]; intros buf; cbn [modifyAll].
  - split; [intros _ i Hi; by apply elem_of_nil in Hi | by eexists].
  - destruct (buf !! i) as [old|] eqn:E; cbn [mbind option_bind].
    + rewrite IH. setoid_rewrite length_insert. split.
      * intros Hall k [->|Hk]%elem_of_cons; [by eapply lookup_lt_Some | by apply Hall].
      * intros Hall k Hk. apply Hall. by right.
    + split; [by intros [? ?]|]. intros Hall. exfalso.
      apply lookup_ge_None in E. specialize (Hall i ltac:(left)). lia.
Qed.

(** Given rows that do not overlap, the clear is defined exactly when the
    Framebuffer points to a live surface whose format has stencil bits and
    every pixel of the rectangle lies inside the buffer: a null or freed
    surface pointer, a format without stencil bits and a pixel outside the
    buffer are the three ways it has no result. *)
Theorem stencil_clear_defined_iff (w : World) (fb : Framebuffer) (c m : Z) (r : ImageRect)
    (dstData : list Z) :
  0 < pixelByteOffset r → width r * pixelByteOffset r <= dataRowStride r →
  dataRowStride r < 2 ^ 32 → 0 <= dataCurrentRowIndex r →
  is_Some (UpdateClearDepthStencilTexture w fb c m r dstData) ↔
  stencilSurface w fb ∧
  ∀ row col, 0 <= row < height r → 0 <= col < width r →
    (pixelIndex r row col < length dstData)%nat.
Proof.
  intros Hpbo Hrow Hstride Hstart.
  assert (is_Some (conversionLoop c m r dstData) ↔
          ∀ row col, 0 <= row < height r → 0 <= col < width r →
            (pixelIndex r row col < length dstData)%nat) as Hloop.
  { unfold conversionLoop. rewrite clearRows_modifyAll, modifyAll_defined. split.
    - intros Hall row col Hr Hc. apply Hall. by apply pixel_in_rect.
    - intros Hall j (row & col & Hr & Hc & ->)%rect_is_pixel; [|done..]. by apply Hall. }
  split.
  - intros Hdef. pose proof (UpdateClear_defined _ _ _ _ _ _ Hdef) as Hsurf.
    split; [done|]. apply Hloop. by rewrite <- (UpdateClear_run w fb c m r dstData Hsurf).
  - intros [Hsurf Hall]. rewrite (UpdateClear_run w fb c m r dstData Hsurf). by apply Hloop.
Qed.
End StencilMore.

(** ** [CheckStatus], continued *)

Section StatusMore.
Import Fb.
Context `{Externals}.

Lemma sees_exists w fb ch :
  (attachmentType fb ch ≠ GL_NONE → is_Some (attachmentDeref w fb ch)) →
  ∃ o, View.sees w fb ch o.
Proof.
  intros Hres. destruct (decide (attachmentType fb ch = GL_NONE)) as [E|E].
  - by exists None.
  - destruct (Hres E) as [t Ht]. by exists (Some t).
Qed.

Lemma attachmentBad_sees w fb ch o :
  View.sees w fb ch o → attachmentBad w fb ch = Some (View.bad ch o).
Proof.
  unfold attachmentBad. destruct o as [t|]; simpl.
  - intros [Hty Ht]. apply Z.eqb_neq in Hty. by rewrite Hty, Ht.
  - intros Hty. by rewrite Hty.
Qed.

Lemma dimensionsDiffer_sees w fb a b oa ob :
  View.sees w fb a oa → View.sees w fb b ob →
  dimensionsDiffer w fb a b = Some (View.differ oa ob).
Proof.
  unfold dimensionsDiffer. destruct oa as [ta|], ob as [tb|]; simpl.
  - intros [Ha Hta] [Hb Htb]. apply Z.eqb_neq in Ha, Hb. by rewrite Ha, Hb, Hta, Htb.
  - intros [Ha Hta] Hb. apply Z.eqb_neq in Ha. by rewrite Ha, Hb.
  - intros Ha [Hb Htb]. by rewrite Ha.
  - intros Ha Hb. by rewrite Ha.
Qed.

Lemma CheckStatus_sees w fb oc od os :
  View.sees w fb Color oc → View.sees w fb Depth od → View.sees w fb Stencil os →
  CheckStatus w fb = Some (View.status oc od os).
Proof.
  intros Hc Hd Hs. unfold CheckStatus.
  rewrite (attachmentBad_sees _ _ _ _ Hc), (attachmentBad_sees _ _ _ _ Hd),
    (attachmentBad_sees _ _ _ _ Hs).
  rewrite (dimensionsDiffer_sees _ _ _ _ _ _ Hc Hd), (dimensionsDiffer_sees _ _ _ _ _ _ Hc Hs),
    (dimensionsDiffer_sees _ _ _ _ _ _ Hd Hs).
  assert ((GetColorAttachmentType fb =? GL_NONE) && (GetDepthAttachmentType fb =? GL_NONE)
          && (GetStencilAttachmentType fb =? GL_NONE)
          = match oc, od, os with None, None, None => true | _, _, _ => false end) as ->.
  { destruct oc, od, os; simpl in Hc, Hd, Hs;
      repeat match goal with
             | H : _ ∧ _ |- _ => destruct H as [?%Z.eqb_neq _]
             | H : _ = GL_NONE |- _ => apply Z.eqb_eq in H
             end;
      repeat match goal with H : (_ =? _) = _ |- _ => rewrite H; clear H end;
      rewrite ?andb_false_r; done. }
  unfold View.status, orElse.
  generalize (View.bad Color oc) (View.bad Depth od) (View.bad Stencil os)
    (View.differ oc od) (View.differ oc os) (View.differ od os).
  intros bc bd bs dcd dcs dds.
  destruct oc, od, os, bc, bd, bs, dcd, dcs, dds; reflexivity.
Qed.

Lemma sees_inv w fb ch o t :
  View.sees w fb ch o → attachmentType fb ch ≠ GL_NONE → attachmentDeref w fb ch = Some t →
  o = Some t.
Proof. destruct o as [t'|]; simpl; [intros [_ E] _ E'; congruence | done]. Qed.

Lemma bad_false ch t :
  View.bad ch (Some t) = false ↔
  renderable ch (Tex.mInternalFormat t) = true ∧ 0 < Tex.mWidth t ∧ 0 < Tex.mHeight t.
Proof.
  simpl. destruct (renderable ch _); simpl;
    destruct (Z.leb_spec (Tex.mWidth t) 0), (Z.leb_spec (Tex.mHeight t) 0); simpl;
    split; try done; try lia; intros (?&?&?); try done; lia.
Qed.

Lemma differ_false ta tb :
  View.differ (Some ta) (Some tb) = false ↔
  Tex.mWidth ta = Tex.mWidth tb ∧ Tex.mHeight ta = Tex.mHeight tb.
Proof.
  simpl. destruct (Z.eqb_spec (Tex.mWidth ta) (Tex.mWidth tb)),
    (Z.eqb_spec (Tex.mHeight ta) (Tex.mHeight tb)); simpl; split; try done; intros [? ?]; done.
Qed.

(** No attachment bound: the status is "missing attachment" in every store;
    no pointer is followed. *)
Theorem CheckStatus_missing_attachment (w : World) (fb : Framebuffer) :
  (∀ ch, attachmentType fb ch = GL_NONE) →
  CheckStatus w fb = Some GL_FRAMEBUFFER_INCOMPLETE_MISSING_ATTACHMENT.
Proof.
  intros Hnone.
  by rewrite (CheckStatus_sees w fb None None None (Hnone Color) (Hnone Depth) (Hnone Stencil)).
Qed.

(** "Complete" is returned exactly when something is bound, every bound
    attachment is renderable with positive width and height, and all bound
    attachments have the same width and the same height. *)
Theorem CheckStatus_complete_iff (w : World) (fb : Framebuffer) :
  (∀ ch, attachmentType fb ch ≠ GL_NONE → is_Some (attachmentDeref w fb ch)) →
  CheckStatus w fb = Some GL_FRAMEBUFFER_COMPLETE ↔
    (∃ ch, attachmentType fb ch ≠ GL_NONE) ∧
    (∀ ch t, attachmentType fb ch ≠ GL_NONE → attachmentDeref w fb ch = Some t →
       renderable ch (Tex.mInternalFormat t) = true ∧ 0 < Tex.mWidth t ∧ 0 < Tex.mHeight t) ∧
    (∀ a b ta tb, attachmentType fb a ≠ GL_NONE → attachmentType fb b ≠ GL_NONE →
       attachmentDeref w fb a = Some ta → attachmentDeref w fb b = Some tb →
       Tex.mWidth ta = Tex.mWidth tb ∧ Tex.mHeight ta = Tex.mHeight tb).
Proof.
  intros Hall.
  destruct (sees_exists w fb Color (Hall Color)) as [oc Hc].
  destruct (sees_exists w fb Depth (Hall Depth)) as [od Hd].
  destruct (sees_exists w fb Stencil (Hall Stencil)) as [os Hs].
  rewrite (CheckStatus_sees w fb oc od os Hc Hd Hs).
  assert (∀ ch, ∃ o, View.sees w fb ch o ∧
            o = match ch with Color => oc | Depth => od | Stencil => os end) as Hview.
  { intros []; eauto. }
  split.
  - intros Hst.
    assert (oc ≠ None ∨ od ≠ None ∨ os ≠ None) as Hsome.
    { destruct oc, od, os;
        first [by left | by (right; left) | by (right; right) | by (simpl in Hst; simplify_eq)]. }
    assert (View.bad Color oc = false ∧ View.bad Depth od = false ∧
            View.bad Stencil os = false ∧ View.differ oc od = false ∧
            View.differ oc os = false ∧ View.differ od os = false)
      as (Bc & Bd & Bs & Dcd & Dcs & Dds).
    { unfold View.status in Hst.
      destruct (View.bad Color oc), (View.bad Depth od), (View.bad Stencil os),
        (View.differ oc od), (View.differ oc os), (View.differ od os);
        destruct oc, od, os; simpl in Hst; simplify_eq; done. }
    split_and!.
    + destruct oc as [tc|]; [exists Color; apply Hc|].
      destruct od as [td|]; [exists Depth; apply Hd|].
      destruct os as [ts|]; [exists Stencil; apply Hs|]. naive_solver.
    + intros ch t Hty Ht. destruct (Hview ch) as (o & Ho & Eo).
      rewrite (sees_inv _ _ _ _ _ Ho Hty Ht) in Eo.
      apply bad_false. destruct ch; rewrite Eo; done.
    + intros a b ta tb Ha Hb Hta Htb.
      destruct (Hview a) as (oa & Hoa & Ea). destruct (Hview b) as (ob & Hob & Eb).
      rewrite (sees_inv _ _ _ _ _ Hoa Ha Hta) in Ea.
      rewrite (sees_inv _ _ _ _ _ Hob Hb Htb) in Eb.
      destruct a, b; subst; simplify_eq;
        try (split; reflexivity);
        first [ by apply differ_false
              | by (apply differ_false in Dcd as [-> ->])
              | by (apply differ_false in Dcs as [-> ->])
              | by (apply differ_false in Dds as [-> ->]) ].
  - intros ((ch & Hbound) & Hgood & Hsame).
    assert (∀ ch t, match ch with Color => oc | Depth => od | Stencil => os end = Some t →
              attachmentType fb ch ≠ GL_NONE ∧ attachmentDeref w fb ch = Some t) as Hback.
    { intros c t E. destruct (Hview c) as (o & Ho & Eo). rewrite Eo, E in Ho. exact Ho. }
    assert (View.bad Color oc = false) as Bc.
    { destruct oc as [t|]; [|done]. destruct (Hback Color t eq_refl). apply bad_false. eauto. }
    assert (View.bad Depth od = false) as Bd.
    { destruct od as [t|]; [|done]. destruct (Hback Depth t eq_refl). apply bad_false. eauto. }
    assert (View.bad Stencil os = false) as Bs.
    { destruct os as [t|]; [|done]. destruct (Hback Stencil t eq_refl). apply bad_false. eauto. }
    assert (View.differ oc od = false) as Dcd.
    { destruct oc as [ta|], od as [tb|]; try done.
      destruct (Hback Color ta eq_refl), (Hback Depth tb eq_refl). apply differ_false. eauto. }
    assert (View.differ oc os = false) as Dcs.
    { destruct oc as [ta|], os as [tb|]; try done.
      destruct (Hback Color ta eq_refl), (Hback Stencil tb eq_refl). apply differ_false. eauto. }
    assert (View.differ od os = false) as Dds.
    { destruct od as [ta|], os as [tb|]; try done.
      destruct (Hback Depth ta eq_refl), (Hback Stencil tb eq_refl). apply differ_false. eauto. }
    unfold View.status. rewrite Bc, Bd, Bs, Dcd, Dcs, Dds.
    destruct oc, od, os; try done. exfalso. destruct ch; simpl in Hc, Hd, Hs; done.
Qed.

(** No bound attachment is bad and two of them differ in width or height:
    the status is "incomplete dimensions". *)
Theorem CheckStatus_dimension_mismatch (w : World) (fb : Framebuffer)
    (a b : Channel) (ta tb : Tex.Texture) :
  (∀ ch, attachmentType fb ch ≠ GL_NONE → is_Some (attachmentDeref w fb ch)) →
  (∀ ch t, attachmentType fb ch ≠ GL_NONE → attachmentDeref w fb ch = Some t →
     renderable ch (Tex.mInternalFormat t) = true ∧ 0 < Tex.mWidth t ∧ 0 < Tex.mHeight t) →
  attachmentType fb a ≠ GL_NONE → attachmentType fb b ≠ GL_NONE →
  attachmentDeref w fb a = Some ta → attachmentDeref w fb b = Some tb →
  Tex.mWidth ta ≠ Tex.mWidth tb ∨ Tex.mHeight ta ≠ Tex.mHeight tb →
  CheckStatus w fb = Some GL_FRAMEBUFFER_INCOMPLETE_DIMENSIONS.
Proof.
  intros Hall Hgood Ha Hb Hta Htb Hdiff.
  destruct (sees_exists w fb Color (Hall Color)) as [oc Hc].
  destruct (sees_exists w fb Depth (Hall Depth)) as [od Hd].
  destruct (sees_exists w fb Stencil (Hall Stencil)) as [os Hs].
  rewrite (CheckStatus_sees w fb oc od os Hc Hd Hs).
  assert (∀ ch, ∃ o, View.sees w fb ch o ∧
            o = match ch with Color => oc | Depth => od | Stencil => os end) as Hview.
  { intros []; eauto. }
  assert (∀ ch, View.bad ch (match ch with Color => oc | Depth => od | Stencil => os end)
                = false) as Hb0.
  { intros ch. destruct (Hview ch) as (o & Ho & <-). destruct o as [t|]; [|done].
    destruct Ho. apply bad_false. eauto. }
  pose proof (Hb0 Color) as Bc. pose proof (Hb0 Depth) as Bd. pose proof (Hb0 Stencil) as Bs.
  simpl in Bc, Bd, Bs.
  destruct (Hview a) as (oa & Hoa & Ea). destruct (Hview b) as (ob & Hob & Eb).
  rewrite (sees_inv _ _ _ _ _ Hoa Ha Hta) in Ea.
  rewrite (sees_inv _ _ _ _ _ Hob Hb Htb) in Eb.
  assert (View.differ (Some ta) (Some tb) = true) as Dab.
  { destruct (View.differ (Some ta) (Some tb)) eqn:E; [done|].
    apply differ_false in E as [? ?]. destruct Hdiff; done. }
  assert (View.differ (Some tb) (Some ta) = true) as Dba.
  { destruct (View.differ (Some tb) (Some ta)) eqn:E; [done|].
    apply differ_false in E as [? ?]. destruct Hdiff; done. }
  assert (a ≠ b) as Hne. { intros ->. simplify_eq. destruct Hdiff; done. }
  unfold View.status. rewrite Bc, Bd, Bs. simpl.
  destruct a, b; try done; subst; rewrite ?Dab, ?Dba, ?orb_true_r; simpl; try done;
    repeat match goal with |- context [View.differ ?x ?y] => destruct (View.differ x y) end;
    try done; match goal with |- context [match ?o with _ => _ end] => destruct o end; done.
Qed.
End StatusMore.

(** ** The attachment caches, continued *)

Section CacheMore.
Import Fb.

Lemma resolve_fill_texture w index name type ct cr :
  resolve w name type
    (if (index =? name) && (GL_TEXTURE =? type) && isNull ct
     then mTextureArray w !! index else ct) cr
  = resolve w name type ct cr.
Proof.
  destruct (Z.eqb_spec index name) as [->|]; [|done].
  destruct (Z.eqb_spec GL_TEXTURE type) as [<-|]; [|done].
  destruct ct as [t|]; [done|]. simpl. unfold resolve.
  destruct (name =? 0); [done|]. simpl. by destruct (mTextureArray w !! name).
Qed.

Lemma resolve_fill_renderbuffer w index name type ct cr :
  resolve w name type ct
    (if (index =? name) && (GL_RENDERBUFFER =? type) && isNull cr
     then mRenderbufferArray w !! index else cr)
  = resolve w name type ct cr.
Proof.
  destruct (Z.eqb_spec index name) as [->|]; [|done].
  destruct (Z.eqb_spec GL_RENDERBUFFER type) as [<-|]; [|done].
  destruct cr as [r|]; [done|]. simpl. unfold resolve.
  destruct (name =? 0); [done|]. simpl. by destruct (mRenderbufferArray w !! name).
Qed.

(** Caching the object the name table holds for [index] never changes what
    a channel resolves to. *)
Theorem CacheAttachement_transparent (w : World) (index : Z) (fb : Framebuffer) (ch : Channel) :
  attachmentTexture w (CacheAttachementTexture (mTextureArray w !! index) index fb) ch
    = attachmentTexture w fb ch ∧
  attachmentTexture w (CacheAttachementRenderbuffer (mRenderbufferArray w !! index) index fb) ch
    = attachmentTexture w fb ch.
Proof.
  split; destruct ch; simpl;
    unfold GetColorAttachmentTexture, GetDepthAttachmentTexture, GetStencilAttachmentTexture;
    simpl; destruct (mIsSystem fb); try done;
    first [apply resolve_fill_texture | apply resolve_fill_renderbuffer].
Qed.

Lemma cacheTexture_CacheAttachementTexture b index fb ch :
  cacheTexture (CacheAttachementTexture b index fb) ch
  = if (index =? attachmentName fb ch) && (GL_TEXTURE =? attachmentType fb ch)
       && isNull (cacheTexture fb ch)
    then b else cacheTexture fb ch.
Proof. by destruct ch. Qed.

Lemma cacheRenderbuffer_CacheAttachementRenderbuffer b index fb ch :
  cacheRenderbuffer (CacheAttachementRenderbuffer b index fb) ch
  = if (index =? attachmentName fb ch) && (GL_RENDERBUFFER =? attachmentType fb ch)
       && isNull (cacheRenderbuffer fb ch)
    then b else cacheRenderbuffer fb ch.
Proof. by destruct ch. Qed.

Lemma fill_twice (cond : bool) (b c : option nat) :
  (if cond && isNull (if cond && isNull c then b else c) then b
   else if cond && isNull c then b else c)
  = if cond && isNull c then b else c.
Proof. by destruct cond, c, b. Qed.

Lemma cacheTexture_twice b index fb ch :
  cacheTexture (CacheAttachementTexture b index (CacheAttachementTexture b index fb)) ch
  = cacheTexture (CacheAttachementTexture b index fb) ch.
Proof.
  rewrite (cacheTexture_CacheAttachementTexture b index (CacheAttachementTexture b index fb)).
  rewrite cacheTexture_CacheAttachementTexture.
  replace (attachmentName (CacheAttachementTexture b index fb) ch)
    with (attachmentName fb ch) by (by destruct ch).
  replace (attachmentType (CacheAttachementTexture b index fb) ch)
    with (attachmentType fb ch) by (by destruct ch).
  apply fill_twice.
Qed.

Lemma cacheRenderbuffer_twice b index fb ch :
  cacheRenderbuffer
    (CacheAttachementRenderbuffer b index (CacheAttachementRenderbuffer b index fb)) ch
  = cacheRenderbuffer (CacheAttachementRenderbuffer b index fb) ch.
Proof.
  rewrite (cacheRenderbuffer_CacheAttachementRenderbuffer b index
             (CacheAttachementRenderbuffer b index fb)).
  rewrite cacheRenderbuffer_CacheAttachementRenderbuffer.
  replace (attachmentName (CacheAttachementRenderbuffer b index fb) ch)
    with (attachmentName fb ch) by (by destruct ch).
  replace (attachmentType (CacheAttachementRenderbuffer b index fb) ch)
    with (attachmentType fb ch) by (by destruct ch).
  apply fill_twice.
Qed.

(** A cache that is set is never replaced, the caches of the other kind are
    never touched, and a second call with the same arguments changes
    nothing. *)
Theorem CacheAttachement_keeps_first (b : option nat) (index : Z) (fb : Framebuffer) :
  (∀ ch, cacheTexture fb ch ≠ None →
     cacheTexture (CacheAttachementTexture b index fb) ch = cacheTexture fb ch) ∧
  (∀ ch, cacheRenderbuffer (CacheAttachementTexture b index fb) ch = cacheRenderbuffer fb ch) ∧
  CacheAttachementTexture b index (CacheAttachementTexture b index fb)
    = CacheAttachementTexture b index fb ∧
  (∀ ch, cacheRenderbuffer fb ch ≠ None →
     cacheRenderbuffer (CacheAttachementRenderbuffer b index fb) ch = cacheRenderbuffer fb ch) ∧
  (∀ ch, cacheTexture (CacheAttachementRenderbuffer b index fb) ch = cacheTexture fb ch) ∧
  CacheAttachementRenderbuffer b index (CacheAttachementRenderbuffer b index fb)
    = CacheAttachementRenderbuffer b index fb.
Proof.
  split_and!.
  - intros ch Hset. rewrite cacheTexture_CacheAttachementTexture.
    destruct (cacheTexture fb ch); [|done]. simpl. by rewrite andb_false_r.
  - by intros [].
  - set (once := CacheAttachementTexture b index fb).
    set (twice := CacheAttachementTexture b index once).
    transitivity (setCaches (cacheTexture twice Color) (cacheTexture twice Depth)
                    (cacheTexture twice Stencil) (mCacheColorRenderbuffer fb)
                    (mCacheDepthRenderbuffer fb) (mCacheStencilRenderbuffer fb) fb);
      [reflexivity|].
    unfold twice, once. rewrite !cacheTexture_twice. reflexivity.
  - intros ch Hset. rewrite cacheRenderbuffer_CacheAttachementRenderbuffer.
    destruct (cacheRenderbuffer fb ch); [|done]. simpl. by rewrite andb_false_r.
  - by intros [].
  - set (once := CacheAttachementRenderbuffer b index fb).
    set (twice := CacheAttachementRenderbuffer b index once).
    transitivity (setCaches (mCacheColorTexture fb) (mCacheDepthTexture fb)
                    (mCacheStencilTexture fb) (cacheRenderbuffer twice Color)
                    (cacheRenderbuffer twice Depth) (cacheRenderbuffer twice Stencil) fb);
      [reflexivity|].
    unfold twice, once. rewrite !cacheRenderbuffer_twice. reflexivity.
Qed.

(** [CleanCachedAttachment] touches the two caches of the channel its
    argument names and nothing else; any other argument leaves the
    Framebuffer as it is. *)
Theorem CleanCachedAttachment_frame (attachment : Z) (fb : Framebuffer) :
  let fb' := CleanCachedAttachment attachment fb in
  fb' = setCaches (mCacheColorTexture fb') (mCacheDepthTexture fb') (mCacheStencilTexture fb')
          (mCacheColorRenderbuffer fb') (mCacheDepthRenderbuffer fb')
          (mCacheStencilRenderbuffer fb') fb ∧
  (∀ ch, FbOps.channelOf attachment ≠ Some ch →
     cacheTexture fb' ch = cacheTexture fb ch ∧
     cacheRenderbuffer fb' ch = cacheRenderbuffer fb ch) ∧
  (FbOps.channelOf attachment = None → fb' = fb).
Proof.
  unfold CleanCachedAttachment, FbOps.channelOf.
  destruct (attachment =? GL_COLOR_ATTACHMENT0).
  { destruct (cleanCase _ _ _ _). simpl. split_and!; [done| |done]. by intros []. }
  destruct (attachment =? GL_DEPTH_ATTACHMENT).
  { destruct (cleanCase _ _ _ _). simpl. split_and!; [done| |done]. by intros []. }
  destruct (attachment =? GL_STENCIL_ATTACHMENT).
  { destruct (cleanCase _ _ _ _). simpl. split_and!; [done| |done]. by intros []. }
  simpl. split_and!; [by destruct fb | done | done].
Qed.
End CacheMore.

(** ** Colour attachments, continued *)

Section AttachMore.
Import Fb.

(** [SetColorAttachment] is defined exactly when the surface pointer does
    not dangle, and it assigns [mSizeUpdated] afresh: the flag is set iff
    there is no combined surface or the surface's size is not the new
    size. *)
Theorem SetColorAttachment_sizeUpdated (w : World) (width height : Z) (fb : Framebuffer) :
  (is_Some (SetColorAttachment w width height fb) ↔ surfaceLive w fb) ∧
  ∀ fb', SetColorAttachment w width height fb = Some fb' →
    (mSizeUpdated fb' = true ↔
       mDepthStencilTexture fb = None ∨
       ∃ t, deref w (mDepthStencilTexture fb) = Some t ∧
            (Tex.mWidth t ≠ width ∨ Tex.mHeight t ≠ height)).
Proof.
  unfold SetColorAttachment, surfaceLive, deref.
  set (fb1 := if (length (mAttachmentColors fb) =? 0)%nat then _ else fb).
  assert (mDepthStencilTexture (setDims width height fb1) = mDepthStencilTexture fb) as ->.
  { unfold fb1. by destruct (length (mAttachmentColors fb) =? 0)%nat. }
  change (mWidth (setDims width height fb1)) with width.
  change (mHeight (setDims width height fb1)) with height.
  destruct (mDepthStencilTexture fb) as [s|]; cbn [mbind option_bind].
  - destruct (textures w !! s) as [t|]; cbn [mbind option_bind].
    + split; [split; [by eexists | by eexists]|].
      intros fb' [= <-]. cbn [mSizeUpdated setFlags].
      destruct (Z.eqb_spec (Tex.mWidth t) width), (Z.eqb_spec (Tex.mHeight t) height); simpl;
        (split; [intros Htrue | intros [?|(t' & [= <-] & [?|?])]]); try done;
        right; exists t; split; try done; by (left + right).
    + split; [split; by intros [? ?]|]. by intros fb' ?.
  - split; [split; [done | by eexists]|].
    intros fb' [= <-]. cbn [mSizeUpdated setFlags]. split; [by left | done].
Qed.

Lemma AddColorAttachment_Some w a t fb :
  textures w !! a = Some t →
  AddColorAttachment w (Some a) fb
  = Some (setFlags true (mSizeUpdated fb)
            (setDims (Tex.mWidth t) (Tex.mHeight t)
               (setAttachmentColors (mAttachmentColors fb ++ [newAttachment (Some a)]) fb))).
Proof. intros Ht. unfold AddColorAttachment, deref. simpl. by rewrite Ht. Qed.

Lemma AddColorAttachmentMany_colors w ts : ∀ fb,
  (∀ a, a ∈ ts → is_Some (textures w !! a)) →
  ∃ fb', FbOps.AddColorAttachmentMany w ts fb = Some fb' ∧
    mAttachmentColors fb' = mAttachmentColors fb ++ ((λ a, newAttachment (Some a)) <$> ts) ∧
    mIsSystem fb' = mIsSystem fb ∧ nextImageIndex fb' = nextImageIndex fb ∧
    mSizeUpdated fb' = mSizeUpdated fb ∧
    mDepthStencilTexture fb' = mDepthStencilTexture fb.
Proof.
  induction ts as [|a ts IH]; intros fb Hlive; cbn [FbOps.AddColorAttachmentMany].
  - exists fb. rewrite app_nil_r. done.
  - destruct (Hlive a) as [t Ht]; [left|].
    rewrite (AddColorAttachment_Some w a t fb Ht). cbn [mbind option_bind].
    destruct (IH (setFlags true (mSizeUpdated fb)
                    (setDims (Tex.mWidth t) (Tex.mHeight t)
                       (setAttachmentColors
                          (mAttachmentColors fb ++ [newAttachment (Some a)]) fb))))
      as (fb' & Hrun & Hc & Hs & Hn & Hz & Hd).
    { intros b Hb. apply Hlive. by right. }
    exists fb'. split; [done|]. rewrite Hc, Hs, Hn, Hz, Hd. simpl.
    rewrite <- app_assoc. done.
Qed.

(** A window surface built by adding one live texture per swap image: the
    colour list holds them in the order they were added, and the colour
    texture of the Framebuffer is the one at [nextImageIndex]; past the last
    slot it is undefined. *)
Theorem AddColorAttachment_swap_images (w : World) (ts : list nat) (fb : Framebuffer) :
  mIsSystem fb = true → mAttachmentColors fb = [] →
  (∀ a, a ∈ ts → is_Some (textures w !! a)) →
  ∃ fb', FbOps.AddColorAttachmentMany w ts fb = Some fb' ∧
    length (mAttachmentColors fb') = length ts ∧
    GetCurrentBufferIndex fb' = nextImageIndex fb ∧
    GetColorAttachmentTexture w fb' = Some <$> ts !! nextImageIndex fb ∧
    ∀ i, GetColorAttachmentTextureAt w fb' i = Some <$> ts !! i.
Proof.
  intros Hsys Hempty Hlive.
  destruct (AddColorAttachmentMany_colors w ts fb Hlive) as (fb' & Hrun & Hc & Hs & Hn & _).
  rewrite Hempty in Hc. simpl in Hc.
  exists fb'. split; [done|].
  assert (∀ i, (a ← mAttachmentColors fb' !! i; Some (mTexture a)) = Some <$> ts !! i) as Hat.
  { intros i. rewrite Hc, list_lookup_fmap. by destruct (ts !! i). }
  split_and!.
  - by rewrite Hc, length_fmap.
  - unfold GetCurrentBufferIndex. by rewrite Hs, Hsys.
  - unfold GetColorAttachmentTexture, GetCurrentBufferIndex. rewrite Hs, Hsys, Hn. apply Hat.
  - intros i. unfold GetColorAttachmentTextureAt. rewrite Hs, Hsys. apply Hat.
Qed.
End AttachMore.

(** ** The rebuild, continued *)

Section RebuildMore.
Import Fb.
Context `{Externals}.

(** When the device builds every slot, [Create] returns [true] and holds one
    new object per colour slot, in slot order; the active framebuffer is then
    the object of the current buffer index, and there is none when that
    index is not below the number of slots (no colour slot at all
    included). *)
Theorem Create_all_built (w : World) (fb : Framebuffer) :
  (∀ i, (i < length (mAttachmentColors fb))%nat → slotOutcome w fb (nextId w + i) i = true) →
  ∃ fb', Create w fb
           = Some (bumpIdBy (length (mAttachmentColors fb)) w, fb', true) ∧
    fb' = setFramebuffers (seq (nextId w) (length (mAttachmentColors fb))) fb ∧
    FbOps.GetActiveVkFramebuffer fb'
      = (if decide (GetCurrentBufferIndex fb < length (mAttachmentColors fb))%nat
         then Some (nextId w + GetCurrentBufferIndex fb)%nat else None).
Proof.
  intros Hbuilt. unfold Create.
  destruct (createLoop_spec (length (mAttachmentColors fb)) 0 w (Release fb))
    as (k & ok & Hrun & Hk & _ & Hend).
  { intros i Hi. specialize (Hbuilt i ltac:(lia)). unfold slotOutcome in Hbuilt.
    change (slotImageViews w (Release fb) i) with (slotImageViews w fb i).
    destruct (slotImageViews w fb i); [by eexists | done]. }
  destruct ok.
  - subst k. rewrite Nat.add_0_r in Hrun. eexists. split; [exact Hrun|]. split; [done|].
    unfold FbOps.GetActiveVkFramebuffer, GetCurrentBufferIndex. simpl.
    set (i := if mIsSystem fb then nextImageIndex fb else 0%nat).
    destruct (decide (i < length (mAttachmentColors fb))%nat) as [Hlt|Hge].
    + by rewrite lookup_seq_lt.
    + apply lookup_seq_ge. lia.
  - destruct Hend as [Hlt Hfail]. simpl in Hfail.
    change (slotOutcome w (Release fb) (nextId w + k) k) with (slotOutcome w fb (nextId w + k) k)
      in Hfail.
    rewrite Hbuilt in Hfail by done. done.
Qed.

(** The shape of the Framebuffer after a rebuild: only the two flags, the
    per-buffer objects, the render pass and the combined surface can
    differ. *)
Lemma rebuild_shape cc cd cs wc wd ws w fb w' fb' :
  rebuild cc cd cs wc wd ws w fb = Some (w', fb') →
  fb' = setFlags (mUpdated fb') (mSizeUpdated fb')
          (setFramebuffers (mFramebuffers fb')
             (setRenderPass (mRenderPass fb')
                (setDepthStencilTexture (mDepthStencilTexture fb') fb))).
Proof.
  unfold rebuild. intros Hrun.
  destruct (if negb (mIsSystem fb) && mSizeUpdated fb then _ else _) as [[w1 fb1]|] eqn:E1;
    cbn [mbind option_bind] in Hrun; [|done].
  destruct (CreateVkRenderPass cc cd cs wc wd ws w1 fb1) as [[[w2 fb2] ok2]|] eqn:E2;
    cbn [mbind option_bind] in Hrun; [|done].
  destruct (Create w2 fb2) as [[[w3 fb3] ok3]|] eqn:E3;
    cbn [mbind option_bind] in Hrun; [|done].
  simplify_eq.
  apply createLoop_fields in E3. apply CreateVkRenderPass_fields in E2 as (h & cf & df & E2).
  assert (fb1 = setFlags (mUpdated fb1) (mSizeUpdated fb1)
                  (setDepthStencilTexture (mDepthStencilTexture fb1) fb)) as E0.
  { destruct (negb (mIsSystem fb) && mSizeUpdated fb).
    - destruct (CreateDepthStencilTexture w fb) as [[w0 fb0]|] eqn:E0;
        cbn [mbind option_bind] in E1; [|done].
      simplify_eq. apply CreateDepthStencilTexture_fields in E0. rewrite E0. done.
    - simplify_eq. by destruct fb1. }
  rewrite E3, E2, E0. done.
Qed.

(** After every defined [CreateRenderPass]: the render pass records the six
    flags and the clear parameters of the call, the clear rectangle with its
    width and height taken modulo 2^32; [mUpdated] is clear; attachments,
    caches, dimensions and [mIsSystem] are what they were. *)
Theorem CreateRenderPass_records (cc cd cs wc wd ws : bool)
    (colorValue : list Z) (depthValue stencilValue : Z) (clearRect : Rect)
    (w w' : World) (fb fb' : Framebuffer) :
  CreateRenderPass cc cd cs wc wd ws colorValue depthValue stencilValue clearRect w fb
    = Some (w', fb') →
  (RP.mColorClearEnabled (mRenderPass fb'), RP.mDepthClearEnabled (mRenderPass fb'),
   RP.mStencilClearEnabled (mRenderPass fb'), RP.mColorWriteEnabled (mRenderPass fb'),
   RP.mDepthWriteEnabled (mRenderPass fb'), RP.mStencilWriteEnabled (mRenderPass fb'))
    = (cc, cd, cs, wc, wd, ws) ∧
  RP.mClearArea (mRenderPass fb')
    = {| x := x clearRect; y := y clearRect;
         width := width clearRect mod 2 ^ 32; height := height clearRect mod 2 ^ 32 |} ∧
  RP.mClearColorValue (mRenderPass fb') = colorValue ∧
  RP.mClearDepthValue (mRenderPass fb') = depthValue ∧
  RP.mClearStencilValue (mRenderPass fb') = stencilValue ∧
  mUpdated fb' = false ∧
  fb' = setFlags (mUpdated fb') (mSizeUpdated fb')
          (setFramebuffers (mFramebuffers fb')
             (setRenderPass (mRenderPass fb')
                (setDepthStencilTexture (mDepthStencilTexture fb') fb))).
Proof.
  unfold CreateRenderPass. intros Hrun.
  destruct (needsRebuild cc cd cs wc wd ws fb) eqn:Hneed.
  - destruct (rebuild cc cd cs wc wd ws w fb) as [[w1 fb1]|] eqn:Hre;
      cbn [mbind option_bind] in Hrun; [|done].
    pose proof (rebuild_shape _ _ _ _ _ _ _ _ _ _ Hre) as Hshape.
    apply rebuild_fields in Hre as (Hu & _ & _ & h & cf & df & Hrp).
    simplify_eq. simpl. rewrite Hrp, Hu. simpl. split_and!; try done.
    etransitivity; [apply (f_equal (setRenderPass _) Hshape)|]. rewrite Hu, Hrp. reflexivity.
  - cbn [mbind option_bind] in Hrun. simplify_eq. simpl.
    unfold needsRebuild in Hneed.
    destruct (mUpdated fb) eqn:Hu; [done|]. destruct (mSizeUpdated fb) eqn:Hs; [done|].
    simpl in Hneed.
    destruct (RP.mColorClearEnabled (mRenderPass fb)), cc; try done;
    destruct (RP.mDepthClearEnabled (mRenderPass fb)), cd; try done;
    destruct (RP.mStencilClearEnabled (mRenderPass fb)), cs; try done;
    destruct (RP.mColorWriteEnabled (mRenderPass fb)), wc; try done;
    destruct (RP.mDepthWriteEnabled (mRenderPass fb)), wd; try done;
    destruct (RP.mStencilWriteEnabled (mRenderPass fb)), ws; try done;
    split_and!; try done; destruct fb; simpl in *; by simplify_eq.
Qed.

(** On a window surface, and on any Framebuffer whose [mSizeUpdated] is
    clear, [CreateRenderPass] creates, deletes and recounts no texture and
    keeps the combined surface; identities are only ever handed out. *)
Theorem CreateRenderPass_keeps_textures (cc cd cs wc wd ws : bool)
    (colorValue : list Z) (depthValue stencilValue : Z) (clearRect : Rect)
    (w w' : World) (fb fb' : Framebuffer) :
  mIsSystem fb = true ∨ mSizeUpdated fb = false →
  CreateRenderPass cc cd cs wc wd ws colorValue depthValue stencilValue clearRect w fb
    = Some (w', fb') →
  textures w' = textures w ∧ deleted w' = deleted w ∧
  mDepthStencilTexture fb' = mDepthStencilTexture fb ∧ (nextId w <= nextId w')%nat.
Proof.
  intros Hcond. unfold CreateRenderPass. intros Hrun.
  destruct (needsRebuild cc cd cs wc wd ws fb).
  - destruct (rebuild cc cd cs wc wd ws w fb) as [[w1 fb1]|] eqn:Hre;
      cbn [mbind option_bind] in Hrun; [|done].
    simplify_eq. simpl. unfold rebuild in Hre.
    assert (negb (mIsSystem fb) && mSizeUpdated fb = false) as Hskip.
    { destruct Hcond as [-> | ->]; [done|]. by rewrite andb_false_r. }
    rewrite Hskip in Hre. cbn [mbind option_bind] in Hre.
    destruct (CreateVkRenderPass cc cd cs wc wd ws w fb) as [[[w2 fb2] ok2]|] eqn:E2;
      cbn [mbind option_bind] in Hre; [|done].
    destruct (Create w2 fb2) as [[[w3 fb3] ok3]|] eqn:E3;
      cbn [mbind option_bind] in Hre; [|done].
    simplify_eq.
    pose proof (createLoop_fields _ _ _ _ _ _ E3) as F3.
    apply createLoop_world in E3 as (T3 & D3 & N3).
    pose proof (CreateVkRenderPass_fields _ _ _ _ _ _ _ _ _ _ _ E2) as (h & cf & df & F2).
    unfold CreateVkRenderPass in E2.
    destruct (GetColorAttachmentTexture w fb) as [c|]; cbn [mbind option_bind] in E2; [|done].
    destruct (vkFormatOr w c) as [cf'|]; cbn [mbind option_bind] in E2; [|done].
    destruct (vkFormatOr w (mDepthStencilTexture fb)) as [df'|];
      cbn [mbind option_bind] in E2; [|done].
    injection E2 as <- _ _. simpl in *. rewrite T3, D3, F3, F2. simpl.
    split_and!; [done..|lia].
  - cbn [mbind option_bind] in Hrun. by simplify_eq.
Qed.
End RebuildMore.

(** ** [CheckForUpdatedResources] *)

Section UpdateMore.
Import Fb.

Lemma GetColorAttachmentTexture_frame w w' fb fb' :
  renderbuffers w' = renderbuffers w → mTextureArray w' = mTextureArray w →
  mRenderbufferArray w' = mRenderbufferArray w →
  fb' = setFlags (mUpdated fb') (mSizeUpdated fb') (setDims (mWidth fb') (mHeight fb') fb) →
  GetColorAttachmentTexture w' fb' = GetColorAttachmentTexture w fb.
Proof.
  intros Hr Ht Hra ->. unfold GetColorAttachmentTexture, resolve. simpl.
  by rewrite Hr, Ht, Hra.
Qed.

(** [CheckForUpdatedResources] with a colour texture [t] at address [a]:
    the Framebuffer takes the texture's size, [mUpdated] takes in the
    texture's update flag, [mSizeUpdated] is set if the size changed, and
    the texture's flag is cleared.  Neither flag of the Framebuffer is ever
    cleared, and nothing else changes. *)
Theorem CheckForUpdatedResources_adopts (w : World) (fb : Framebuffer) (a : nat)
    (t : Tex.Texture) :
  GetColorAttachmentTexture w fb = Some (Some a) → textures w !! a = Some t →
  ∃ fb',
    CheckForUpdatedResources w fb
      = Some (setTextures (<[a := Tex.SetDataUpdated false t]> (textures w)) w, fb') ∧
    mWidth fb' = Tex.mWidth t ∧ mHeight fb' = Tex.mHeight t ∧
    mUpdated fb' = mUpdated fb || Tex.mDataUpdated t ∧
    mSizeUpdated fb' = mSizeUpdated fb
                       || negb ((Tex.mWidth t =? mWidth fb) && (Tex.mHeight t =? mHeight fb)) ∧
    fb' = setFlags (mUpdated fb') (mSizeUpdated fb') (setDims (mWidth fb') (mHeight fb') fb).
Proof.
  intros Hc Ht. unfold CheckForUpdatedResources. rewrite Hc. cbn [mbind option_bind].
  rewrite Ht. cbn [mbind option_bind]. unfold updTexture. rewrite Ht. cbn [mbind option_bind].
  eexists. split; [reflexivity|].
  destruct fb as [sys upd szu wd ht dst colors ad ast c1 c2 c3 c4 c5 c6 fbs rp nii]. simpl.
  destruct (Z.eqb_spec (Tex.mWidth t) wd), (Z.eqb_spec (Tex.mHeight t) ht); simpl;
    subst; rewrite ?orb_true_r, ?orb_false_r; done.
Qed.

(** Running [CheckForUpdatedResources] again right away changes nothing. *)
Theorem CheckForUpdatedResources_idempotent (w w1 : World) (fb fb1 : Framebuffer) :
  CheckForUpdatedResources w fb = Some (w1, fb1) →
  CheckForUpdatedResources w1 fb1 = Some (w1, fb1).
Proof.
  intros Hrun.
  destruct (GetColorAttachmentTexture w fb) as [[a|]|] eqn:Hc.
  - destruct (textures w !! a) as [t|] eqn:Ht.
    + destruct (CheckForUpdatedResources_adopts w fb a t Hc Ht)
        as (fb' & Hrun' & Hw & Hh & Hu & Hs & Hshape).
      rewrite Hrun in Hrun'. injection Hrun' as -> ->.
      set (t1 := Tex.SetDataUpdated false t).
      assert (GetColorAttachmentTexture
                (setTextures (<[a := t1]> (textures w)) w) fb' = Some (Some a)) as Hc1.
      { rewrite <- Hc. by apply GetColorAttachmentTexture_frame. }
      destruct (CheckForUpdatedResources_adopts _ fb' a t1 Hc1) as (fb2 & Hrun2 & Hw2 & Hh2 & Hu2 & Hs2 & Hshape2).
      { simpl. by rewrite lookup_insert_eq. }
      rewrite Hrun2. f_equal. f_equal.
      * unfold setTextures. simpl. f_equal. rewrite insert_insert_eq. done.
      * assert (Tex.mWidth t1 = mWidth fb') as Ew by (by rewrite Hw).
        assert (Tex.mHeight t1 = mHeight fb') as Eh by (by rewrite Hh).
        assert (Tex.mDataUpdated t1 = false) as Ed by done.
        rewrite Hshape2, Hu2, Hs2, Hw2, Hh2, Ew, Eh, Ed, !Z.eqb_refl. simpl.
        rewrite !orb_false_r. by destruct fb'.
    + unfold CheckForUpdatedResources in Hrun. rewrite Hc in Hrun.
      cbn [mbind option_bind] in Hrun. by rewrite Ht in Hrun.
  - unfold CheckForUpdatedResources in *. rewrite Hc in Hrun. cbn [mbind option_bind] in Hrun.
    simplify_eq. by rewrite Hc.
  - unfold CheckForUpdatedResources in Hrun. by rewrite Hc in Hrun.
Qed.
End UpdateMore.

(** ** The combined surface, continued *)

Section SurfaceMore.
Import Fb.
Context `{Externals}.

(** Nothing to attach a surface to: on a window surface that holds no
    surface (its two getters return its own surface pointer), and on an
    off-screen Framebuffer whose depth and stencil attachment names are
    both 0, whatever their types and caches are,
    [CreateDepthStencilTexture] follows no pointer and changes nothing. *)
Theorem CreateDepthStencilTexture_nothing_to_do (w : World) (fb : Framebuffer) :
  (mIsSystem fb = true ∧ mDepthStencilTexture fb = None) ∨
  (mIsSystem fb = false ∧ GetDepthAttachmentName fb = 0 ∧ GetStencilAttachmentName fb = 0) →
  CreateDepthStencilTexture w fb = Some (w, fb).
Proof.
  intros Hcase.
  assert (GetDepthAttachmentTexture w fb = Some None ∧
          GetStencilAttachmentTexture w fb = Some None) as [Hd Hs].
  { unfold GetDepthAttachmentTexture, GetStencilAttachmentTexture, resolve.
    destruct Hcase as [[-> ->]|(-> & -> & ->)]; by split. }
  unfold CreateDepthStencilTexture. by rewrite Hd, Hs.
Qed.

(** After [CreateDepthStencilTexture] on an off-screen Framebuffer whose
    depth attachment is texture [T], on either path: the Framebuffer holds a
    surface, that surface is live, and it is the one recorded on [T]. *)
Theorem CreateDepthStencilTexture_links (w : World) (fb : Framebuffer)
    (T : nat) (tT : Tex.Texture) (s : option nat) :
  heap_fresh w → mIsSystem fb = false →
  GetDepthAttachmentTexture w fb = Some (Some T) → textures w !! T = Some tT →
  (∀ S, Tex.mDepthStencilTexture tT = Some S → is_Some (textures w !! S)) →
  (Tex.mDepthStencilTexture tT = None →
     GetStencilAttachmentTexture w fb = Some s ∧ is_Some (internalFormatOr w s) ∧
     ∀ old, mDepthStencilTexture fb = Some old →
       is_Some (textures w !! old) ∧ old ≠ T ∧ Some old ≠ s) →
  ∃ w' S tT' tS,
    CreateDepthStencilTexture w fb = Some (w', setDepthStencilTexture (Some S) fb) ∧
    textures w' !! T = Some tT' ∧ Tex.mDepthStencilTexture tT' = Some S ∧
    textures w' !! S = Some tS.
Proof.
  intros Hfresh Hsys Hd HT Hreuse Halloc.
  destruct (Tex.mDepthStencilTexture tT) as [S|] eqn:Hds.
  - destruct (Hreuse S eq_refl) as [tS HS].
    rewrite (CreateDepthStencilTexture_reuse w fb T tT S tS Hsys Hd HT Hds HS).
    destruct (decide (T = S)) as [->|Hne].
    + eexists _, S, _, _. split; [done|]. simpl. rewrite lookup_insert_eq.
      split_and!; [done| |done]. simplify_eq. done.
    + eexists _, S, tT, _. split; [done|]. simpl.
      rewrite lookup_insert_ne by done. rewrite lookup_insert_eq. done.
  - destruct (Halloc eq_refl) as (Hs & [sfmt Hsfmt] & Hold).
    assert (T ≠ nextId w) as HneT.
    { intros ->. assert (nextId w < nextId w)%nat; [|lia]. apply Hfresh. by rewrite HT. }
    assert (∃ w1, match mDepthStencilTexture fb with
                  | Some old => deleteTexture old w = Some w1 ∧ old ≠ T ∧ Some old ≠ s
                  | None => w1 = w
                  end) as [w1 Hw1].
    { destruct (mDepthStencilTexture fb) as [old|]; [|by exists w].
      destruct (Hold old eq_refl) as ([to Hto] & ? & ?).
      unfold deleteTexture. rewrite Hto. by eexists. }
    rewrite (CreateDepthStencilTexture_allocate w fb T tT s sfmt Hfresh Hsys Hd HT Hds Hs Hsfmt
               w1 Hw1).
    eexists _, (nextId w), _, _. split; [done|]. simpl.
    rewrite lookup_insert_ne by done. rewrite !lookup_insert_eq. done.
Qed.

(** A stencil-only off-screen Framebuffer, none of whose attachments was
    built on a texture: the surface it creates is counted for nobody
    (count 0) and recorded on no texture, and the destructor, which deletes
    at count 1 only, leaves it live and deletes nothing. *)
Theorem stencil_only_surface_outlives (w : World) (fb : Framebuffer)
    (Ts : nat) (ts : Tex.Texture) :
  heap_fresh w → mIsSystem fb = false → holdsNoTexture fb →
  mDepthStencilTexture fb = None →
  GetDepthAttachmentTexture w fb = Some None →
  GetStencilAttachmentTexture w fb = Some (Some Ts) → textures w !! Ts = Some ts →
  ∃ w' w'' surf surf',
    CreateDepthStencilTexture w fb
      = Some (w', setDepthStencilTexture (Some (nextId w)) fb) ∧
    textures w' = <[nextId w := surf]> (textures w) ∧
    Tex.mDepthStencilTextureRefCount surf = 0 ∧
    Tex.mWidth surf = mWidth fb ∧ Tex.mHeight surf = mHeight fb ∧
    destructor w' (setDepthStencilTexture (Some (nextId w)) fb) = Some w'' ∧
    textures w'' !! nextId w = Some surf' ∧ deleted w'' = deleted w.
Proof.
  intros Hfresh Hsys Hno Hnone Hd Hs Hts.
  assert (textures w !! nextId w = None) as Hnew.
  { destruct (textures w !! nextId w) eqn:E; [|done].
    assert (nextId w < nextId w)%nat; [|lia]. apply Hfresh. by rewrite E. }
  assert (Ts ≠ nextId w) as Hne. { intros ->. by rewrite Hnew in Hts. }
  unfold CreateDepthStencilTexture. rewrite Hd. cbn [mbind option_bind]. rewrite Hs.
  cbn [mbind option_bind]. rewrite bool_decide_eq_true_2 by (by eexists).
  unfold reusableSurface. rewrite Hsys. cbn [mbind option_bind].
  unfold allocateSurface. rewrite Hnone. cbn [mbind option_bind].
  rewrite (GetDepthAttachmentTexture_frame w) by done. rewrite Hd. cbn [mbind option_bind].
  assert (∀ w0, internalFormatOr w0 None = Some GL_INVALID_VALUE) as -> by done.
  cbn [mbind option_bind].
  rewrite (GetStencilAttachmentTexture_frame w) by done. rewrite Hs. cbn [mbind option_bind].
  rewrite internalFormatOr_frame by (intros a [= <-]; by rewrite lookup_insert_ne).
  assert (internalFormatOr w (Some Ts) = Some (Tex.mInternalFormat ts)) as ->.
  { unfold internalFormatOr. by rewrite Hts. }
  cbn [mbind option_bind].
  rewrite (updTexture_Some _ _ _ newTexture) by (simpl; by rewrite lookup_insert_eq).
  cbn [mbind option_bind].
  rewrite (GetDepthAttachmentTexture_frame w) by done. rewrite Hd.
  replace (mIsSystem (setDepthStencilTexture (Some (nextId w)) fb)) with false by done.
  cbv beta iota. cbn [mbind option_bind].
  eexists _, _, _, _. split; [reflexivity|]. simpl. split_and!.
  - by rewrite insert_insert_eq.
  - done.
  - done.
  - done.
  - rewrite destructor_holdsNoTexture by exact Hno.
    unfold releaseDepthStencilTexture. simpl. rewrite Hsys. rewrite lookup_insert_eq.
    cbn [mbind option_bind]. simpl. unfold updTexture. simpl. rewrite lookup_insert_eq.
    reflexivity.
  - simpl. by rewrite lookup_insert_eq.
  - done.
Qed.

(** The destructor of a window surface is the deletion of its attachment
    objects and nothing else: the combined surface is neither released nor
    followed.  The destructor of a Framebuffer none of whose attachments
    was built on a texture is defined exactly for a window surface or a
    surface pointer that does not dangle; it touches no texture but the
    Framebuffer's own surface, deletes at most that one, and on a window
    surface leaves the store as it is. *)
Theorem destructor_frame (w : World) (fb : Framebuffer) :
  (mIsSystem fb = true →
     destructor w fb
       = deleteAttachments
           (mAttachmentDepth fb :: mAttachmentStencil fb :: mAttachmentColors fb) w) ∧
  (holdsNoTexture fb →
     (is_Some (destructor w fb) ↔ mIsSystem fb = true ∨ surfaceLive w fb) ∧
     ∀ w', destructor w fb = Some w' →
       (∀ a, mDepthStencilTexture fb ≠ Some a → textures w' !! a = textures w !! a) ∧
       (deleted w' = deleted w ∨
        ∃ S, mDepthStencilTexture fb = Some S ∧ deleted w' = S :: deleted w ∧
             textures w' !! S = None) ∧
       (mIsSystem fb = true → w' = w) ∧
       renderbuffers w' = renderbuffers w ∧ mTextureArray w' = mTextureArray w ∧
       mRenderbufferArray w' = mRenderbufferArray w ∧ nextId w' = nextId w).
Proof.
  split.
  { intros Hsys. unfold destructor, releaseDepthStencilTexture. rewrite Hsys.
    cbn [deleteAttachments].
    destruct (deleteAttachment (mAttachmentDepth fb) w) as [w1|]; cbn [mbind option_bind]; [|done].
    by destruct (deleteAttachment (mAttachmentStencil fb) w1). }
  intros Hno. rewrite destructor_holdsNoTexture by done.
  unfold releaseDepthStencilTexture, surfaceLive.
  destruct (mIsSystem fb).
  { split; [split; [by left | by eexists]|]. intros w' [= <-]. split_and!; try done. by left. }
  destruct (mDepthStencilTexture fb) as [S|].
  2:{ split; [split; [by right | by eexists]|]. intros w' [= <-].
      split_and!; try done. by left. }
  destruct (textures w !! S) as [t|] eqn:Ht; cbn [mbind option_bind].
  2:{ split; [split; [by intros [? ?] | intros [?|[? ?]]; done]|]. by intros w' ?. }
  unfold deleteTexture, updTexture. rewrite Ht. cbn [mbind option_bind].
  destruct (Tex.mDepthStencilTextureRefCount t =? 1).
  - split; [split; [by right | by eexists]|]. intros w' [= <-]. simpl.
    split_and!; try done.
    + intros a Ha. rewrite lookup_delete_ne; [done|]. congruence.
    + right. exists S. by rewrite lookup_delete_eq.
  - split; [split; [by right | by eexists]|]. intros w' [= <-]. simpl.
    split_and!; try done.
    + intros a Ha. rewrite lookup_insert_ne; [done|]. congruence.
    + by left.
Qed.
End SurfaceMore.

(** ** [RefAttachment] and [UnrefAttachment] *)

Section BindMore.
Import Fb FbOps.

Lemma onTexture_undo w p :
  onTexture w TextureUnbind p = undoAll <$> onTexture w TextureBind p.
Proof.
  unfold onTexture. destruct p as [a|]; [|done]. simpl. by destruct (textures w !! a).
Qed.

Lemma onRenderbuffer_undo w p :
  onRenderbuffer w RenderbufferUnbind p = undoAll <$> onRenderbuffer w RenderbufferBind p.
Proof.
  unfold onRenderbuffer. destruct p as [a|]; [|done]. simpl. by destruct (renderbuffers w !! a).
Qed.

(** While the caches of the channel are null or hold the name table's
    entry, [UnrefAttachment] unbinds exactly the object [RefAttachment]
    binds, and is undefined exactly when [RefAttachment] is; for an enum
    that names no channel neither makes a call. *)
Theorem UnrefAttachment_undoes_RefAttachment (w : World) (attachment : Z) (fb : Framebuffer) :
  (∀ ch, channelOf attachment = Some ch →
     (cacheTexture fb ch = None ∨
      cacheTexture fb ch = mTextureArray w !! attachmentName fb ch) ∧
     (cacheRenderbuffer fb ch = None ∨
      cacheRenderbuffer fb ch = mRenderbufferArray w !! attachmentName fb ch)) →
  UnrefAttachment w attachment fb = undoAll <$> RefAttachment w attachment fb ∧
  (channelOf attachment = None →
     UnrefAttachment w attachment fb = Some [] ∧ RefAttachment w attachment fb = Some []).
Proof.
  intros Hcoh. unfold UnrefAttachment, RefAttachment.
  destruct (channelOf attachment) as [ch|]; [|done]. split; [|done].
  destruct (Hcoh ch eq_refl) as [Ht Hr]. unfold unrefCase, refCase.
  destruct (attachmentName fb ch =? 0); [done|].
  destruct (attachmentType fb ch =? GL_TEXTURE).
  - destruct Ht as [-> | Ht]; [apply onTexture_undo|].
    destruct (cacheTexture fb ch) as [t|]; [|apply onTexture_undo].
    rewrite Ht. apply onTexture_undo.
  - destruct (attachmentType fb ch =? GL_RENDERBUFFER); [|done].
    destruct Hr as [-> | Hr]; [apply onRenderbuffer_undo|].
    destruct (cacheRenderbuffer fb ch) as [r|]; [|apply onRenderbuffer_undo].
    rewrite Hr. apply onRenderbuffer_undo.
Qed.
End BindMore.

(** ** [EGLContext_t] *)

Section EglMore.
Import Egl.
Context `{Egl.Externals}.

(** [MakeCurrent] records the display in every case, never returns
    [EGL_FALSE], and returns [EGL_BAD_SURFACE] exactly for a null draw
    surface.  For a draw surface that is not a window surface it records
    nothing else and makes no callback, whatever the read surface is. *)
Theorem MakeCurrent_result (dpy draw read : option nat) (c c' : EGLContext_t)
    (st st' : State) (r : Z) :
  MakeCurrent dpy draw read c st = Some (c', st', r) →
  mDisplay c' = dpy ∧ r ≠ EGL_FALSE ∧
  (r = EGL_BAD_SURFACE ↔ draw = None) ∧ (draw ≠ None → r = EGL_TRUE) ∧
  mAPIContext c' = mAPIContext c ∧ mAPIInterface c' = mAPIInterface c ∧
  surfaces st' = surfaces st ∧
  (∀ d s, draw = Some d → surfaces st !! d = Some s → sType s ≠ EGL_WINDOW_BIT →
     c' = setDisplay dpy c ∧ st' = st).
Proof.
  unfold MakeCurrent, viaInterface. intros Hrun.
  destruct draw as [d|]; [|by simplify_eq].
  destruct (surfaces st !! d) as [ds|] eqn:Hd; cbn [mbind option_bind] in Hrun; [|done].
  destruct (Z.eqb_spec (sType ds) EGL_WINDOW_BIT) as [Hty|Hty]; simpl in Hrun.
  { assert (∀ d' s, Some d = Some d' → surfaces st !! d' = Some s →
              sType s ≠ EGL_WINDOW_BIT → c' = setDisplay dpy c ∧ st' = st) as Hnot.
    { intros d' s [= <-] Hs Hne. rewrite Hd in Hs. by simplify_eq. }
    destruct (mAPIInterface c) as [i|] eqn:Hi; cbn [mbind option_bind] in Hrun; [|done].
    destruct read as [rd|]; [|by simplify_eq].
    simpl in Hrun.
    destruct (surfaces st !! rd) as [rs|]; cbn [mbind option_bind] in Hrun; [|done].
    simpl in Hrun. by simplify_eq. }
  simplify_eq. split_and!; done.
Qed.

(** [Create] returns [EGL_TRUE] exactly when the API initialisation reports
    success or "already initialised" and the callback hands back a context;
    when the initialisation reports anything else no callback is made and
    the context pointer is left as it was. *)
Theorem Create_result (c c' : EGLContext_t) (st st' : State) (r : Z) :
  Create c st = Some (c', st', r) →
  let ret := (RENDERING_API_init_api (mRenderingAPI c) (mClientVersion c) (mAPIInterface c)).1 in
  (r = EGL_TRUE ∨ r = EGL_FALSE) ∧
  (r = EGL_TRUE ↔
     (ret = RENDERING_API_INIT_SUCCESS ∨ ret = RENDERING_API_ALREADY_INIT) ∧
     create_context_result (calls st) ≠ None) ∧
  ((∃ code, ret = RENDERING_API_other code) →
     st' = st ∧ mAPIContext c' = mAPIContext c) ∧
  (ret = RENDERING_API_INIT_SUCCESS ∨ ret = RENDERING_API_ALREADY_INIT →
     calls st' = calls st ++ [create_context_cb] ∧
     mAPIContext c' = create_context_result (calls st)).
Proof.
  unfold Create, viaInterface.
  destruct (RENDERING_API_init_api _ _ _) as [ret interface]. simpl.
  destruct ret; intros Hrun.
  - destruct interface; cbn [mbind option_bind] in Hrun; [|done]. simplify_eq. simpl.
    destruct (create_context_result (calls st)).
    + split_and!; [by left | | by intros [? ?] | done].
      split; [intros _; split; [by left | done] | done].
    + split_and!; [by right | | by intros [? ?] | done].
      split; [done | by intros [_ ?]].
  - destruct interface; cbn [mbind option_bind] in Hrun; [|done]. simplify_eq. simpl.
    destruct (create_context_result (calls st)).
    + split_and!; [by left | | by intros [? ?] | done].
      split; [intros _; split; [by right | done] | done].
    + split_and!; [by right | | by intros [? ?] | done].
      split; [done | by intros [_ ?]].
  - simplify_eq. split_and!; [by right | | done | by intros [?|?]].
    split; [done | by intros [[?|?] _]].
Qed.

(** [Destroy] on a context without callback table returns [EGL_FALSE] and
    makes no call; with one it returns [EGL_TRUE] and keeps the context
    pointer, so that a second [Destroy] deletes the same context again. *)
Theorem Destroy_twice (c : EGLContext_t) (st : State) :
  (mAPIInterface c = None → Destroy c st = (st, EGL_FALSE)) ∧
  (mAPIInterface c ≠ None →
     Destroy c st = (emit (delete_context_cb (mAPIContext c)) st, EGL_TRUE) ∧
     Destroy c (Destroy c st).1
       = (emit (delete_context_cb (mAPIContext c))
            (emit (delete_context_cb (mAPIContext c)) st), EGL_TRUE)).
Proof.
  unfold Destroy. destruct (mAPIInterface c); split; done.
Qed.

(** A context as its constructor leaves it has no callback table:
    [Destroy] returns [EGL_FALSE], and [Release], [Finish],
    [SetNextImageIndex] and [MakeCurrent] on a window surface are
    undefined. *)
Theorem constructed_context_has_no_interface (api : Z) (attribList : option (list Z))
    (c : EGLContext_t) (st : State) :
  constructor api attribList = Some c →
  mAPIInterface c = None ∧ mAPIContext c = None ∧
  Destroy c st = (st, EGL_FALSE) ∧
  Release c st = None ∧ Finish c st = None ∧ (∀ i, SetNextImageIndex i c st = None) ∧
  ∀ dpy d ds read, surfaces st !! d = Some ds → sType ds = EGL_WINDOW_BIT →
    MakeCurrent dpy (Some d) read c st = None.
Proof.
  unfold constructor. intros Hc.
  destruct (GetClientVersionFromConfig attribList); cbn [mbind option_bind] in Hc; [|done].
  simplify_eq. split_and!; try done.
  intros dpy d ds read Hd Hty. unfold MakeCurrent. rewrite Hd. cbn [mbind option_bind].
  by rewrite Hty.
Qed.

(** The client version is read from the first attribute pair only and
    comes back as an [EGLenum]: a non-negative [EGLint] unchanged, a
    negative one with 2^32 added.  A list that starts with any other
    attribute gives version 1 whatever follows, a later client-version pair
    included. *)
Theorem GetClientVersionFromConfig_first_pair (a v : Z) (rest : list Z) :
  GetClientVersionFromConfig None = Some (uint32 EGL_GL_VERSION_1) ∧
  GetClientVersionFromConfig (Some (EGL_CONTEXT_CLIENT_VERSION :: v :: rest))
    = Some (uint32 v) ∧
  (0 <= v < 2 ^ 31 →
     GetClientVersionFromConfig (Some (EGL_CONTEXT_CLIENT_VERSION :: v :: rest)) = Some v) ∧
  (- 2 ^ 31 <= v < 0 →
     GetClientVersionFromConfig (Some (EGL_CONTEXT_CLIENT_VERSION :: v :: rest))
       = Some (v + 2 ^ 32)) ∧
  (a ≠ EGL_CONTEXT_CLIENT_VERSION →
     GetClientVersionFromConfig (Some (a :: rest ++ [EGL_CONTEXT_CLIENT_VERSION; v]))
       = Some (uint32 EGL_GL_VERSION_1)).
Proof.
  split_and!; [done..| | |].
  - intros Hv. unfold GetClientVersionFromConfig. simpl. unfold uint32.
    by rewrite Z.mod_small by lia.
  - intros Hv. unfold GetClientVersionFromConfig. simpl. unfold uint32. f_equal.
    symmetry. apply Z.mod_unique_pos with (q := -1); lia.
  - intros Ha. unfold GetClientVersionFromConfig. simpl.
    apply Z.eqb_neq in Ha. by rewrite Ha.
Qed.
End EglMore.

(** ** [PlatformFactory] *)

Section PlatformMore.
Import Platform.

(** Whatever the build defines, the platform [ChoosePlatform] selects is
    one both getters serve: neither reaches [NOT_REACHED], and the instance
    keeps the chosen platform. *)
Theorem ChoosePlatform_is_served (b : Build) (mInstance : Instance) :
  let i := ChoosePlatform b mInstance in
  (∃ wsi, GetWindowInterface b i = (i, Returned wsi)) ∧
  GetResources b i = (i, Returned ()) ∧ i = Some (chosen b).
Proof.
  destruct b as [[] [] [] [] []], mInstance; simpl; eauto.
Qed.

(** Without a choice the factory is of unknown platform and both getters
    end in [NOT_REACHED]; [DestroyInstance] forgets a choice made before.
    Every platform [GetWindowInterface] serves is served by [GetResources]
    as well. *)
Theorem factory_lifecycle (b : Build) (mInstance : Instance) (t : PlatformType) :
  GetWindowInterface b None = (Some UNKNOWN_PLATFORM, NotReached) ∧
  GetResources b None = (Some UNKNOWN_PLATFORM, NotReached) ∧
  GetWindowInterface b (DestroyInstance (ChoosePlatform b mInstance))
    = (Some UNKNOWN_PLATFORM, NotReached) ∧
  (GetInstance (GetInstance mInstance).1 = GetInstance mInstance) ∧
  (windowInterfaceFor b t ≠ NotReached → resourcesFor b t = Returned ()).
Proof.
  split_and!; try done.
  - by destruct mInstance.
  - destruct t, b as [[] [] [] [] []]; simpl; done.
Qed.
End PlatformMore.

(** ** The further theorems on concrete states *)

Section ConcreteRuns2.
Import Fb Examples Examples2.

Lemma stencil_clear_writes_pixels_only_witness :
  ∃ written,
    UpdateClearDepthStencilTexture (H := okDevice) sharedWorld sharedA 0xA5 0xF0
      Stencil.rect8x8 buffer8x8 = Some written ∧
    length written = length buffer8x8 ∧
    ∀ j : nat,
      (∀ row col, 0 <= row < Stencil.height Stencil.rect8x8 →
                  0 <= col < Stencil.width Stencil.rect8x8 →
                  j ≠ Stencil.pixelIndex Stencil.rect8x8 row col) →
      written !! j = buffer8x8 !! j.
Proof.
  apply (stencil_clear_writes_pixels_only (H := okDevice) sharedWorld sharedA 0xA5 0xF0
           Stencil.rect8x8 buffer8x8).
  - exact stencilSurface_sharedA.
  - unfold Stencil.layout_ok. simpl. lia.
Defined.

Lemma stencil_clear_idempotent_witness :
  UpdateClearDepthStencilTexture (H := okDevice) sharedWorld sharedA 0xA5 0xF0
    Stencil.rect1x1 [0xA5] = Some [0xA5].
Proof.
  apply (stencil_clear_idempotent (H := okDevice) sharedWorld sharedA 0xA5 0xF0
           Stencil.rect1x1 [0] [0xA5]).
  - unfold Stencil.layout_ok. simpl. lia.
  - reflexivity.
Defined.

Lemma stencil_clear_full_mask_witness :
  ∃ written,
    UpdateClearDepthStencilTexture (H := okDevice) sharedWorld sharedA 0x1A5 0xFF
      Stencil.rect8x8 buffer8x8 = Some written ∧
    ∀ row col, 0 <= row < Stencil.height Stencil.rect8x8 →
               0 <= col < Stencil.width Stencil.rect8x8 →
      written !! Stencil.pixelIndex Stencil.rect8x8 row col = Some (Z.land 0x1A5 0xFF).
Proof.
  apply (stencil_clear_full_mask (H := okDevice) sharedWorld sharedA 0x1A5 0xFF
           Stencil.rect8x8 buffer8x8).
  - exact stencilSurface_sharedA.
  - unfold Stencil.layout_ok. simpl. lia.
  - reflexivity.
Defined.

(** On [fbA], which points to no surface yet, the clear has no result; on
    [sharedA] it has one, the rectangle lying inside the buffer. *)
Lemma stencil_clear_defined_iff_witness :
  (is_Some (UpdateClearDepthStencilTexture (H := okDevice) sharedWorld sharedA 0xA5 0xF0
              Stencil.rect8x8 buffer8x8) ↔
   stencilSurface (H := okDevice) sharedWorld sharedA ∧
   ∀ row col, 0 <= row < Stencil.height Stencil.rect8x8 →
              0 <= col < Stencil.width Stencil.rect8x8 →
     (Stencil.pixelIndex Stencil.rect8x8 row col < length buffer8x8)%nat) ∧
  UpdateClearDepthStencilTexture (H := okDevice) depthWorld fbA 0xA5 0xF0
    Stencil.rect8x8 buffer8x8 = None.
Proof.
  split; [|reflexivity].
  apply (stencil_clear_defined_iff (H := okDevice) sharedWorld sharedA 0xA5 0xF0
           Stencil.rect8x8 buffer8x8); simpl; lia.
Defined.

Lemma CheckStatus_missing_attachment_witness :
  CheckStatus (H := okDevice) emptyWorld constructed
  = Some GL_FRAMEBUFFER_INCOMPLETE_MISSING_ATTACHMENT.
Proof.
  apply (CheckStatus_missing_attachment (H := okDevice) emptyWorld constructed).
  intros []; reflexivity.
Defined.

Lemma CheckStatus_complete_iff_witness :
  CheckStatus (H := okDevice) resizeWorld targetFb = Some GL_FRAMEBUFFER_COMPLETE ↔
    (∃ ch, attachmentType targetFb ch ≠ GL_NONE) ∧
    (∀ ch t, attachmentType targetFb ch ≠ GL_NONE →
       attachmentDeref resizeWorld targetFb ch = Some t →
       renderable (H := okDevice) ch (Tex.mInternalFormat t) = true ∧
       0 < Tex.mWidth t ∧ 0 < Tex.mHeight t) ∧
    (∀ a b ta tb, attachmentType targetFb a ≠ GL_NONE → attachmentType targetFb b ≠ GL_NONE →
       attachmentDeref resizeWorld targetFb a = Some ta →
       attachmentDeref resizeWorld targetFb b = Some tb →
       Tex.mWidth ta = Tex.mWidth tb ∧ Tex.mHeight ta = Tex.mHeight tb).
Proof.
  apply (CheckStatus_complete_iff (H := okDevice) resizeWorld targetFb).
  intros [] Hty; [by eexists | by eexists |]. exfalso. apply Hty. reflexivity.
Defined.

Lemma CheckStatus_dimension_mismatch_witness :
  CheckStatus (H := okDevice) replaced.1 replaced.2
  = Some GL_FRAMEBUFFER_INCOMPLETE_DIMENSIONS.
Proof.
  apply (CheckStatus_dimension_mismatch (H := okDevice) replaced.1 replaced.2 Color Depth
           (texture 512 512) (Tex.SetDepthStencilTexture (Some 3%nat) (texture 256 256))).
  - intros [] Hty; [by eexists | by eexists |]. exfalso. apply Hty. reflexivity.
  - intros [] t Hty Ht; [| |exfalso; apply Hty; reflexivity];
      vm_compute in Ht; injection Ht as <-; simpl; split_and!; (reflexivity || lia).
  - discriminate.
  - discriminate.
  - reflexivity.
  - reflexivity.
  - left. simpl. lia.
Defined.

Lemma AddColorAttachment_swap_images_witness :
  ∃ fb', FbOps.AddColorAttachmentMany swapWorld [0%nat; 1%nat] emptyWindowFb = Some fb' ∧
    length (mAttachmentColors fb') = length [0%nat; 1%nat] ∧
    GetCurrentBufferIndex fb' = nextImageIndex emptyWindowFb ∧
    GetColorAttachmentTexture swapWorld fb'
      = Some <$> [0%nat; 1%nat] !! nextImageIndex emptyWindowFb ∧
    ∀ i, GetColorAttachmentTextureAt swapWorld fb' i = Some <$> [0%nat; 1%nat] !! i.
Proof.
  apply (AddColorAttachment_swap_images swapWorld [0%nat; 1%nat] emptyWindowFb).
  - reflexivity.
  - reflexivity.
  - intros a Ha. apply elem_of_cons in Ha as [->|Ha]; [by eexists|].
    apply elem_of_cons in Ha as [->|Ha]; [by eexists|]. by apply elem_of_nil in Ha.
Defined.

Lemma Create_all_built_witness :
  ∃ fb', Create (H := okDevice) swapWorld (windowFb false)
           = Some (bumpIdBy (length (mAttachmentColors (windowFb false))) swapWorld, fb', true) ∧
    fb' = setFramebuffers
            (seq (nextId swapWorld) (length (mAttachmentColors (windowFb false))))
            (windowFb false) ∧
    FbOps.GetActiveVkFramebuffer fb'
      = (if decide (GetCurrentBufferIndex (windowFb false)
                    < length (mAttachmentColors (windowFb false)))%nat
         then Some (nextId swapWorld + GetCurrentBufferIndex (windowFb false))%nat else None).
Proof.
  apply (Create_all_built (H := okDevice) swapWorld (windowFb false)).
  intros i Hi. simpl in Hi. destruct i as [|[|i]]; [reflexivity | reflexivity | lia].
Defined.

Lemma CreateRenderPass_records_witness :
  (RP.mColorClearEnabled (mRenderPass prepared.2), RP.mDepthClearEnabled (mRenderPass prepared.2),
   RP.mStencilClearEnabled (mRenderPass prepared.2),
   RP.mColorWriteEnabled (mRenderPass prepared.2),
   RP.mDepthWriteEnabled (mRenderPass prepared.2),
   RP.mStencilWriteEnabled (mRenderPass prepared.2))
    = (true, true, true, true, true, true) ∧
  RP.mClearArea (mRenderPass prepared.2)
    = {| x := x (fullRect 256 256); y := y (fullRect 256 256);
         width := width (fullRect 256 256) mod 2 ^ 32;
         height := height (fullRect 256 256) mod 2 ^ 32 |} ∧
  RP.mClearColorValue (mRenderPass prepared.2) = noColor ∧
  RP.mClearDepthValue (mRenderPass prepared.2) = 0 ∧
  RP.mClearStencilValue (mRenderPass prepared.2) = 0 ∧
  mUpdated prepared.2 = false ∧
  prepared.2 = setFlags (mUpdated prepared.2) (mSizeUpdated prepared.2)
                 (setFramebuffers (mFramebuffers prepared.2)
                    (setRenderPass (mRenderPass prepared.2)
                       (setDepthStencilTexture (mDepthStencilTexture prepared.2) targetFb))).
Proof.
  apply (CreateRenderPass_records (H := okDevice) true true true true true true
           noColor 0 0 (fullRect 256 256) resizeWorld prepared.1 targetFb prepared.2).
  vm_compute. reflexivity.
Defined.

Lemma CreateRenderPass_keeps_textures_witness :
  textures windowPrepared.1 = textures swapWorld ∧
  deleted windowPrepared.1 = deleted swapWorld ∧
  mDepthStencilTexture windowPrepared.2 = mDepthStencilTexture (windowFb true) ∧
  (nextId swapWorld <= nextId windowPrepared.1)%nat.
Proof.
  apply (CreateRenderPass_keeps_textures (H := okDevice) true true true true true true
           noColor 0 0 (fullRect 640 480) swapWorld windowPrepared.1
           (windowFb true) windowPrepared.2).
  - left. reflexivity.
  - vm_compute. reflexivity.
Defined.

Lemma CheckForUpdatedResources_adopts_witness :
  ∃ fb',
    CheckForUpdatedResources prepared.1 swapped
      = Some (setTextures
                (<[1%nat := Tex.SetDataUpdated false (texture 512 512)]> (textures prepared.1))
                prepared.1, fb') ∧
    mWidth fb' = Tex.mWidth (texture 512 512) ∧ mHeight fb' = Tex.mHeight (texture 512 512) ∧
    mUpdated fb' = mUpdated swapped || Tex.mDataUpdated (texture 512 512) ∧
    mSizeUpdated fb' = mSizeUpdated swapped
                       || negb ((Tex.mWidth (texture 512 512) =? mWidth swapped)
                                && (Tex.mHeight (texture 512 512) =? mHeight swapped)) ∧
    fb' = setFlags (mUpdated fb') (mSizeUpdated fb')
            (setDims (mWidth fb') (mHeight fb') swapped).
Proof.
  apply (CheckForUpdatedResources_adopts prepared.1 swapped 1 (texture 512 512)).
  - reflexivity.
  - reflexivity.
Defined.

Lemma CheckForUpdatedResources_idempotent_witness :
  CheckForUpdatedResources replaced.1 replaced.2 = Some (replaced.1, replaced.2).
Proof.
  apply (CheckForUpdatedResources_idempotent prepared.1 replaced.1 swapped replaced.2).
  vm_compute. reflexivity.
Defined.

Lemma CreateDepthStencilTexture_nothing_to_do_witness :
  CreateDepthStencilTexture (H := okDevice) swapWorld (windowFb true)
  = Some (swapWorld, windowFb true).
Proof.
  apply (CreateDepthStencilTexture_nothing_to_do (H := okDevice) swapWorld (windowFb true)).
  left. split; reflexivity.
Defined.

Lemma heap_fresh_depthWorld : heap_fresh depthWorld.
Proof.
  intros a [t Ht]. unfold depthWorld in *. simpl in *.
  destruct (decide (a = 0%nat)) as [->|H0]; [lia|].
  destruct (decide (a = 1%nat)) as [->|H1]; [lia|].
  rewrite lookup_insert_ne in Ht by done. rewrite lookup_singleton_ne in Ht by done. done.
Defined.

Lemma CreateDepthStencilTexture_links_witness :
  ∃ w' S tT' tS,
    CreateDepthStencilTexture (H := okDevice) depthWorld fbA
      = Some (w', setDepthStencilTexture (Some S) fbA) ∧
    textures w' !! 0%nat = Some tT' ∧ Tex.mDepthStencilTexture tT' = Some S ∧
    textures w' !! S = Some tS.
Proof.
  apply (CreateDepthStencilTexture_links (H := okDevice) depthWorld fbA 0 (texture 256 256) None).
  - exact heap_fresh_depthWorld.
  - reflexivity.
  - reflexivity.
  - reflexivity.
  - intros S HS. discriminate HS.
  - intros _. split_and!; [reflexivity | by eexists |]. intros old Hold. discriminate Hold.
Defined.

Lemma stencil_only_surface_outlives_witness :
  ∃ w' w'' surf surf',
    CreateDepthStencilTexture (H := okDevice) depthWorld stencilOnlyFb
      = Some (w', setDepthStencilTexture (Some (nextId depthWorld)) stencilOnlyFb) ∧
    textures w' = <[nextId depthWorld := surf]> (textures depthWorld) ∧
    Tex.mDepthStencilTextureRefCount surf = 0 ∧
    Tex.mWidth surf = mWidth stencilOnlyFb ∧ Tex.mHeight surf = mHeight stencilOnlyFb ∧
    destructor (H := okDevice) w' (setDepthStencilTexture (Some (nextId depthWorld)) stencilOnlyFb)
      = Some w'' ∧
    textures w'' !! nextId depthWorld = Some surf' ∧ deleted w'' = deleted depthWorld.
Proof.
  apply (stencil_only_surface_outlives (H := okDevice) depthWorld stencilOnlyFb 0
           (texture 256 256)).
  - exact heap_fresh_depthWorld.
  - reflexivity.
  - split_and!; [reflexivity..|]. intros a Ha. exfalso. revert Ha. apply not_elem_of_nil.
  - reflexivity.
  - reflexivity.
  - reflexivity.
  - reflexivity.
Defined.

Lemma UnrefAttachment_undoes_RefAttachment_witness :
  FbOps.UnrefAttachment resizeWorld GL_COLOR_ATTACHMENT0 targetFb
    = FbOps.undoAll <$> FbOps.RefAttachment resizeWorld GL_COLOR_ATTACHMENT0 targetFb ∧
  (FbOps.channelOf GL_COLOR_ATTACHMENT0 = None →
     FbOps.UnrefAttachment resizeWorld GL_COLOR_ATTACHMENT0 targetFb = Some [] ∧
     FbOps.RefAttachment resizeWorld GL_COLOR_ATTACHMENT0 targetFb = Some []).
Proof.
  apply (UnrefAttachment_undoes_RefAttachment resizeWorld GL_COLOR_ATTACHMENT0 targetFb).
  intros ch Hch. injection Hch as <-. split; left; reflexivity.
Defined.

Lemma MakeCurrent_result_witness :
  Egl.mDisplay (Egl.setDisplay (Some 5%nat) createdContext) = Some 5%nat ∧
  Egl.EGL_TRUE ≠ Egl.EGL_FALSE ∧
  (Egl.EGL_TRUE = Egl.EGL_BAD_SURFACE ↔ Some 2%nat = None) ∧
  (Some 2%nat ≠ None → Egl.EGL_TRUE = Egl.EGL_TRUE) ∧
  Egl.mAPIContext (Egl.setDisplay (Some 5%nat) createdContext) = Egl.mAPIContext createdContext ∧
  Egl.mAPIInterface (Egl.setDisplay (Some 5%nat) createdContext)
    = Egl.mAPIInterface createdContext ∧
  Egl.surfaces eglState = Egl.surfaces eglState ∧
  (∀ d s, Some 2%nat = Some d → Egl.surfaces eglState !! d = Some s →
     Egl.sType s ≠ Egl.EGL_WINDOW_BIT →
     Egl.setDisplay (Some 5%nat) createdContext = Egl.setDisplay (Some 5%nat) createdContext ∧
     eglState = eglState).
Proof.
  apply (MakeCurrent_result (Some 5%nat) (Some 2%nat) (Some 1%nat) createdContext
           (Egl.setDisplay (Some 5%nat) createdContext) eglState eglState Egl.EGL_TRUE).
  reflexivity.
Defined.

Lemma Create_result_witness :
  let ret := (Egl.RENDERING_API_init_api (Externals := api) (Egl.mRenderingAPI newContext)
                (Egl.mClientVersion newContext) (Egl.mAPIInterface newContext)).1 in
  (Egl.EGL_TRUE = Egl.EGL_TRUE ∨ Egl.EGL_TRUE = Egl.EGL_FALSE) ∧
  (Egl.EGL_TRUE = Egl.EGL_TRUE ↔
     (ret = Egl.RENDERING_API_INIT_SUCCESS ∨ ret = Egl.RENDERING_API_ALREADY_INIT) ∧
     Egl.create_context_result (Externals := api) (Egl.calls eglState) ≠ None) ∧
  ((∃ code, ret = Egl.RENDERING_API_other code) →
     Egl.emit Egl.create_context_cb eglState = eglState ∧
     Egl.mAPIContext createdContext = Egl.mAPIContext newContext) ∧
  (ret = Egl.RENDERING_API_INIT_SUCCESS ∨ ret = Egl.RENDERING_API_ALREADY_INIT →
     Egl.calls (Egl.emit Egl.create_context_cb eglState)
       = Egl.calls eglState ++ [Egl.create_context_cb] ∧
     Egl.mAPIContext createdContext
       = Egl.create_context_result (Externals := api) (Egl.calls eglState)).
Proof.
  apply (Create_result (H := api) newContext createdContext eglState
           (Egl.emit Egl.create_context_cb eglState) Egl.EGL_TRUE).
  reflexivity.
Defined.

Lemma constructed_context_has_no_interface_witness :
  Egl.mAPIInterface newContext = None ∧ Egl.mAPIContext newContext = None ∧
  Egl.Destroy newContext eglState = (eglState, Egl.EGL_FALSE) ∧
  Egl.Release newContext eglState = None ∧ Egl.Finish newContext eglState = None ∧
  (∀ i, Egl.SetNextImageIndex i newContext eglState = None) ∧
  ∀ dpy d ds read, Egl.surfaces eglState !! d = Some ds →
    Egl.sType ds = Egl.EGL_WINDOW_BIT →
    Egl.MakeCurrent dpy (Some d) read newContext eglState = None.
Proof.
  apply (constructed_context_has_no_interface (H := api) 0x30A0
           (Some [Egl.EGL_CONTEXT_CLIENT_VERSION; 2; 0x3038]) newContext eglState).
  reflexivity.
Defined.

(** The destructor of the window surface [windowFb] unrefs the textures of
    its two swap images and nothing else; that of [sharedA] is defined. *)
Lemma destructor_frame_witness :
  destructor (H := okDevice) swapWorld (windowFb false) = Some swapWorld ∧
  is_Some (destructor (H := okDevice) sharedWorld sharedA).
Proof.
  split.
  - rewrite (proj1 (destructor_frame (H := okDevice) swapWorld (windowFb false)) eq_refl).
    reflexivity.
  - apply (proj2 (destructor_frame (H := okDevice) sharedWorld sharedA) holdsNoTexture_sharedA).
    right. unfold surfaceLive. simpl. by eexists.
Defined.

End ConcreteRuns2.
